(** * Evil-SSHAgent: terminal state store, terminal manager and the
      reconciliation of the two managed terminals

    A shallow embedding of
    - the class [TerminalStateManager]: the persisted terminal table and
      the id counter,
    - the class [TerminalManager] (terminal-manager.js): the in-memory
      registry of terminal handles, the command log and
      [sendCommandToTerminal],
    - the functions of [activate] in the extension entry point:
      [isTerminalAliveInVSCode], [findExistingTerminalInVSCode],
      [tryRecoverExistingTerminal], [ensureTerminalsExist] and the callback
      of the periodic health check, [restoreTerminalIdsFromState],
      [validateTerminalExists], [sendCommandToMouseTerminal] and
      [sendCommandToCatTerminal],
    - [executeRemoteCommand] of the executor and the request listener of
      the HTTP server with its routes.

    The JavaScript is single threaded.  A synchronous function is one
    uninterrupted run from a world state to an outcome and a new world
    state.  An [async] function is embedded the same way: its segments
    between two [await]s run back to back, no other call of the program
    taking a turn in between.  A statement about a call, or about a run of
    several calls, is therefore a statement about calls that do not
    overlap; [createRemoteTerminal], whose segments matter when two calls
    do overlap, is also given segment by segment.  What lies outside the
    program (the two JSON files, the files under /tmp, the VS Code window)
    is part of the world state, so that a statement can quantify over it.

    Conventions of the embedding.
    - A JavaScript number that holds an id or a counter is a [nat] that
      stands for the double of that value; the one operation of the program
      on such a number, [++], is [Js.increment], which is exact below 2^53
      and rounds from there on.
    - [new Date().toISOString()] and [Date.now()] read the field [clock]:
      a time stamp is the number of milliseconds, its textual form is not
      modelled.  A [setTimeout] that is awaited advances the clock.
    - An exception is [Throw msg] with the message of the [Error]. *)

From stdpp Require Import gmap strings list fin_maps pretty.

Local Open Scope string_scope.
Local Open Scope list_scope.

(** ** JavaScript values used as terminal ids *)

Module Js.

(** A terminal id is a number when it comes from [getNextTerminalId] and
    a string when it is a key of the registry or of the persisted table. *)
Inductive Id :=
| IdNum (n : nat)
| IdStr (s : string).

(** [String(id)] *)
Definition String (i : Id) : string :=
  match i with
  | IdNum n => pretty n
  | IdStr s => s
  end.

(** [String(id)] where [id] may be [null] *)
Definition StringOpt (i : option Id) : string :=
  match i with
  | Some i => String i
  | None => "null"
  end.

(** Truthiness of [id], where [None] is [null]: [0] and the empty string
    are falsy as well. *)
Definition truthy (i : option Id) : bool :=
  match i with
  | None => false
  | Some (IdNum n) => negb (Nat.eqb n 0)
  | Some (IdStr s) => negb (String.eqb s EmptyString)
  end.

(** Truthiness of a value that is [null] or a string. *)
Definition truthy_str (o : option string) : bool :=
  match o with
  | None => false
  | Some s => negb (String.eqb s EmptyString)
  end.

(** [s.includes(pat)] *)
Fixpoint includes (pat s : string) : bool :=
  String.prefix pat s ||
  match s with
  | EmptyString => false
  | String.String _ s' => includes pat s'
  end.

(** [c.toUpperCase()] on the ASCII letters; the terminal types of the
    program are ASCII words. *)
Definition upper_ascii (c : Ascii.ascii) : Ascii.ascii :=
  let n := Ascii.nat_of_ascii c in
  if Nat.leb 97 n && Nat.leb n 122 then Ascii.ascii_of_nat (n - 32) else c.

Fixpoint toUpperCase (s : string) : string :=
  match s with
  | EmptyString => EmptyString
  | String.String c s' => String.String (upper_ascii c) (toUpperCase s')
  end.

Definition dquote : string := String.String (Ascii.ascii_of_nat 34) EmptyString.

(** [Number.MAX_SAFE_INTEGER], 2^53 - 1: the largest [n] for which the
    double [n + 1] is the integer [n + 1]. *)
Definition MAX_SAFE_INTEGER : N := (2 ^ 53 - 1)%N.

(** [n + 1] on the double that holds the integer [n], as [x++] stores it.
    Up to [MAX_SAFE_INTEGER] the sum is exact.  From 2^53 to 2^54 the
    doubles are the even integers, [n + 1] lies half way between [n] and
    [n + 2] and is rounded to the one whose significand, [n / 2] or
    [n / 2 + 1], is even.  From 2^54 on the doubles are four or more apart
    and [n + 1] is rounded back to [n]. *)
Definition increment (n : nat) : nat :=
  let x := N.of_nat n in
  if (x <=? MAX_SAFE_INTEGER)%N then S n
  else if (x <? 2 ^ 54)%N && N.odd (x / 2) then S (S n)
  else n.

(** The properties of [Object.prototype], which a plain object used as a
    table inherits. *)
Definition objectPrototype : list string :=
  ["constructor"; "__defineGetter__"; "__defineSetter__"; "hasOwnProperty";
   "__lookupGetter__"; "__lookupSetter__"; "isPrototypeOf";
   "propertyIsEnumerable"; "toString"; "valueOf"; "__proto__"; "toLocaleString"].

Definition inObjectPrototype (k : string) : bool :=
  existsb (String.eqb k) objectPrototype.

End Js.

Arguments Js.increment : simpl never.

(** ** Outcomes and the monad of the program *)

Inductive Outcome (A : Type) :=
| Ret (a : A)
| Throw (msg : string)
| Blocked.
Arguments Ret {A} a.
Arguments Throw {A} msg.
Arguments Blocked {A}.

(** ** The world *)

(** A JSON file: absent, present but not readable ([readFileSync] or
    [JSON.parse] throws, or the parsed value lacks what its reader takes
    from it at once and throws on: the table [terminals] of the state file
    in [loadState], the array of the command log), or holding a value of the
    expected shape.  For the state file that shape is an object with a
    table of descriptors and a counter that is a non-negative integer: a
    file that parses to a state whose counter is missing or is no such
    number is none of the three, such files are not among the worlds of the
    embedding. *)
Inductive FileContent (A : Type) :=
| Missing
| Garbage
| Holds (a : A).
Arguments Missing {A}.
Arguments Garbage {A}.
Arguments Holds {A} a.

Record File (A : Type) := mkFile {
  content : FileContent A;
  writable : bool            (* false: [writeFileSync] throws *)
}.
Arguments mkFile {A}.
Arguments content {A}.
Arguments writable {A}.

(** An entry of [stateData.terminals]. *)
Record Descriptor := mkDescriptor {
  d_id : string;
  d_type : string;
  d_createdTime : nat;
  d_lastUpdated : nat;
  d_lastActivity : nat;
  d_name : string
}.

(** [stateData] of the state manager, which is also the content of the
    state file. *)
Record StateData := mkStateData {
  terminals : gmap string Descriptor;
  terminalIdCounter : nat;
  lastUpdated : nat
}.

(** An entry of the command log. *)
Record LogEntry := mkLogEntry {
  le_id : nat;
  le_timestamp : nat;
  le_terminalId : string;
  le_terminalType : string;
  le_command : string;
  le_outputFile : option string;
  le_result : option string;
  le_status : string
}.

(** A terminal of the VS Code window: the object identity [t_ref], its
    name, and whether reading [name] and [processId] succeeds. *)
Record VSTerminal := mkVSTerminal {
  t_ref : nat;
  t_name : string;
  t_readable : bool
}.

(** The VS Code window as the program sees it. *)
Record VSCode := mkVSCode {
  window_terminals : list VSTerminal;   (* [vscode.window.terminals] *)
  next_ref : nat;                       (* identity of the next terminal *)
  shell_name : string;                  (* name the host gives a new terminal *)
  host_ok : bool;                       (* false: creating a terminal throws *)
  shown : list nat;                     (* calls of [terminal.show()], latest first *)
  sentText : list (nat * string);       (* calls of [terminal.sendText], latest first *)
  sequences : list string               (* [terminal.sendSequence] commands *)
}.

(** A value of the registry [managedTerminals]. *)
Record TerminalInfo := mkTerminalInfo {
  ti_terminal : nat;
  ti_type : string;
  ti_createdTime : nat;
  ti_lastActivity : nat;
  ti_name : string
}.

(** A callback registered with [setTimeout] by [sendCommandToTerminal]. *)
Inductive Timer :=
| TClear (term : nat) (terminalId command : string) (outputFile : option string)
| TReadBack (terminalId command outputFile : string).

(** The module-level variables of extension.js and of server.js. *)
Record Globals := mkGlobals {
  mouseTerminalId : option Js.Id;
  catTerminalId : option Js.Id;
  terminalsInitialized : bool;
  terminalCreationInProgress : bool;
  shouldMaintainTerminals : bool;
  mouseTerminalIdRef : option Js.Id
}.

(** [terminalsPrototype] is the prototype of the object
    [stateData.terminals]: [None] for [Object.prototype], which every
    object literal and every parsed object starts with, [Some d] for an
    object [d] assigned through the key [__proto__].  It is no part of
    [stateData]: [JSON.stringify] writes own properties only. *)
Record World := mkWorld {
  clock : nat;
  stateFile : File StateData;
  commandLog : File (list LogEntry);
  tmpFiles : gmap string string;
  vscode : VSCode;
  stateData : StateData;
  managedTerminals : list (string * TerminalInfo);
  timers : list Timer;
  globals : Globals;
  terminalsPrototype : option Descriptor
}.

(** Field updates. *)
Definition set_clock (f : nat → nat) (w : World) : World :=
  mkWorld (f (clock w)) (stateFile w) (commandLog w) (tmpFiles w) (vscode w)
          (stateData w) (managedTerminals w) (timers w) (globals w)
          (terminalsPrototype w).
Definition set_stateFile (f : File StateData → File StateData) (w : World) : World :=
  mkWorld (clock w) (f (stateFile w)) (commandLog w) (tmpFiles w) (vscode w)
          (stateData w) (managedTerminals w) (timers w) (globals w)
          (terminalsPrototype w).
Definition set_commandLog (f : File (list LogEntry) → File (list LogEntry)) (w : World) : World :=
  mkWorld (clock w) (stateFile w) (f (commandLog w)) (tmpFiles w) (vscode w)
          (stateData w) (managedTerminals w) (timers w) (globals w)
          (terminalsPrototype w).
Definition set_vscode (f : VSCode → VSCode) (w : World) : World :=
  mkWorld (clock w) (stateFile w) (commandLog w) (tmpFiles w) (f (vscode w))
          (stateData w) (managedTerminals w) (timers w) (globals w)
          (terminalsPrototype w).
Definition set_stateData (f : StateData → StateData) (w : World) : World :=
  mkWorld (clock w) (stateFile w) (commandLog w) (tmpFiles w) (vscode w)
          (f (stateData w)) (managedTerminals w) (timers w) (globals w)
          (terminalsPrototype w).
Definition set_managedTerminals
    (f : list (string * TerminalInfo) → list (string * TerminalInfo)) (w : World) : World :=
  mkWorld (clock w) (stateFile w) (commandLog w) (tmpFiles w) (vscode w)
          (stateData w) (f (managedTerminals w)) (timers w) (globals w)
          (terminalsPrototype w).
Definition set_timers (f : list Timer → list Timer) (w : World) : World :=
  mkWorld (clock w) (stateFile w) (commandLog w) (tmpFiles w) (vscode w)
          (stateData w) (managedTerminals w) (f (timers w)) (globals w)
          (terminalsPrototype w).
Definition set_globals (f : Globals → Globals) (w : World) : World :=
  mkWorld (clock w) (stateFile w) (commandLog w) (tmpFiles w) (vscode w)
          (stateData w) (managedTerminals w) (timers w) (f (globals w))
          (terminalsPrototype w).

Definition set_terminalsPrototype (f : option Descriptor → option Descriptor)
    (w : World) : World :=
  mkWorld (clock w) (stateFile w) (commandLog w) (tmpFiles w) (vscode w)
          (stateData w) (managedTerminals w) (timers w) (globals w)
          (f (terminalsPrototype w)).

(** The monad: a run threads the world and ends in an outcome. *)
Definition M (A : Type) : Type := World → Outcome A * World.

Definition ret {A} (a : A) : M A := fun w => (Ret a, w).
Definition throw {A} (msg : string) : M A := fun w => (Throw msg, w).
Definition blocked {A} : M A := fun w => (Blocked, w).
Definition bind {A B} (m : M A) (k : A → M B) : M B :=
  fun w =>
    match m w with
    | (Ret a, w') => k a w'
    | (Throw e, w') => (Throw e, w')
    | (Blocked, w') => (Blocked, w')
    end.
Definition gets {A} (f : World → A) : M A := fun w => (Ret (f w), w).
Definition modify (f : World → World) : M unit := fun w => (Ret tt, f w).

(** [try { m } catch (error) { h error.message }] *)
Definition try_catch {A} (m : M A) (h : string → M A) : M A :=
  fun w =>
    match m w with
    | (Throw e, w') => h e w'
    | r => r
    end.

(** [try { m } finally { f }]; a run that is suspended for ever does not
    reach its [finally]. *)
Definition try_finally {A} (m : M A) (f : World → World) : M A :=
  fun w =>
    match m w with
    | (Blocked, w') => (Blocked, w')
    | (o, w') => (o, f w')
    end.

Notation "'do' x <~ m ; k" := (bind m (fun x => k))
  (at level 10, x name, m at level 100, k at level 200, only parsing).
Notation "'run' m ; k" := (bind m (fun _ => k))
  (at level 10, m at level 100, k at level 200, only parsing).

(** [await new Promise(resolve => setTimeout(resolve, ms))] *)
Definition sleep (ms : nat) : M unit := modify (set_clock (fun t => t + ms)).

(** ** The file system calls of Node *)

Definition existsSync {A} (f : File A) : bool :=
  match content f with
  | Missing => false
  | _ => true
  end.

(** [JSON.parse(fs.readFileSync(path, 'utf8'))] *)
Definition readJson {A} (sel : World → File A) : M A :=
  fun w =>
    match content (sel w) with
    | Holds a => (Ret a, w)
    | Garbage => (Throw "Unexpected token", w)
    | Missing => (Throw "ENOENT", w)
    end.

Definition write {A} (a : A) (f : File A) : File A :=
  mkFile (Holds a) (writable f).

(** ** TerminalStateManager *)

Definition freshState (now : nat) : StateData :=
  mkStateData ∅ 1 now.

Definition with_lastUpdated (now : nat) (s : StateData) : StateData :=
  mkStateData (terminals s) (terminalIdCounter s) now.
Definition with_terminals (f : gmap string Descriptor → gmap string Descriptor)
    (s : StateData) : StateData :=
  mkStateData (f (terminals s)) (terminalIdCounter s) (lastUpdated s).
Definition with_counter (f : nat → nat) (s : StateData) : StateData :=
  mkStateData (terminals s) (f (terminalIdCounter s)) (lastUpdated s).

(** [fs.writeFileSync(this.stateFilePath, JSON.stringify(this.stateData))] *)
Definition writeStateFile : M unit :=
  fun w =>
    if writable (stateFile w)
    then (Ret tt, set_stateFile (write (stateData w)) w)
    else (Throw "EACCES", w).

(** [saveState()]: stamps [lastUpdated], rewrites the whole file, and
    swallows every error. *)
Definition saveState : M unit :=
  try_catch
    (do now <~ gets clock;
     run modify (set_stateData (with_lastUpdated now));
     writeStateFile)
    (fun _ => ret tt).

(** [this.stateData = s] where [s] is a new object: its table has the
    prototype of every new object. *)
Definition newStateData (s : StateData) (w : World) : World :=
  set_terminalsPrototype (fun _ => None) (set_stateData (fun _ => s) w).

(** [loadState()] *)
Definition loadState : M unit :=
  try_catch
    (do ex <~ gets (fun w => existsSync (stateFile w));
     if ex : bool
     then
       (do parsed <~ readJson stateFile;
        modify (newStateData parsed))
     else saveState)
    (fun _ =>
       do now <~ gets clock;
       modify (newStateData (freshState now))).

(** [new TerminalStateManager(stateFilePath)] *)
Definition newTerminalStateManager : M unit :=
  do now <~ gets clock;
  run modify (newStateData (freshState now));
  loadState.

(** What [this.stateData.terminals[k]] can evaluate to: [undefined], a
    descriptor, a string or a time stamp (properties of a descriptor that
    has become the prototype of the table), or a function or object of
    [Object.prototype]. *)
Inductive Value :=
| JsUndefined
| JsDescriptor (d : Descriptor)
| JsString (s : string)
| JsDate (t : nat)
| JsNative.

(** Truthiness: every object and function, every non-empty string; a time
    stamp is the non-empty string [toISOString] returns. *)
Definition truthyValue (v : Value) : bool :=
  match v with
  | JsUndefined => false
  | JsDescriptor _ => true
  | JsString s => negb (String.eqb s EmptyString)
  | JsDate _ => true
  | JsNative => true
  end.

(** [d[k]] for the own properties of a stored descriptor. *)
Definition descriptorProperty (d : Descriptor) (k : string) : option Value :=
  if String.eqb k "id" then Some (JsString (d_id d))
  else if String.eqb k "type" then Some (JsString (d_type d))
  else if String.eqb k "createdTime" then Some (JsDate (d_createdTime d))
  else if String.eqb k "lastUpdated" then Some (JsDate (d_lastUpdated d))
  else if String.eqb k "lastActivity" then Some (JsDate (d_lastActivity d))
  else if String.eqb k "name" then Some (JsString (d_name d))
  else None.

(** What the table inherits under the name [k]: a property of its
    prototype, else one of [Object.prototype], whose accessor [__proto__]
    answers the prototype of the table. *)
Definition inheritedGet (k : string) (w : World) : Value :=
  match terminalsPrototype w with
  | Some p =>
      match descriptorProperty p k with
      | Some v => v
      | None =>
          if String.eqb k "__proto__" then JsDescriptor p
          else if Js.inObjectPrototype k then JsNative
          else JsUndefined
      end
  | None => if Js.inObjectPrototype k then JsNative else JsUndefined
  end.

(** [this.stateData.terminals[k]], read: an own property of the table,
    else what the table inherits. *)
Definition terminalsGet (k : string) (w : World) : Value :=
  match terminals (stateData w) !! k with
  | Some d => JsDescriptor d
  | None => inheritedGet k w
  end.

(** [this.stateData.terminals[k] = d].  On a table without an own property
    [__proto__] (a parsed file can hold one) the key [__proto__] reaches the
    setter of [Object.prototype]: [d] becomes the prototype of the table
    and no property is added.  Every other key becomes or stays an own
    property. *)
Definition terminalsSet (k : string) (d : Descriptor) (w : World) : World :=
  match String.eqb k "__proto__", terminals (stateData w) !! k with
  | true, None => set_terminalsPrototype (fun _ => Some d) w
  | _, _ => set_stateData (with_terminals (<[k := d]>)) w
  end.

(** The object stored by [upsertTerminal]: the spread of [terminalInfo]
    followed by [id] and [lastUpdated], which therefore win over whatever
    the argument carries in these two fields. *)
Definition stored (terminalId : string) (now : nat) (terminalInfo : Descriptor) : Descriptor :=
  mkDescriptor terminalId (d_type terminalInfo) (d_createdTime terminalInfo)
               now (d_lastActivity terminalInfo) (d_name terminalInfo).

(** [upsertTerminal(terminalId, terminalInfo)] *)
Definition upsertTerminal (terminalId : Js.Id) (terminalInfo : Descriptor) : M unit :=
  let terminalId := Js.String terminalId in
  do now <~ gets clock;
  run modify (terminalsSet terminalId (stored terminalId now terminalInfo));
  saveState.

(** [getTerminal(terminalId)]: the value of [terminals[terminalId]] when it
    is truthy; [None] is [null]. *)
Definition getTerminal (terminalId : Js.Id) (w : World) : option Value :=
  let terminalInfo := terminalsGet (Js.String terminalId) w in
  if truthyValue terminalInfo then Some terminalInfo else None.

(** [removeTerminal(terminalId)]; [delete] removes an own property and
    does nothing to an inherited one. *)
Definition removeTerminal (terminalId : Js.Id) : M bool :=
  let terminalId := Js.String terminalId in
  do known <~ gets (terminalsGet terminalId);
  if negb (truthyValue known) then ret false
  else
    run modify (set_stateData (with_terminals (delete terminalId)));
    run saveState;
    ret true.

(** [getNextTerminalId()] *)
Definition getNextTerminalId : M nat :=
  do nextId <~ gets (fun w => terminalIdCounter (stateData w));
  run modify (set_stateData (with_counter Js.increment));
  run saveState;
  ret nextId.

(** [clearAllTerminals()]: the table is replaced by a new object. *)
Definition clearAllTerminals : M unit :=
  run modify (set_stateData (with_terminals (fun _ => ∅)));
  run modify (set_terminalsPrototype (fun _ => None));
  saveState.

(** [count] sequential calls of [getNextTerminalId], collecting the results. *)
Fixpoint nextIds (count : nat) : M (list nat) :=
  match count with
  | 0 => ret []
  | S k =>
      do i <~ getNextTerminalId;
      do rest <~ nextIds k;
      ret (i :: rest)
  end.

(** ** TerminalManager *)

(** The registry [managedTerminals] is a JavaScript [Map] with string keys:
    iteration follows insertion order and [set] on a present key keeps its
    place. *)
Module JsMap.
Section JsMap.
Context {V : Type}.

Fixpoint get (k : string) (m : list (string * V)) : option V :=
  match m with
  | [] => None
  | (k', v) :: m' => if String.eqb k k' then Some v else get k m'
  end.

Fixpoint set (k : string) (v : V) (m : list (string * V)) : list (string * V) :=
  match m with
  | [] => [(k, v)]
  | (k', v') :: m' =>
      if String.eqb k k' then (k, v) :: m' else (k', v') :: set k v m'
  end.

Definition keys (m : list (string * V)) : list string := m.*1.
End JsMap.
End JsMap.

(** The object returned by [sendCommandToTerminal]. *)
Record CommandResult := mkCommandResult {
  stdout : string;
  stderr : string;
  exitCode : nat;
  outputFile : option string
}.

(** [fs.writeFileSync(this.commandLogPath, JSON.stringify(logData))] *)
Definition writeCommandLog (logData : list LogEntry) : M unit :=
  fun w =>
    if writable (commandLog w)
    then (Ret tt, set_commandLog (write logData) w)
    else (Throw "EACCES", w).

(** [fs.existsSync(path) ? JSON.parse(fs.readFileSync(path)) : []] *)
Definition readCommandLog : M (list LogEntry) :=
  do ex <~ gets (fun w => existsSync (commandLog w));
  if ex : bool then readJson commandLog else ret [].

(** [initializeCommandLog()] *)
Definition initializeCommandLog : M unit :=
  try_catch
    (do ex <~ gets (fun w => existsSync (commandLog w));
     if ex : bool then ret tt else writeCommandLog [])
    (fun _ => ret tt).

(** [logCommandExecution(terminalId, terminalType, command, outputFile, result)] *)
Definition logCommandExecution (terminalId terminalType command : string)
    (outputFile result : option string) : M unit :=
  try_catch
    (do logData <~ readCommandLog;
     do now <~ gets clock;
     let logEntry :=
       mkLogEntry (length logData + 1) now terminalId terminalType command
                  outputFile result "executed" in
     writeCommandLog (logData ++ [logEntry]))
    (fun _ => ret tt).

(** The test of the loop of [updateCommandResult]:
    [e.terminalId === terminalId && e.command === command && !e.result]. *)
Definition awaitsResult (terminalId command : string) (e : LogEntry) : bool :=
  String.eqb (le_terminalId e) terminalId
  && String.eqb (le_command e) command
  && negb (Js.truthy_str (le_result e)).

Definition with_result (result : string) (e : LogEntry) : LogEntry :=
  mkLogEntry (le_id e) (le_timestamp e) (le_terminalId e) (le_terminalType e)
             (le_command e) (le_outputFile e) (Some result) (le_status e).

(** [for (let i = n - 1; i >= 0; i--) { if (...) { logData[i].result = result; break; } }]
    where [n] counts the indices still to visit. *)
Fixpoint updateLoop (n : nat) (terminalId command result : string)
    (logData : list LogEntry) : list LogEntry :=
  match n with
  | 0 => logData
  | S i =>
      match logData !! i with
      | Some e =>
          if awaitsResult terminalId command e
          then <[i := with_result result e]> logData
          else updateLoop i terminalId command result logData
      | None => updateLoop i terminalId command result logData
      end
  end.

(** [updateCommandResult(terminalId, command, result)] *)
Definition updateCommandResult (terminalId command result : string) : M unit :=
  try_catch
    (do logData <~ readCommandLog;
     writeCommandLog (updateLoop (length logData) terminalId command result logData))
    (fun _ => ret tt).

(** The host side of [vscode.window.createTerminal] and of the command
    [workbench.action.terminal.newLocal]: a new terminal object is added
    at the end of [vscode.window.terminals]. *)
Definition hostNewTerminal : M nat :=
  fun w =>
    let v := vscode w in
    if host_ok v
    then (Ret (next_ref v),
          set_vscode (fun v =>
            mkVSCode (window_terminals v ++ [mkVSTerminal (next_ref v) (shell_name v) true])
                     (S (next_ref v)) (shell_name v) (host_ok v)
                     (shown v) (sentText v) (sequences v)) w)
    else (Throw "terminal could not be created", w).

(** [terminal.show()] *)
Definition show (terminal : nat) : M unit :=
  modify (set_vscode (fun v =>
    mkVSCode (window_terminals v) (next_ref v) (shell_name v) (host_ok v)
             (terminal :: shown v) (sentText v) (sequences v))).

(** [terminal.sendText(text)] *)
Definition sendText (terminal : nat) (text : string) : M unit :=
  modify (set_vscode (fun v =>
    mkVSCode (window_terminals v) (next_ref v) (shell_name v) (host_ok v)
             (shown v) ((terminal, text) :: sentText v) (sequences v))).

(** [executeCommand('workbench.action.terminal.sendSequence', { text })] *)
Definition sendSequence (text : string) : M unit :=
  modify (set_vscode (fun v =>
    mkVSCode (window_terminals v) (next_ref v) (shell_name v) (host_ok v)
             (shown v) (sentText v) (text :: sequences v))).

Definition registryInfo (terminal : nat) (type : string) (now : nat) (name : string) : TerminalInfo :=
  mkTerminalInfo terminal type now now name.

(** The argument [upsertTerminal] gets from the terminal manager: the four
    fields of a registry value. *)
Definition descriptorOf (info : TerminalInfo) : Descriptor :=
  mkDescriptor EmptyString (ti_type info) (ti_createdTime info) 0
               (ti_lastActivity info) (ti_name info).

(** [createRemoteTerminal(type, sendWelcome)] until it waits for the
    terminal to be ready: the id is taken and the host has run the command
    that adds a terminal. *)
Definition requestRemoteTerminal : M nat :=
  do terminalId <~ getNextTerminalId;
  run hostNewTerminal;
  ret terminalId.

(** [createRemoteTerminal(type, sendWelcome)] from the end of that wait on:
    the last terminal of the window is taken for the new one. *)
Definition registerRemoteTerminal (type : string) (sendWelcome : bool)
    (terminalId : nat) : M nat :=
  do terminals <~ gets (fun w => window_terminals (vscode w));
  match last terminals with
  | None => throw ("无法获取远程终端 [ID: " +:+ pretty terminalId +:+ "]")
  | Some activeTerminal =>
      run (if String.eqb type "mouse" then ret tt else show (t_ref activeTerminal));
      run (if sendWelcome
           then sendSequence ("echo 'Remote Terminal [ID: " +:+ pretty terminalId
                              +:+ ", Type: " +:+ type +:+ "] Ready'"
                              +:+ String.String (Ascii.ascii_of_nat 10) EmptyString)
           else ret tt);
      do now <~ gets clock;
      let terminalInfo :=
        registryInfo (t_ref activeTerminal) type now
                     ("REMOTE TERMINAL (" +:+ Js.toUpperCase type +:+ ")") in
      run modify (set_managedTerminals (JsMap.set (pretty terminalId) terminalInfo));
      run upsertTerminal (Js.IdNum terminalId) (descriptorOf terminalInfo);
      ret terminalId
  end.

(** [createRemoteTerminal(type, sendWelcome)]: the two parts with the wait
    of 1000 ms between them. *)
Definition createRemoteTerminal (type : string) (sendWelcome : bool) : M nat :=
  do terminalId <~ requestRemoteTerminal;
  run sleep 1000;
  registerRemoteTerminal type sendWelcome terminalId.

(** [createLocalTerminal(type, sendWelcome)] *)
Definition createLocalTerminal (type : string) (sendWelcome : bool) : M nat :=
  do terminalId <~ getNextTerminalId;
  do localTerminal <~ hostNewTerminal;
  run show localTerminal;
  run (if sendWelcome
       then
         (run sleep 500;
          run sendText localTerminal "echo '=== 本地终端 (CAT) - 就绪 ==='";
          run sleep 200;
          run sendText localTerminal "echo '这是一个普通的本地终端'";
          run sleep 200;
          sendText localTerminal "echo '所有系统正常运行'")
       else ret tt);
  do now <~ gets clock;
  let terminalInfo :=
    registryInfo localTerminal type now
                 ("LOCAL TERMINAL (" +:+ Js.toUpperCase type +:+ ")") in
  run modify (set_managedTerminals (JsMap.set (pretty terminalId) terminalInfo));
  run upsertTerminal (Js.IdNum terminalId) (descriptorOf terminalInfo);
  ret terminalId.

(** The first key of the registry whose value has type ['mouse']. *)
Fixpoint findMouse (m : list (string * TerminalInfo)) : option string :=
  match m with
  | [] => None
  | (id, info) :: m' => if String.eqb (ti_type info) "mouse" then Some id else findMouse m'
  end.

(** [/tmp/evil_sshagent_output_${Date.now()}.txt] *)
Definition outputFileName (now : nat) : string :=
  "/tmp/evil_sshagent_output_" +:+ pretty now +:+ ".txt".

(** The text returned in [stdout]. *)
Definition resultMessage (command terminalId : string) (outputFile : option string) : string :=
  let sent := "命令 " +:+ Js.dquote +:+ command +:+ Js.dquote +:+ " 已发送到终端 "
              +:+ terminalId +:+ " 执行" in
  match outputFile with
  | Some outputFile =>
      sent +:+ "，输出将保存到 " +:+ outputFile +:+ "。请在远程终端上使用 'cat "
           +:+ outputFile +:+ "' 命令查看结果。"
  | None => sent
  end.

(** [sendCommandToTerminal(terminalId, command, clearAfterExecution, redirectOutput)]
    of the terminal manager.  The executor of the returned promise runs at
    once; the two [setTimeout] callbacks are left in [timers]. *)
Definition sendCommandToTerminal (terminalId : option Js.Id) (command : string)
    (clearAfterExecution redirectOutput : bool) : M CommandResult :=
  do terminalId <~
    (if Js.truthy terminalId then ret terminalId
     else
       do found <~ gets (fun w => findMouse (managedTerminals w));
       let terminalId :=
         match found with
         | Some id => Some (Js.IdStr id)
         | None => terminalId
         end in
       if Js.truthy terminalId then ret terminalId
       else throw "Mouse terminal not found. Please ensure the plugin is properly initialized.");
  let terminalId := Js.StringOpt terminalId in
  do terminalInfo <~ gets (fun w => JsMap.get terminalId (managedTerminals w));
  match terminalInfo with
  | None =>
      throw ("Terminal not found: " +:+ terminalId
             +:+ ". Please ensure the plugin is properly initialized.")
  | Some terminalInfo =>
      try_catch
        (run (if negb (String.eqb (ti_type terminalInfo) "mouse")
              then show (ti_terminal terminalInfo) else ret tt);
         do now <~ gets clock;
         let outputFile := if redirectOutput then Some (outputFileName now) else None in
         let finalCommand :=
           match outputFile with
           | Some f => command +:+ " > " +:+ f +:+ " 2>&1"
           | None => command
           end in
         run sendText (ti_terminal terminalInfo) finalCommand;
         let result :=
           mkCommandResult (resultMessage command terminalId outputFile)
                           EmptyString 0 outputFile in
         run logCommandExecution terminalId (ti_type terminalInfo) command outputFile None;
         run (if clearAfterExecution
              then modify (set_timers (fun ts =>
                     ts ++ [TClear (ti_terminal terminalInfo) terminalId command outputFile]))
              else ret tt);
         do now <~ gets clock;
         let terminalInfo :=
           mkTerminalInfo (ti_terminal terminalInfo) (ti_type terminalInfo)
                          (ti_createdTime terminalInfo) now (ti_name terminalInfo) in
         run modify (set_managedTerminals (JsMap.set terminalId terminalInfo));
         run upsertTerminal (Js.IdStr terminalId) (descriptorOf terminalInfo);
         ret result)
        (fun error => throw error)
  end.

(** The callback of a timer when it fires.  [TClear] is the outer
    [setTimeout] (1000 ms), which sends [clear] and, when the output was
    redirected, registers the inner one (2000 ms); [TReadBack] is the inner
    callback, which copies the output file into the log when it exists. *)
Definition fire (t : Timer) : M unit :=
  match t with
  | TClear terminal terminalId command outputFile =>
      run sendText terminal "clear";
      match outputFile with
      | Some f => modify (set_timers (fun ts => ts ++ [TReadBack terminalId command f]))
      | None => ret tt
      end
  | TReadBack terminalId command outputFile =>
      try_catch
        (do output <~ gets (fun w => tmpFiles w !! outputFile);
         match output with
         | Some output => updateCommandResult terminalId command output
         | None => ret tt
         end)
        (fun _ => ret tt)
  end.

(** [new TerminalManager(stateFilePath)]: the state manager is built, the
    command log is created when absent, and the registry starts empty
    ([loadTerminalsFromState] restores no terminal object). *)
Definition newTerminalManager : M unit :=
  run newTerminalStateManager;
  run initializeCommandLog;
  modify (set_managedTerminals (fun _ => [])).

(** ** The extension: liveness, adoption and reconciliation *)

Definition with_mouseTerminalId (i : option Js.Id) (g : Globals) : Globals :=
  mkGlobals i (catTerminalId g) (terminalsInitialized g) (terminalCreationInProgress g)
            (shouldMaintainTerminals g) (mouseTerminalIdRef g).
Definition with_catTerminalId (i : option Js.Id) (g : Globals) : Globals :=
  mkGlobals (mouseTerminalId g) i (terminalsInitialized g) (terminalCreationInProgress g)
            (shouldMaintainTerminals g) (mouseTerminalIdRef g).
Definition with_terminalsInitialized (b : bool) (g : Globals) : Globals :=
  mkGlobals (mouseTerminalId g) (catTerminalId g) b (terminalCreationInProgress g)
            (shouldMaintainTerminals g) (mouseTerminalIdRef g).
Definition with_terminalCreationInProgress (b : bool) (g : Globals) : Globals :=
  mkGlobals (mouseTerminalId g) (catTerminalId g) (terminalsInitialized g) b
            (shouldMaintainTerminals g) (mouseTerminalIdRef g).
Definition with_mouseTerminalIdRef (i : option Js.Id) (g : Globals) : Globals :=
  mkGlobals (mouseTerminalId g) (catTerminalId g) (terminalsInitialized g)
            (terminalCreationInProgress g) (shouldMaintainTerminals g) i.

(** The message of the error a terminal throws whose properties cannot be
    read; the host words it. *)
Definition notReadable : string := "terminal is not readable".

(** Reading [t.name] or [t.processId] of a terminal of the window. *)
Definition readProperties (t : VSTerminal) : M unit :=
  if t_readable t then ret tt else throw notReadable.

(** Reading [terminal.name] or [terminal.processId] of a terminal object
    the program holds: the object is the terminal of the window with the
    same identity.  A terminal that has left the window keeps its name,
    and the embedding keeps no other record of it. *)
Definition readTerminal (terminal : nat) : M unit :=
  do allTerminals <~ gets (fun w => window_terminals (vscode w));
  match List.find (fun t => Nat.eqb (t_ref t) terminal) allTerminals with
  | Some t => readProperties t
  | None => ret tt
  end.

(** [allTerminals.map(t => t.name)] *)
Fixpoint readNames (allTerminals : list VSTerminal) : M unit :=
  match allTerminals with
  | [] => ret tt
  | t :: allTerminals => run readProperties t; readNames allTerminals
  end.

(** [isTerminalAliveInVSCode(terminal)].  The names of all terminals are
    read for the log first.  Each of the two [catch] blocks, and the branch
    of a terminal that is not in the window, reads [terminal.name] for its
    own log message before it answers [false]: when that read throws, the
    function throws. *)
Definition isTerminalAliveInVSCode (terminal : nat) : M bool :=
  try_catch
    (do allTerminals <~ gets (fun w => window_terminals (vscode w));
     run readNames allTerminals;
     if existsb (fun t => Nat.eqb (t_ref t) terminal) allTerminals
     then
       try_catch
         (run readTerminal terminal; ret true)
         (fun _ => run readTerminal terminal; ret false)
     else
       run readTerminal terminal; ret false)
    (fun _ => run readTerminal terminal; ret false).

(** [ensureMouseTerminalHidden(terminalId, terminalType)]: looks the
    terminal up, probes it and writes to the console, all inside one [try]
    whose [catch] only logs; it calls nothing on the terminal. *)
Definition ensureMouseTerminalHidden (terminalId : option Js.Id) : M unit := ret tt.

(** The test of [findExistingTerminalInVSCode] on one terminal; a terminal
    whose properties cannot be read is skipped by the inner [catch]. *)
Definition matchesType (terminalType : string) (t : VSTerminal) : bool :=
  t_readable t &&
  (String.eqb terminalType "mouse" && Js.includes "MOUSE" (t_name t)
   || String.eqb terminalType "cat" && Js.includes "CAT" (t_name t)).

(** [findExistingTerminalInVSCode(terminalType)] *)
Definition findExistingTerminalInVSCode (terminalType : string) (w : World) : option VSTerminal :=
  List.find (matchesType terminalType) (window_terminals (vscode w)).

(** [tryRecoverExistingTerminal(terminalType, terminalId)] *)
Definition tryRecoverExistingTerminal (terminalType : string) (terminalId : Js.Id) : M bool :=
  try_catch
    (do existingTerminal <~ gets (findExistingTerminalInVSCode terminalType);
     match existingTerminal with
     | Some existingTerminal =>
         do now <~ gets clock;
         let terminalInfo :=
           registryInfo (t_ref existingTerminal) terminalType now
                        (Js.toUpperCase terminalType +:+ " TERMINAL (RECOVERED)") in
         run modify (set_managedTerminals (JsMap.set (Js.String terminalId) terminalInfo));
         run upsertTerminal terminalId (descriptorOf terminalInfo);
         ret true
     | None => ret false
     end)
    (fun _ => ret false).

(** [setTerminalReferences(terminalManager, mouseTerminalId)] of server.js *)
Definition setTerminalReferences : M unit :=
  modify (set_globals (fun g => with_mouseTerminalIdRef (mouseTerminalId g) g)).

(** The value [{ mouseTerminalId, catTerminalId }]. *)
Definition terminalIds (w : World) : option Js.Id * option Js.Id :=
  (mouseTerminalId (globals w), catTerminalId (globals w)).

(** The deep check at the head of [ensureTerminalsExist]: true when the
    function returns from inside it.  The check reads and logs, it changes
    nothing; an exception of a probe, or of the reads for the log that
    follow the probes, is caught by the [catch] of the check, and the
    function goes on as when a probe answers [false]. *)
Definition deepCheck (w : World) : bool :=
  let g := globals w in
  if terminalsInitialized g && Js.truthy (mouseTerminalId g) && Js.truthy (catTerminalId g)
  then
    match JsMap.get (Js.StringOpt (mouseTerminalId g)) (managedTerminals w),
          JsMap.get (Js.StringOpt (catTerminalId g)) (managedTerminals w) with
    | Some mouseExists, Some catExists =>
        match (isTerminalAliveInVSCode (ti_terminal mouseExists) w).1,
              (isTerminalAliveInVSCode (ti_terminal catExists) w).1 with
        | Ret mouseAlive, Ret catAlive => mouseAlive && catAlive
        | _, _ => false
        end
    | _, _ => false
    end
  else false.

(** The part of [ensureTerminalsExist] for one terminal: [known] reads its
    id, [store] assigns it, [create] is [createRemoteTerminal] or
    [createLocalTerminal], [failed] and [failedAgain] are the prefixes of
    the two error messages. *)
Definition ensureOne (terminalType : string)
    (known : Globals → option Js.Id) (store : option Js.Id → Globals → Globals)
    (create : string → bool → M nat) (failed failedAgain : string) : M unit :=
  do terminalId <~ gets (fun w => known (globals w));
  if negb (Js.truthy terminalId)
  then
    try_catch
      (do created <~ create terminalType true;
       modify (set_globals (store (Some (Js.IdNum created)))))
      (fun error => throw (failed +:+ error))
  else
    do terminalInfo <~ gets (fun w => JsMap.get (Js.StringOpt terminalId) (managedTerminals w));
    match terminalInfo, terminalId with
    | None, Some id =>
        do recovered <~ tryRecoverExistingTerminal terminalType id;
        if recovered : bool then ret tt
        else
          try_catch
            (do created <~ create terminalType true;
             modify (set_globals (store (Some (Js.IdNum created)))))
            (fun error => throw (failedAgain +:+ error))
    | _, _ => ret tt
    end.

(** [ensureTerminalsExist()].  A call that finds the creation lock taken
    polls it every 100 ms; within one uninterrupted run nothing releases
    the lock, which is the outcome [Blocked]. *)
Definition ensureTerminalsExist : M (option Js.Id * option Js.Id) :=
  do inProgress <~ gets (fun w => terminalCreationInProgress (globals w));
  if inProgress : bool then blocked
  else
    do alive <~ gets deepCheck;
    if alive : bool
    then
      (do mouse <~ gets (fun w => mouseTerminalId (globals w));
       run ensureMouseTerminalHidden mouse;
       gets terminalIds)
    else
      run modify (set_globals (with_terminalCreationInProgress true));
      try_finally
        (try_catch
           (run ensureOne "mouse" mouseTerminalId with_mouseTerminalId createRemoteTerminal
                  "Mouse终端创建失败: " "Mouse终端重新创建失败: ";
            run ensureOne "cat" catTerminalId with_catTerminalId createLocalTerminal
                  "Cat终端创建失败: " "Cat终端重新创建失败: ";
            do catTerminalInfo <~
              gets (fun w => JsMap.get (Js.StringOpt (catTerminalId (globals w)))
                                       (managedTerminals w));
            run match catTerminalInfo with
                | Some catTerminalInfo => show (ti_terminal catTerminalInfo)
                | None => ret tt
                end;
            run setTerminalReferences;
            run modify (set_globals (with_terminalsInitialized true));
            gets terminalIds)
           (fun error => throw error))
        (set_globals (with_terminalCreationInProgress false)).

(** The part of the health check for one terminal. *)
Definition checkOne (terminalType : string)
    (known : Globals → option Js.Id) (store : option Js.Id → Globals → Globals)
    (create : string → bool → M nat) (after : M unit) : M unit :=
  do terminalId <~ gets (fun w => known (globals w));
  do terminalInfo <~ gets (fun w => JsMap.get (Js.StringOpt terminalId) (managedTerminals w));
  let recreate :=
    do created <~ create terminalType true;
    run modify (set_globals (store (Some (Js.IdNum created))));
    after in
  match Js.truthy terminalId, terminalInfo with
  | true, Some terminalInfo =>
      do alive <~ isTerminalAliveInVSCode (ti_terminal terminalInfo);
      if alive : bool then ret tt else recreate
  | _, _ => recreate
  end.

(** One tick of the [setInterval] callback of [startTerminalHealthCheck];
    an exception of a probe ends the tick in its [catch]. *)
Definition healthCheckTick : M unit :=
  try_catch
    (do g <~ gets globals;
     if negb (shouldMaintainTerminals g) then ret tt
     else if negb (terminalsInitialized g) then ret tt
     else
       run checkOne "mouse" mouseTerminalId with_mouseTerminalId createRemoteTerminal
             setTerminalReferences;
       checkOne "cat" catTerminalId with_catTerminalId createLocalTerminal (ret tt))
    (fun _ => ret tt).

(** ** The rest of the state manager *)

(** [Object.keys(o)] on the persisted table.  JavaScript lists the keys
    that are array indices in ascending order and the other keys in the
    order of their creation; the table does not record that order, so the
    embedding fixes of an enumeration only that it lists every key once. *)
Class JsObject := {
  ObjectKeys : gmap string Descriptor → list string;
  ObjectKeys_enum : ∀ m, ObjectKeys m ≡ₚ (map_to_list m).*1
}.

#[global] Instance keysInMapOrder : JsObject :=
  {| ObjectKeys m := (map_to_list m).*1; ObjectKeys_enum m := reflexivity _ |}.

(** [getAllTerminals()]: a copy of the table. *)
Definition getAllTerminals (w : World) : gmap string Descriptor :=
  terminals (stateData w).

(** [getAllTerminalIds()] *)
Definition getAllTerminalIds `{JsObject} (w : World) : list string :=
  ObjectKeys (terminals (stateData w)).

(** [getTerminalCount()] *)
Definition getTerminalCount `{JsObject} (w : World) : nat :=
  length (ObjectKeys (terminals (stateData w))).

(** [getLastUpdatedTime()] *)
Definition getLastUpdatedTime (w : World) : nat :=
  lastUpdated (stateData w).

(** ** The rest of the terminal manager *)

(** [managedTerminals.delete(k)]; a [Map] holds one binding for a key. *)
Fixpoint mapDelete {V : Type} (k : string) (m : list (string * V)) : list (string * V) :=
  match m with
  | [] => []
  | (k', v) :: m' =>
      if String.eqb k k' then mapDelete k m' else (k', v) :: mapDelete k m'
  end.

(** [managedTerminals.has(k)] *)
Definition mapHas {V : Type} (k : string) (m : list (string * V)) : bool :=
  match JsMap.get k m with
  | Some _ => true
  | None => false
  end.

(** [terminal.dispose()]: the host closes the terminal, which leaves
    [vscode.window.terminals]; the terminal counts as gone when the call
    returns, which is how the next call of the program finds the window.
    The call does not throw, so the [catch] of [destroyTerminal] is not
    entered. *)
Definition dispose (terminal : nat) : M unit :=
  modify (set_vscode (fun v =>
    mkVSCode (List.filter (fun t => negb (Nat.eqb (t_ref t) terminal)) (window_terminals v))
             (next_ref v) (shell_name v) (host_ok v)
             (shown v) (sentText v) (sequences v))).

(** [destroyTerminal(terminalId)] *)
Definition destroyTerminal (terminalId : Js.Id) : M bool :=
  let terminalId := Js.String terminalId in
  do terminalInfo <~ gets (fun w => JsMap.get terminalId (managedTerminals w));
  match terminalInfo with
  | None => ret false
  | Some terminalInfo =>
      try_catch
        (run dispose (ti_terminal terminalInfo);
         run modify (set_managedTerminals (mapDelete terminalId));
         run removeTerminal (Js.IdStr terminalId);
         ret true)
        (fun _ => ret false)
  end.

(** [list.forEach(f)] *)
Fixpoint forEach {A : Type} (l : list A) (f : A → M unit) : M unit :=
  match l with
  | [] => ret tt
  | a :: l' => run f a; forEach l' f
  end.

(** [destroyAllTerminals()], which [destroyAllManagedTerminals()] calls. *)
Definition destroyAllTerminals : M nat :=
  do terminalIds <~ gets (fun w => JsMap.keys (managedTerminals w));
  run forEach terminalIds (fun terminalId =>
        run destroyTerminal (Js.IdStr terminalId); ret tt);
  ret (length terminalIds).

Definition destroyAllManagedTerminals : M nat := destroyAllTerminals.

(** The difference [a - b] of two dates, in milliseconds. *)
Definition elapsed (a b : nat) : Z := (Z.of_nat a - Z.of_nat b)%Z.

(** An element of [getTerminalStatus().terminals]. *)
Record TerminalStatus := mkTerminalStatus {
  ts_id : string;
  ts_type : string;
  ts_isActive : bool;
  ts_age : Z;
  ts_lastActive : Z
}.

(** Reading a property of [o[k]]; a [TypeError] when [o] has no key [k]. *)
Definition property (o : gmap string Descriptor) (k : string) : M Descriptor :=
  match o !! k with
  | Some d => ret d
  | None => throw "Cannot read properties of undefined"
  end.

(** The loop of [getTerminalStatus] over the keys still to visit. *)
Fixpoint statusLoop (ids : list string) (stateTerminals : gmap string Descriptor)
    (terminals : list TerminalStatus) : M (list TerminalStatus) :=
  match ids with
  | [] => ret terminals
  | terminalId :: ids =>
      do terminalInfo <~ property stateTerminals terminalId;
      do now <~ gets clock;
      do isActive <~ gets (fun w => mapHas terminalId (managedTerminals w));
      statusLoop ids stateTerminals
        (terminals ++ [mkTerminalStatus terminalId (d_type terminalInfo) isActive
                         (elapsed now (d_createdTime terminalInfo))
                         (elapsed now (d_lastActivity terminalInfo))])
  end.

(** [getTerminalStatus()]: the pair of [totalTerminals] and [terminals]. *)
Definition getTerminalStatus `{JsObject} : M (nat * list TerminalStatus) :=
  do stateTerminals <~ gets getAllTerminals;
  do terminals <~ statusLoop (ObjectKeys stateTerminals) stateTerminals [];
  do totalTerminals <~ gets getTerminalCount;
  ret (totalTerminals, terminals).

(** The test [idleTime > maxIdleTimeMs] of [cleanupIdleTerminals]. *)
Definition idle (now maxIdleTimeMs : nat) (terminalInfo : Descriptor) : bool :=
  let idleTime := elapsed now (d_lastActivity terminalInfo) in
  (Z.of_nat maxIdleTimeMs <? idleTime)%Z.

(** The loop of [cleanupIdleTerminals] over the keys still to visit. *)
Fixpoint cleanupLoop (ids : list string) (stateTerminals : gmap string Descriptor)
    (now maxIdleTimeMs cleanedCount : nat) : M nat :=
  match ids with
  | [] => ret cleanedCount
  | terminalId :: ids =>
      do terminalInfo <~ property stateTerminals terminalId;
      if idle now maxIdleTimeMs terminalInfo
      then
        run destroyTerminal (Js.IdStr terminalId);
        cleanupLoop ids stateTerminals now maxIdleTimeMs (S cleanedCount)
      else cleanupLoop ids stateTerminals now maxIdleTimeMs cleanedCount
  end.

(** [cleanupIdleTerminals(maxIdleTimeMs)] *)
Definition cleanupIdleTerminals `{JsObject} (maxIdleTimeMs : nat) : M nat :=
  do now <~ gets clock;
  do stateTerminals <~ gets getAllTerminals;
  cleanupLoop (ObjectKeys stateTerminals) stateTerminals now maxIdleTimeMs 0.

(** ** The executor *)

(** [executeRemoteCommand(command, terminalManager, terminalId)] *)
Definition executeRemoteCommand (command : string) (terminalId : option Js.Id)
    : M CommandResult :=
  try_catch
    (sendCommandToTerminal terminalId command true true)
    (fun error => ret (mkCommandResult EmptyString error 1 None)).

(** ** The HTTP server *)

(** What the server reads of a request: the method, the path, the value of
    [command] in the query string, and what reading the body gives: an
    error of the stream, or the value of [command] in the body. *)
Record Request := mkRequest {
  req_method : string;
  req_pathname : string;
  req_query : option string;
  req_body : Outcome (option string)
}.

(** The JSON object of a response. *)
Inductive Body :=
| NoBody
| ErrorBody (error : string) (timestamp : nat)
| CommandBody (command result error : string) (exitCode : nat) (timestamp : nat)
| HealthBody (timestamp : nat)
| InfoBody (timestamp : nat)
| NotFoundBody (timestamp : nat).

Record Response := mkResponse {
  statusCode : nat;
  body : Body
}.

(** [new URLSearchParams(await getPostData(req)).get('command')] *)
Definition getPostData (req : Request) : M (option string) :=
  fun w => (req_body req, w).

(** [handleCommandRoute(req, res)].  [terminalManagerRef] is assigned
    together with [mouseTerminalIdRef] and is an object from then on, so the
    first test is the test of [mouseTerminalIdRef].  The variable [command]
    is declared inside the [try] block: the [catch] block, which reads it,
    throws a [ReferenceError]. *)
Definition handleCommandRoute (req : Request) : M Response :=
  do mouseTerminalIdRef <~ gets (fun w => mouseTerminalIdRef (globals w));
  if negb (Js.truthy mouseTerminalIdRef)
  then
    do now <~ gets clock;
    ret (mkResponse 500 (ErrorBody "Terminal not initialized" now))
  else
    try_catch
      (do command <~
         (if String.eqb (req_method req) "POST"
          then
            do fromBody <~ getPostData req;
            ret (if Js.truthy_str fromBody then fromBody else req_query req)
          else ret (req_query req));
       match command with
       | Some command =>
           if String.eqb command EmptyString
           then
             do now <~ gets clock;
             ret (mkResponse 400 (ErrorBody "Command parameter is required" now))
           else
             do result <~ executeRemoteCommand command mouseTerminalIdRef;
             do now <~ gets clock;
             ret (mkResponse 200 (CommandBody command (stdout result) (stderr result)
                                              (exitCode result) now))
       | None =>
           do now <~ gets clock;
           ret (mkResponse 400 (ErrorBody "Command parameter is required" now))
       end)
      (fun _ => throw "command is not defined").

Definition handleHealthRoute : M Response :=
  do now <~ gets clock; ret (mkResponse 200 (HealthBody now)).

Definition handleRootRoute : M Response :=
  do now <~ gets clock; ret (mkResponse 200 (InfoBody now)).

Definition handleNotFoundRoute : M Response :=
  do now <~ gets clock; ret (mkResponse 404 (NotFoundBody now)).

Definition handleError (error : string) : M Response :=
  do now <~ gets clock; ret (mkResponse 500 (ErrorBody error now)).

(** The request listener of [createHttpServer]. *)
Definition handleRequest (req : Request) : M Response :=
  if String.eqb (req_method req) "OPTIONS" then ret (mkResponse 200 NoBody)
  else
    try_catch
      (if String.eqb (req_pathname req) "/cmd" then handleCommandRoute req
       else if String.eqb (req_pathname req) "/health" then handleHealthRoute
       else if String.eqb (req_pathname req) "/" then handleRootRoute
       else handleNotFoundRoute)
      handleError.

(** ** The extension: restoring the ids, and the commands sent by the
       extension itself *)

(** [restoreTerminalIdsFromState()]: the loop over [Object.entries]. *)
Definition restoreTerminalIdsFromState `{JsObject} : M unit :=
  try_catch
    (do allTerminals <~ gets getAllTerminals;
     forEach (ObjectKeys allTerminals) (fun terminalId =>
       do terminalInfo <~ property allTerminals terminalId;
       if String.eqb (d_type terminalInfo) "mouse"
       then modify (set_globals (with_mouseTerminalId (Some (Js.IdStr terminalId))))
       else if String.eqb (d_type terminalInfo) "cat"
       then modify (set_globals (with_catTerminalId (Some (Js.IdStr terminalId))))
       else ret tt))
    (fun _ =>
       run modify (set_globals (with_mouseTerminalId None));
       modify (set_globals (with_catTerminalId None))).

(** [managedTerminals.get(id)] where [id] is used as it is: a key of the
    registry is a string, so a number and [null] find nothing. *)
Definition getByValue {V : Type} (id : option Js.Id) (m : list (string * V)) : option V :=
  match id with
  | Some (Js.IdStr s) => JsMap.get s m
  | _ => None
  end.

(** [validateTerminalExists(terminalId, terminalType)] *)
Definition validateTerminalExists (terminalId : option Js.Id) (terminalType : string)
    : M bool :=
  if negb (Js.truthy terminalId)
  then throw (terminalType +:+ "终端ID为空，请确保插件已正确初始化")
  else
    do terminalInfo <~ gets (fun w => getByValue terminalId (managedTerminals w));
    match terminalInfo with
    | None => throw (terminalType +:+ "终端实例不存在，终端可能已被销毁")
    | Some terminalInfo =>
        do alive <~ isTerminalAliveInVSCode (ti_terminal terminalInfo);
        if alive : bool then ret true
        else throw (terminalType +:+ "终端在VS Code中不存在，可能已被关闭")
    end.

(** The test that makes [sendCommandToMouseTerminal] and
    [sendCommandToCatTerminal] call [ensureTerminalsExist] first. *)
Definition needsEnsure (known : Globals → option Js.Id) (w : World) : bool :=
  negb (terminalsInitialized (globals w))
  || negb (Js.truthy (known (globals w)))
  || negb (mapHas (Js.StringOpt (known (globals w))) (managedTerminals w)).

(** [sendCommandToMouseTerminal(command, clearAfterExecution, redirectOutput)] *)
Definition sendCommandToMouseTerminal (command : string)
    (clearAfterExecution redirectOutput : bool) : M CommandResult :=
  try_catch
    (do stale <~ gets (needsEnsure mouseTerminalId);
     run (if stale : bool then (run ensureTerminalsExist; ret tt) else ret tt);
     do mouseTerminalId <~ gets (fun w => mouseTerminalId (globals w));
     run validateTerminalExists mouseTerminalId "Mouse";
     run ensureMouseTerminalHidden mouseTerminalId;
     sendCommandToTerminal mouseTerminalId command clearAfterExecution redirectOutput)
    (fun error => throw error).

(** [sendCommandToCatTerminal(command, clearAfterExecution, redirectOutput)] *)
Definition sendCommandToCatTerminal (command : string)
    (clearAfterExecution redirectOutput : bool) : M CommandResult :=
  try_catch
    (do stale <~ gets (needsEnsure catTerminalId);
     run (if stale : bool then (run ensureTerminalsExist; ret tt) else ret tt);
     do catTerminalId <~ gets (fun w => catTerminalId (globals w));
     run validateTerminalExists catTerminalId "Cat";
     sendCommandToTerminal catTerminalId command clearAfterExecution redirectOutput)
    (fun error => throw error).

(** * Vocabulary of the statements *)

(** ** Keys *)

(** The string starts with an underscore. *)
Definition underscored (s : string) : Prop :=
  match s with
  | String.String c _ => c = Ascii.ascii_of_nat 95
  | EmptyString => False
  end.

(** ** The probe of a terminal *)

(** The terminal object [terminal] is among [vscode.window.terminals]. *)
Definition enumerated (terminal : nat) (w : World) : bool :=
  existsb (fun t => Nat.eqb (t_ref t) terminal) (window_terminals (vscode w)).

(** What [isTerminalAliveInVSCode(terminal)] answers: [false] for a
    terminal that is not in the window, an exception for one that is there
    and cannot be read, and for one that can be read [true] exactly when
    every terminal of the window can be read. *)
Definition probe (terminal : nat) (w : World) : Outcome bool :=
  let allTerminals := window_terminals (vscode w) in
  match List.find (fun t => Nat.eqb (t_ref t) terminal) allTerminals with
  | None => Ret false
  | Some t =>
      if t_readable t then Ret (forallb t_readable allTerminals)
      else Throw notReadable
  end.

(** ** The world after each call *)

(** The world after [saveState()]. *)
Definition saved (w : World) : World :=
  let w' := set_stateData (with_lastUpdated (clock w)) w in
  if writable (stateFile w)
  then set_stateFile (write (stateData w')) w'
  else w'.

(** The world after [getNextTerminalId()]. *)
Definition counted (w : World) : World :=
  saved (set_stateData (with_counter Js.increment) w).

(** The world after [upsertTerminal(id, info)]. *)
Definition upserted (id : string) (info : Descriptor) (w : World) : World :=
  saved (terminalsSet id (stored id (clock w) info) w).

(** The entry [logCommandExecution] builds for a log of [n] entries. *)
Definition logEntryFor (n now : nat) (terminalId terminalType command : string)
    (outputFile result : option string) : LogEntry :=
  mkLogEntry (n + 1) now terminalId terminalType command outputFile result "executed".

(** The world after [logCommandExecution]. *)
Definition logged (terminalId terminalType command : string)
    (outputFile result : option string) (w : World) : World :=
  let append logData :=
    if writable (commandLog w)
    then set_commandLog
           (write (logData ++ [logEntryFor (length logData) (clock w) terminalId
                                           terminalType command outputFile result])) w
    else w in
  match content (commandLog w) with
  | Missing => append []
  | Garbage => w
  | Holds logData => append logData
  end.

(** The world after [updateCommandResult]. *)
Definition updated (terminalId command result : string) (w : World) : World :=
  let rewrite logData :=
    if writable (commandLog w)
    then set_commandLog
           (write (updateLoop (length logData) terminalId command result logData)) w
    else w in
  match content (commandLog w) with
  | Missing => rewrite []
  | Garbage => w
  | Holds logData => rewrite logData
  end.

(** The key of the registry a call of [sendCommandToTerminal] looks up, if
    it gets that far. *)
Definition resolveTarget (terminalId : option Js.Id) (w : World) : option string :=
  if Js.truthy terminalId then Some (Js.StringOpt terminalId)
  else
    match findMouse (managedTerminals w) with
    | Some id => if Js.truthy (Some (Js.IdStr id)) then Some id else None
    | None => None
    end.

(** The output file of a call made at time [now]. *)
Definition redirection (redirectOutput : bool) (now : nat) : option string :=
  if redirectOutput then Some (outputFileName now) else None.

(** The command line sent to the terminal. *)
Definition finalCommand (command : string) (outputFile : option string) : string :=
  match outputFile with
  | Some f => command +:+ " > " +:+ f +:+ " 2>&1"
  | None => command
  end.

(** The world after a call of [sendCommandToTerminal] that found the
    registry value [info] under the key [id]. *)
Definition dispatched (id : string) (info : TerminalInfo) (command : string)
    (clearAfterExecution redirectOutput : bool) (w : World) : World :=
  let now := clock w in
  let outputFile := redirection redirectOutput now in
  let w1 :=
    if negb (String.eqb (ti_type info) "mouse")
    then (show (ti_terminal info) w).2 else w in
  let w2 := (sendText (ti_terminal info) (finalCommand command outputFile) w1).2 in
  let w3 := logged id (ti_type info) command outputFile None w2 in
  let w4 :=
    if clearAfterExecution
    then set_timers (fun ts => ts ++ [TClear (ti_terminal info) id command outputFile]) w3
    else w3 in
  let info' :=
    mkTerminalInfo (ti_terminal info) (ti_type info) (ti_createdTime info) now (ti_name info) in
  let w5 := set_managedTerminals (JsMap.set id info') w4 in
  saved (terminalsSet id (stored id now (descriptorOf info')) w5).

(** The object a call of [sendCommandToTerminal] returns. *)
Definition resultFor (id command : string) (redirectOutput : bool) (now : nat) : CommandResult :=
  mkCommandResult (resultMessage command id (redirection redirectOutput now))
                  EmptyString 0 (redirection redirectOutput now).

Definition mouseNotFound : string :=
  "Mouse terminal not found. Please ensure the plugin is properly initialized.".

Definition terminalNotFound (id : string) : string :=
  "Terminal not found: " +:+ id +:+ ". Please ensure the plugin is properly initialized.".

Definition hostFailure : string := "terminal could not be created".

(** The window after the host has added a terminal. *)
Definition withNewTerminal (v : VSCode) : VSCode :=
  mkVSCode (window_terminals v ++ [mkVSTerminal (next_ref v) (shell_name v) true])
           (S (next_ref v)) (shell_name v) (host_ok v)
           (shown v) (sentText v) (sequences v).

(** The world after a call of [createRemoteTerminal] that returns. *)
Definition createdRemote (type : string) (sendWelcome : bool) (w : World) : World :=
  let terminalId := terminalIdCounter (stateData w) in
  let activeTerminal := next_ref (vscode w) in
  let w1 := (sleep 1000 (set_vscode withNewTerminal (counted w))).2 in
  let w2 := if String.eqb type "mouse" then w1 else (show activeTerminal w1).2 in
  let w3 :=
    if sendWelcome
    then (sendSequence ("echo 'Remote Terminal [ID: " +:+ pretty terminalId
                        +:+ ", Type: " +:+ type +:+ "] Ready'"
                        +:+ String.String (Ascii.ascii_of_nat 10) EmptyString) w2).2
    else w2 in
  let terminalInfo :=
    registryInfo activeTerminal type (clock w3)
                 ("REMOTE TERMINAL (" +:+ Js.toUpperCase type +:+ ")") in
  upserted (pretty terminalId) (descriptorOf terminalInfo)
           (set_managedTerminals (JsMap.set (pretty terminalId) terminalInfo) w3).

(** The world after a call of [createLocalTerminal] that returns. *)
Definition createdLocal (type : string) (sendWelcome : bool) (w : World) : World :=
  let terminalId := terminalIdCounter (stateData w) in
  let localTerminal := next_ref (vscode w) in
  let w1 := (show localTerminal (set_vscode withNewTerminal (counted w))).2 in
  let w2 :=
    if sendWelcome
    then
      (sendText localTerminal "echo '所有系统正常运行'"
         (sleep 200
            (sendText localTerminal "echo '这是一个普通的本地终端'"
               (sleep 200
                  (sendText localTerminal "echo '=== 本地终端 (CAT) - 就绪 ==='"
                     (sleep 500 w1).2).2).2).2).2).2
    else w1 in
  let terminalInfo :=
    registryInfo localTerminal type (clock w2)
                 ("LOCAL TERMINAL (" +:+ Js.toUpperCase type +:+ ")") in
  upserted (pretty terminalId) (descriptorOf terminalInfo)
           (set_managedTerminals (JsMap.set (pretty terminalId) terminalInfo) w2).

(** The world after [tryRecoverExistingTerminal] has adopted [t]. *)
Definition recovered (terminalType : string) (terminalId : Js.Id) (t : VSTerminal)
    (w : World) : World :=
  let terminalInfo :=
    registryInfo (t_ref t) terminalType (clock w)
                 (Js.toUpperCase terminalType +:+ " TERMINAL (RECOVERED)") in
  upserted (Js.String terminalId) (descriptorOf terminalInfo)
           (set_managedTerminals (JsMap.set (Js.String terminalId) terminalInfo) w).

(** ** Events of the surroundings *)

(** The host or the user closes a terminal: it leaves
    [vscode.window.terminals]. *)
Definition closeTerminal (terminal : nat) (w : World) : World :=
  set_vscode (fun v =>
    mkVSCode (List.filter (fun t => negb (Nat.eqb (t_ref t) terminal)) (window_terminals v))
             (next_ref v) (shell_name v) (host_ok v)
             (shown v) (sentText v) (sequences v)) w.

(** The command running in the terminal writes its output file. *)
Definition writeOutput (path output : string) (w : World) : World :=
  mkWorld (clock w) (stateFile w) (commandLog w) (<[path := output]> (tmpFiles w))
          (vscode w) (stateData w) (managedTerminals w) (timers w) (globals w)
          (terminalsPrototype w).

(** ** Predicates *)

(** Every key of the persisted table is the [id] of its descriptor. *)
Definition keyed (s : StateData) : Prop :=
  ∀ k d, terminals s !! k = Some d → d_id d = k.

Definition keyedFile (f : File StateData) : Prop :=
  match content f with
  | Holds s => keyed s
  | _ => True
  end.

(** One registry refines another when each of its entries has the terminal
    and the type of the entry with the same key in the other. *)
Definition refines (m' m : list (string * TerminalInfo)) : Prop :=
  ∀ id info', JsMap.get id m' = Some info' →
    ∃ info, JsMap.get id m = Some info
      ∧ ti_terminal info = ti_terminal info' ∧ ti_type info = ti_type info'.

(** ** Runs and their invariant *)

(** The operations of the controller, and the events of its surroundings,
    that a run is made of. *)
Inductive Op :=
| OEnsure
| OHealthCheck
| ODispatch (terminalId : option Js.Id) (command : string)
            (clearAfterExecution redirectOutput : bool)
| OCreateRemote (type : string) (sendWelcome : bool)
| OCreateLocalCat (sendWelcome : bool)
| OFire (t : Timer)
| OClose (terminal : nat).

(** The world after one operation, whatever its outcome. *)
Definition after (op : Op) (w : World) : World :=
  match op with
  | OEnsure => (ensureTerminalsExist w).2
  | OHealthCheck => (healthCheckTick w).2
  | ODispatch terminalId command clearAfterExecution redirectOutput =>
      (sendCommandToTerminal terminalId command clearAfterExecution redirectOutput w).2
  | OCreateRemote type sendWelcome => (createRemoteTerminal type sendWelcome w).2
  | OCreateLocalCat sendWelcome => (createLocalTerminal "cat" sendWelcome w).2
  | OFire t => (fire t w).2
  | OClose terminal => closeTerminal terminal w
  end.

(** The world after a run. *)
Definition afterAll (ops : list Op) (w : World) : World :=
  foldl (fun w op => after op w) w ops.

(** The mouse terminals are hidden: no terminal of a registry entry of type
    ["mouse"] has had [show()] called on it. *)
Definition mouseHidden (w : World) : Prop :=
  ∀ id info,
    JsMap.get id (managedTerminals w) = Some info →
    ti_type info = "mouse" →
    ti_terminal info ∉ shown (vscode w).

(** The cat terminal has been revealed: [show()] has been called on the
    terminal registered under the id of the cat terminal. *)
Definition catRevealed (w : World) : Prop :=
  ∀ id info,
    catTerminalId (globals w) = Some id →
    JsMap.get (Js.String id) (managedTerminals w) = Some info →
    ti_terminal info ∈ shown (vscode w).

(** No terminal of the window, and no terminal the host will add, has a
    name that [findExistingTerminalInVSCode] takes for a mouse or a cat
    terminal. *)
Definition noneAdoptable (w : World) : Prop :=
  (∀ t, t ∈ window_terminals (vscode w) →
        Js.includes "MOUSE" (t_name t) = false ∧ Js.includes "CAT" (t_name t) = false)
  ∧ Js.includes "MOUSE" (shell_name (vscode w)) = false
  ∧ Js.includes "CAT" (shell_name (vscode w)) = false.

(** The state the controller keeps while no terminal is adopted. *)
Record Settled (w : World) : Prop := mkSettled {
  st_hidden : mouseHidden w;
  st_names : noneAdoptable w;
  st_alloc : ∀ id info,
    JsMap.get id (managedTerminals w) = Some info →
    (ti_terminal info < next_ref (vscode w))%nat;
  st_shown : ∀ h, h ∈ shown (vscode w) → (h < next_ref (vscode w))%nat;
  st_apart : ∀ id1 info1 id2 info2,
    JsMap.get id1 (managedTerminals w) = Some info1 →
    JsMap.get id2 (managedTerminals w) = Some info2 →
    ti_type info1 = "mouse" → ti_type info2 ≠ "mouse" →
    ti_terminal info1 ≠ ti_terminal info2;
  st_cat : ∀ id info,
    catTerminalId (globals w) = Some id →
    JsMap.get (Js.String id) (managedTerminals w) = Some info →
    ti_type info ≠ "mouse";
  st_catId : ∀ id n,
    catTerminalId (globals w) = Some id →
    (terminalIdCounter (stateData w) ≤ n)%nat → Js.String id ≠ pretty n;
  st_fresh : ∀ n,
    (terminalIdCounter (stateData w) ≤ n)%nat →
    JsMap.get (pretty n) (managedTerminals w) = None;
  st_revealed : ∀ id info,
    catTerminalId (globals w) = Some id →
    JsMap.get (Js.String id) (managedTerminals w) = Some info →
    ti_terminal info ∈ shown (vscode w)
}.

(** [n] more ids can be taken before the counter reaches 2^53, so that
    each of them is one higher than the one before. *)
Definition idsLeft (n : nat) (w : World) : Prop :=
  (N.of_nat (terminalIdCounter (stateData w)) + N.of_nat n <= 2 ^ 53)%N.

(** The state of the controller is kept and [n] ids are left. *)
Definition Kept (n : nat) (w : World) : Prop :=
  Settled w ∧ idsLeft n w.

(** ** Worlds used as examples *)

(** A window without terminals and a world in which nothing has happened
    yet: no state file, no command log, an empty registry. *)
Definition emptyWindow : VSCode :=
  mkVSCode [] 0 "bash" true [] [] [].

(** The module variables once [initializePlugin] has started the server. *)
Definition startedGlobals : Globals :=
  mkGlobals None None false false true None.

Definition blankWorld : World :=
  mkWorld 1000 (mkFile Missing true) (mkFile Missing true) ∅ emptyWindow
          (freshState 1000) [] [] startedGlobals None.

(** A store whose counter has reached 2^53. *)
Definition saturatedWorld : World :=
  let table := mkStateData ∅ (N.to_nat (2 ^ 53)) 1000 in
  mkWorld 1000 (mkFile (Holds table) true) (mkFile Missing true) ∅ emptyWindow
          table [] [] startedGlobals None.


(** A machine on which neither file exists yet. *)
Definition firstStart : World :=
  mkWorld 0 (mkFile Missing true) (mkFile Missing true) ∅ emptyWindow
          (mkStateData ∅ 0 0) [] [] startedGlobals None.

(** The world after the first reconciliation in [blankWorld]: terminal 0
    of the window is the mouse terminal with id 1, terminal 1 is the cat
    terminal with id 2. *)
Definition liveWorld : World := (ensureTerminalsExist blankWorld).2.


(** A window reloaded after a run that had stored the ids 1 (mouse) and 2
    (cat): the ids are restored from the state file as strings, the
    registry is empty, and the window holds one terminal whose name
    contains both [MOUSE] and [CAT]. *)
Definition restoredTable : gmap string Descriptor :=
  <["1" := mkDescriptor "1" "mouse" 10 10 10 "REMOTE TERMINAL (MOUSE)"]>
    (<["2" := mkDescriptor "2" "cat" 20 20 20 "LOCAL TERMINAL (CAT)"]> ∅).

Definition reloadedWorld : World :=
  let table := mkStateData restoredTable 3 20 in
  mkWorld 5000 (mkFile (Holds table) true) (mkFile (Holds []) true) ∅
          (mkVSCode [mkVSTerminal 0 "MOUSE AND CAT" true] 1 "bash" true [] [] [])
          table [] []
          (mkGlobals (Some (Js.IdStr "1")) (Some (Js.IdStr "2")) false false true None)
          None.

(** A world whose state file and command log cannot be parsed. *)
Definition garbledWorld : World :=
  mkWorld 1000 (mkFile Garbage true) (mkFile Garbage true) ∅ emptyWindow
          (freshState 1000) [("1", mkTerminalInfo 0 "mouse" 0 0 "REMOTE TERMINAL (MOUSE)")]
          [] startedGlobals None.

(** Two entries of the command log for the same terminal and command: the
    older one never got a result, the newer one got the empty output. *)
Definition pendingEntry : LogEntry :=
  mkLogEntry 1 100 "1" "mouse" "true" None None "executed".

Definition emptyOutputEntry : LogEntry :=
  mkLogEntry 2 200 "1" "mouse" "true" (Some "/tmp/evil_sshagent_output_200.txt")
             (Some EmptyString) "executed".

(** ** The state file and the table, the store over a restart *)

(** The state file holds what the state manager has in memory. *)
Definition mirrored (w : World) : Prop :=
  content (stateFile w) = Holds (stateData w).

(** The calls of the state manager that change its table or its counter. *)
Inductive Mutation :=
| MUpsert (terminalId : Js.Id) (terminalInfo : Descriptor)
| MRemove (terminalId : Js.Id)
| MNextId
| MClear.

Definition mutate (m : Mutation) (w : World) : World :=
  match m with
  | MUpsert terminalId terminalInfo => (upsertTerminal terminalId terminalInfo w).2
  | MRemove terminalId => (removeTerminal terminalId w).2
  | MNextId => (getNextTerminalId w).2
  | MClear => (clearAllTerminals w).2
  end.

Definition mutateAll (ms : list Mutation) (w : World) : World :=
  foldl (fun w m => mutate m w) w ms.

(** ** Destroying terminals *)

(** The world after [destroyTerminal] has found [info] under the key [id]. *)
Definition destroyed (id : string) (info : TerminalInfo) (w : World) : World :=
  let w1 := set_managedTerminals (mapDelete id) (closeTerminal (ti_terminal info) w) in
  if truthyValue (terminalsGet id w)
  then saved (set_stateData (with_terminals (delete id)) w1)
  else w1.

(** The keys of the persisted table that [cleanupIdleTerminals] takes for
    idle at time [now]. *)
Definition idleKey (now maxIdleTimeMs : nat) (table : gmap string Descriptor)
    (k : string) : bool :=
  match table !! k with
  | Some d => idle now maxIdleTimeMs d
  | None => false
  end.

(** The element of the status list for the key [k] of the table. *)
Definition statusOf (w : World) (k : string) (d : Descriptor) : TerminalStatus :=
  mkTerminalStatus k (d_type d) (mapHas k (managedTerminals w))
                   (elapsed (clock w) (d_createdTime d))
                   (elapsed (clock w) (d_lastActivity d)).

(** The world after [destroyTerminal] has been called on each of [ks]. *)
Definition destroyEach (ks : list string) (w : World) : World :=
  foldl (fun w k => (destroyTerminal (Js.IdStr k) w).2) w ks.

(** [w'] is [w] after the registered terminals among [ks] have been
    destroyed: they left the registry, the persisted table and the window;
    everything else is as it was. *)
Definition Reaped (ks : list string) (w w' : World) : Prop :=
  (∀ k, k ∈ ks → JsMap.get k (managedTerminals w') = None)
  ∧ (∀ k, k ∉ ks → JsMap.get k (managedTerminals w') = JsMap.get k (managedTerminals w))
  ∧ (∀ k, k ∈ ks → is_Some (JsMap.get k (managedTerminals w)) →
          terminals (stateData w') !! k = None)
  ∧ (∀ k, ¬ (k ∈ ks ∧ is_Some (JsMap.get k (managedTerminals w))) →
          terminals (stateData w') !! k = terminals (stateData w) !! k)
  ∧ (∀ t, t ∈ window_terminals (vscode w') ↔
          t ∈ window_terminals (vscode w)
          ∧ ∀ k info, k ∈ ks → JsMap.get k (managedTerminals w) = Some info →
                      t_ref t ≠ ti_terminal info)
  ∧ globals w' = globals w
  ∧ terminalIdCounter (stateData w') = terminalIdCounter (stateData w)
  ∧ next_ref (vscode w') = next_ref (vscode w)
  ∧ shell_name (vscode w') = shell_name (vscode w)
  ∧ host_ok (vscode w') = host_ok (vscode w)
  ∧ shown (vscode w') = shown (vscode w)
  ∧ sentText (vscode w') = sentText (vscode w)
  ∧ clock w' = clock w
  ∧ commandLog w' = commandLog w
  ∧ timers w' = timers w.

(** ** Requests *)

(** The command a request to [/cmd] carries: the one of the body of a
    [POST] when it has one, else the one of the query string. *)
Definition commandOf (req : Request) : Outcome (option string) :=
  if String.eqb (req_method req) "POST"
  then
    match req_body req with
    | Ret fromBody => Ret (if Js.truthy_str fromBody then fromBody else req_query req)
    | Throw e => Throw e
    | Blocked => Blocked
    end
  else Ret (req_query req).

(** The result [executeRemoteCommand] makes of an exception. *)
Definition failure (error : string) : CommandResult :=
  mkCommandResult EmptyString error 1 None.

(** ** The messages of [validateTerminalExists] *)

Definition idMissing (terminalType : string) : string :=
  terminalType +:+ "终端ID为空，请确保插件已正确初始化".

Definition instanceMissing (terminalType : string) : string :=
  terminalType +:+ "终端实例不存在，终端可能已被销毁".

Definition notInWindow (terminalType : string) : string :=
  terminalType +:+ "终端在VS Code中不存在，可能已被关闭".

(** ** The slow path of [ensureTerminalsExist] *)

(** The world after the end of the slow path: the cat terminal is shown,
    the server is given the id of the mouse terminal, and the terminals
    count as initialised. *)
Definition finished (w : World) : World :=
  let w1 :=
    match JsMap.get (Js.StringOpt (catTerminalId (globals w))) (managedTerminals w) with
    | Some catTerminalInfo => (show (ti_terminal catTerminalInfo) w).2
    | None => w
    end in
  set_globals (with_terminalsInitialized true) (setTerminalReferences w1).2.

(** The lock of [ensureTerminalsExist] taken and released. *)
Definition locked (w : World) : World :=
  set_globals (with_terminalCreationInProgress true) w.

Definition released (w : World) : World :=
  set_globals (with_terminalCreationInProgress false) w.

(** The two parts of the slow path. *)
Definition ensureMouse : M unit :=
  ensureOne "mouse" mouseTerminalId with_mouseTerminalId createRemoteTerminal
            "Mouse终端创建失败: " "Mouse终端重新创建失败: ".

Definition ensureCat : M unit :=
  ensureOne "cat" catTerminalId with_catTerminalId createLocalTerminal
            "Cat终端创建失败: " "Cat终端重新创建失败: ".

(** What a part of the slow path never touches. *)
Definition partFrame (w w1 : World) : Prop :=
  host_ok (vscode w1) = host_ok (vscode w)
  ∧ shell_name (vscode w1) = shell_name (vscode w)
  ∧ terminalCreationInProgress (globals w1) = terminalCreationInProgress (globals w)
  ∧ terminalsInitialized (globals w1) = terminalsInitialized (globals w)
  ∧ shouldMaintainTerminals (globals w1) = shouldMaintainTerminals (globals w)
  ∧ mouseTerminalIdRef (globals w1) = mouseTerminalIdRef (globals w)
  ∧ (terminalIdCounter (stateData w) ≤ terminalIdCounter (stateData w1))%nat.

(** ** The health check *)

(** The test of the health check on one terminal: its id is held, it is
    registered, and the probe of its terminal answers [true]; the probe may
    throw. *)
Definition healthy (known : Globals → option Js.Id) (w : World) : Outcome bool :=
  match Js.truthy (known (globals w)),
        JsMap.get (Js.StringOpt (known (globals w))) (managedTerminals w) with
  | true, Some terminalInfo => (isTerminalAliveInVSCode (ti_terminal terminalInfo) w).1
  | _, _ => Ret false
  end.

(** The two parts of a tick. *)
Definition checkMouse : M unit :=
  checkOne "mouse" mouseTerminalId with_mouseTerminalId createRemoteTerminal
           setTerminalReferences.

Definition checkCat : M unit :=
  checkOne "cat" catTerminalId with_catTerminalId createLocalTerminal (ret tt).

(** ** Restoring the ids *)

(** [after] is the id restored for [terminalType] from the keys [ks] of
    the table: a key whose descriptor has that type, or the id held
    [before] when no descriptor has it. *)
Definition restoredFrom (ks : list string) (table : gmap string Descriptor)
    (terminalType : string) (before after : option Js.Id) : Prop :=
  (∃ k d, k ∈ ks ∧ after = Some (Js.IdStr k)
          ∧ table !! k = Some d ∧ d_type d = terminalType)
  ∨ (after = before
     ∧ ∀ k d, k ∈ ks → table !! k = Some d → d_type d ≠ terminalType).

(** The world with the two ids replaced. *)
Definition withIds (mouse cat : option Js.Id) (w : World) : World :=
  set_globals (fun g => with_catTerminalId cat (with_mouseTerminalId mouse g)) w.

(** ** The calls of a session and what they change *)

(** The entry points of the extension, of the terminal manager and of the
    server, and the events of their surroundings, that a session is made
    of. *)
Inductive Call :=
| CEnsure
| CHealthCheck
| CDispatch (terminalId : option Js.Id) (command : string)
            (clearAfterExecution redirectOutput : bool)
| CCreateRemote (type : string) (sendWelcome : bool)
| CCreateLocal (type : string) (sendWelcome : bool)
| CDestroy (terminalId : Js.Id)
| CDestroyAll
| CCleanup (maxIdleTimeMs : nat)
| CRequest (req : Request)
| CSendMouse (command : string) (clearAfterExecution redirectOutput : bool)
| CSendCat (command : string) (clearAfterExecution redirectOutput : bool)
| CRestore
| CFire (t : Timer)
| CClose (terminal : nat).

(** The world after one call, whatever its outcome. *)
Definition perform `{JsObject} (c : Call) (w : World) : World :=
  match c with
  | CEnsure => (ensureTerminalsExist w).2
  | CHealthCheck => (healthCheckTick w).2
  | CDispatch terminalId command clearAfterExecution redirectOutput =>
      (sendCommandToTerminal terminalId command clearAfterExecution redirectOutput w).2
  | CCreateRemote type sendWelcome => (createRemoteTerminal type sendWelcome w).2
  | CCreateLocal type sendWelcome => (createLocalTerminal type sendWelcome w).2
  | CDestroy terminalId => (destroyTerminal terminalId w).2
  | CDestroyAll => (destroyAllManagedTerminals w).2
  | CCleanup maxIdleTimeMs => (cleanupIdleTerminals maxIdleTimeMs w).2
  | CRequest req => (handleRequest req w).2
  | CSendMouse command clearAfterExecution redirectOutput =>
      (sendCommandToMouseTerminal command clearAfterExecution redirectOutput w).2
  | CSendCat command clearAfterExecution redirectOutput =>
      (sendCommandToCatTerminal command clearAfterExecution redirectOutput w).2
  | CRestore => (restoreTerminalIdsFromState w).2
  | CFire t => (fire t w).2
  | CClose terminal => closeTerminal terminal w
  end.

(** The world after a session. *)
Definition performAll `{JsObject} (cs : list Call) (w : World) : World :=
  foldl (fun w c => perform c w) w cs.

(** The descriptor [d] stored under [k] is the one of the registry value
    [info]. *)
Definition describes (k : string) (d : Descriptor) (info : TerminalInfo) : Prop :=
  d_id d = k ∧ d_type d = ti_type info ∧ d_name d = ti_name info
  ∧ d_createdTime d = ti_createdTime info ∧ d_lastActivity d = ti_lastActivity info.

(** Every terminal of the registry has its descriptor in the table, but
    for one registered under ["__proto__"]: the table is a plain object,
    and an assignment to that name stores no key unless the key is there
    already. *)
Definition Synced (w : World) : Prop :=
  ∀ k info, k ≠ "__proto__" → JsMap.get k (managedTerminals w) = Some info →
    ∃ d, terminals (stateData w) !! k = Some d ∧ describes k d info.

(** The same of every terminal of the registry. *)
Definition SyncedAll (w : World) : Prop :=
  ∀ k info, JsMap.get k (managedTerminals w) = Some info →
    ∃ d, terminals (stateData w) !! k = Some d ∧ describes k d info.

(** The four ways a call changes the registry, the table and the counter:
    not at all but for the counter, by registering a terminal together
    with its descriptor, by registering a terminal under ["__proto__"]
    while the table has no such key, and by destroying registered
    terminals. *)
Inductive Change : World → World → Prop :=
| change_frame w w' :
    managedTerminals w' = managedTerminals w →
    terminals (stateData w') = terminals (stateData w) →
    (terminalIdCounter (stateData w) ≤ terminalIdCounter (stateData w'))%nat →
    Change w w'
| change_bind w w' k info d :
    managedTerminals w' = JsMap.set k info (managedTerminals w) →
    terminals (stateData w') = <[k := d]> (terminals (stateData w)) →
    describes k d info →
    (terminalIdCounter (stateData w) ≤ terminalIdCounter (stateData w'))%nat →
    Change w w'
| change_proto w w' info :
    managedTerminals w' = JsMap.set "__proto__" info (managedTerminals w) →
    terminals (stateData w) !! "__proto__" = None →
    terminals (stateData w') = terminals (stateData w) →
    (terminalIdCounter (stateData w) ≤ terminalIdCounter (stateData w'))%nat →
    Change w w'
| change_reap w w' ks :
    Reaped ks w w' →
    Change w w'.

(** ** Further worlds and requests used as examples *)

(** A window reloaded after a run that had stored the ids 1 and 2, in
    which the two terminals have been adopted: the ids are strings, both
    are registered, and both terminals are in the window. *)
Definition adoptedWorld : World :=
  let table := mkStateData restoredTable 3 20 in
  mkWorld 4000 (mkFile (Holds table) true) (mkFile (Holds []) true) ∅
          (mkVSCode [mkVSTerminal 0 "zsh" true; mkVSTerminal 1 "zsh" true] 2 "zsh" true
                    [1] [] [])
          table
          [("1", mkTerminalInfo 0 "mouse" 10 10 "REMOTE TERMINAL (MOUSE)");
           ("2", mkTerminalInfo 1 "cat" 20 20 "LOCAL TERMINAL (CAT)")]
          []
          (mkGlobals (Some (Js.IdStr "1")) (Some (Js.IdStr "2")) true false true
                     (Some (Js.IdStr "1")))
          None.


(** A window reloaded from a state file that holds the descriptor of a
    mouse terminal under the key ["__proto__"]: that key is the id
    restored for the mouse terminal, and the window holds two terminals
    that adoption matches. *)
Definition protoReloadedWorld : World :=
  let table :=
    mkStateData (<["__proto__" := mkDescriptor "__proto__" "mouse" 10 10 10
                                               "REMOTE TERMINAL (MOUSE)"]> ∅) 3 20 in
  mkWorld 5000 (mkFile (Holds table) true) (mkFile (Holds []) true) ∅
          (mkVSCode [mkVSTerminal 0 "MOUSE" true; mkVSTerminal 1 "MOUSE" true] 2 "bash" true
                    [] [] [])
          table [] []
          (mkGlobals (Some (Js.IdStr "__proto__")) None false false true None)
          None.


(** [blankWorld] with a host that cannot create a terminal. *)
Definition hostDown : World :=
  mkWorld 1000 (mkFile Missing true) (mkFile Missing true) ∅
          (mkVSCode [] 0 "bash" false [] [] [])
          (freshState 1000) [] [] startedGlobals None.

(** [GET /cmd?command=ls], and a [POST] to [/cmd] whose body cannot be
    read. *)
Definition lsRequest : Request :=
  mkRequest "GET" "/cmd" (Some "ls") (Ret None).

Definition brokenPost : Request :=
  mkRequest "POST" "/cmd" None (Throw "aborted").

(** * Properties *)

(** ** Numbers and keys *)

Section Numbers.

Lemma increment_exact n :
  (N.of_nat n <= Js.MAX_SAFE_INTEGER)%N → Js.increment n = S n.
Proof.
  intros H. unfold Js.increment. cbv zeta.
  destruct (N.leb_spec (N.of_nat n) Js.MAX_SAFE_INTEGER) as [_|Hlt]; [reflexivity|].
  exfalso. apply (N.lt_irrefl Js.MAX_SAFE_INTEGER). eapply N.lt_le_trans; eassumption.
Qed.

Lemma increment_le (n : nat) : (n ≤ Js.increment n)%nat.
Proof.
  unfold Js.increment. cbv zeta.
  destruct (_ <=? _)%N; [lia|]. destruct (_ && _); lia.
Qed.

Lemma increment_stalls n :
  N.of_nat n = (2 ^ 53)%N → Js.increment n = n.
Proof.
  intros H. unfold Js.increment. cbv zeta. rewrite H. reflexivity.
Qed.

(** The decimal form of a number starts with a digit. *)
Lemma pretty_N_go_plain x : ∀ s, ¬ underscored s → ¬ underscored (pretty_N_go x s).
Proof.
  induction (N.lt_wf_0 x) as [x _ IH]. intros s Hs.
  destruct (decide (x = 0)%N) as [->|Hx]; [by rewrite pretty_N_go_0|].
  rewrite pretty_N_go_step by lia.
  apply IH; [apply N.div_lt; lia|].
  unfold underscored, pretty_N_char. by repeat case_match.
Qed.

Lemma pretty_plain (n : nat) : ¬ underscored (pretty n).
Proof.
  unfold pretty, pretty_nat, pretty, pretty_N.
  case_decide; [discriminate|].
  apply pretty_N_go_plain. cbn. tauto.
Qed.

Lemma pretty_not_proto (n : nat) : String.eqb (pretty n) "__proto__" = false.
Proof.
  apply String.eqb_neq. intros H. apply (pretty_plain n). rewrite H. reflexivity.
Qed.

End Numbers.

(** ** The state store *)

Section StateStore.

Lemma saveState_eq w : saveState w = (Ret tt, saved w).
Proof.
  unfold saveState, saved, try_catch, bind, gets, modify, writeStateFile, ret.
  cbn. destruct (writable (stateFile w)); reflexivity.
Qed.

Lemma saved_stateData w :
  stateData (saved w) = with_lastUpdated (clock w) (stateData w).
Proof. unfold saved. destruct (writable (stateFile w)); reflexivity. Qed.

Lemma saved_stateFile w :
  stateFile (saved w) =
  if writable (stateFile w)
  then write (with_lastUpdated (clock w) (stateData w)) (stateFile w)
  else stateFile w.
Proof. unfold saved. destruct (writable (stateFile w)); reflexivity. Qed.

Lemma saved_frame w :
  clock (saved w) = clock w ∧ commandLog (saved w) = commandLog w
  ∧ tmpFiles (saved w) = tmpFiles w ∧ vscode (saved w) = vscode w
  ∧ managedTerminals (saved w) = managedTerminals w
  ∧ timers (saved w) = timers w ∧ globals (saved w) = globals w.
Proof. unfold saved. destruct (writable (stateFile w)); repeat split. Qed.

Lemma saved_terminalsPrototype w :
  terminalsPrototype (saved w) = terminalsPrototype w.
Proof. unfold saved. destruct (writable (stateFile w)); reflexivity. Qed.

Lemma getNextTerminalId_eq w :
  getNextTerminalId w =
  (Ret (terminalIdCounter (stateData w)),
   saved (set_stateData (with_counter Js.increment) w)).
Proof.
  unfold getNextTerminalId, bind, gets, modify, ret. cbn.
  rewrite saveState_eq. reflexivity.
Qed.

(** An assignment to the table under a key other than [__proto__], or
    under a key the table has, adds or replaces an own property. *)
Lemma terminalsSet_ordinary k d w :
  String.eqb k "__proto__" = false →
  terminalsSet k d w = set_stateData (with_terminals (<[k := d]>)) w.
Proof. intros H. unfold terminalsSet. by rewrite H. Qed.

Lemma terminalsSet_own k d w :
  is_Some (terminals (stateData w) !! k) →
  terminalsSet k d w = set_stateData (with_terminals (<[k := d]>)) w.
Proof.
  intros [d' H]. unfold terminalsSet. rewrite H. by destruct (String.eqb k "__proto__").
Qed.

(** An assignment under [__proto__] to a table without that key replaces
    the prototype of the table. *)
Lemma terminalsSet_proto d w :
  terminals (stateData w) !! "__proto__" = None →
  terminalsSet "__proto__" d w = set_terminalsPrototype (fun _ => Some d) w.
Proof. intros H. unfold terminalsSet. by rewrite H. Qed.

Lemma terminalsSet_frame k d w :
  clock (terminalsSet k d w) = clock w
  ∧ stateFile (terminalsSet k d w) = stateFile w
  ∧ commandLog (terminalsSet k d w) = commandLog w
  ∧ tmpFiles (terminalsSet k d w) = tmpFiles w
  ∧ vscode (terminalsSet k d w) = vscode w
  ∧ managedTerminals (terminalsSet k d w) = managedTerminals w
  ∧ timers (terminalsSet k d w) = timers w
  ∧ globals (terminalsSet k d w) = globals w
  ∧ terminalIdCounter (stateData (terminalsSet k d w)) = terminalIdCounter (stateData w)
  ∧ lastUpdated (stateData (terminalsSet k d w)) = lastUpdated (stateData w).
Proof.
  unfold terminalsSet.
  destruct (String.eqb k "__proto__"), (terminals (stateData w) !! k); by repeat split.
Qed.

(** The table after an assignment: an own property is added or replaced,
    or the table is as it was. *)
Lemma terminalsSet_terminals k d w :
  terminals (stateData (terminalsSet k d w)) = <[k := d]> (terminals (stateData w))
  ∨ (k = "__proto__" ∧ terminals (stateData w) !! k = None
     ∧ terminals (stateData (terminalsSet k d w)) = terminals (stateData w)).
Proof.
  unfold terminalsSet.
  destruct (String.eqb_spec k "__proto__") as [->|Hk];
    destruct (terminals (stateData w) !! _) eqn:E; auto.
Qed.

Lemma upsertTerminal_eq id info w :
  upsertTerminal id info w = (Ret tt, upserted (Js.String id) info w).
Proof.
  unfold upsertTerminal, upserted, bind, gets, modify. cbn.
  rewrite saveState_eq. reflexivity.
Qed.

Lemma upserted_ordinary id info w :
  String.eqb id "__proto__" = false →
  upserted id info w
  = saved (set_stateData (with_terminals (<[id := stored id (clock w) info]>)) w).
Proof. intros H. unfold upserted. by rewrite terminalsSet_ordinary. Qed.

Lemma removeTerminal_eq id w :
  removeTerminal id w =
  if truthyValue (terminalsGet (Js.String id) w)
  then (Ret true, saved (set_stateData (with_terminals (delete (Js.String id))) w))
  else (Ret false, w).
Proof.
  unfold removeTerminal, bind, gets, modify, ret. cbn.
  destruct (truthyValue (terminalsGet (Js.String id) w)); [|reflexivity].
  cbn. rewrite saveState_eq. reflexivity.
Qed.

(** A key of the table reads as its descriptor. *)
Lemma terminalsGet_own k d w :
  terminals (stateData w) !! k = Some d → terminalsGet k w = JsDescriptor d.
Proof. intros H. unfold terminalsGet. by rewrite H. Qed.

(** On a table with the prototype of a new object, a key that is neither
    in the table nor a property of [Object.prototype] reads as
    [undefined]. *)
Lemma terminalsGet_undefined k w :
  terminals (stateData w) !! k = None →
  terminalsPrototype w = None →
  Js.inObjectPrototype k = false →
  terminalsGet k w = JsUndefined.
Proof. intros H Hp Hk. unfold terminalsGet, inheritedGet. by rewrite H, Hp, Hk. Qed.

Lemma clearAllTerminals_eq w :
  clearAllTerminals w =
  (Ret tt, saved (set_terminalsPrototype (fun _ => None)
                    (set_stateData (with_terminals (fun _ => ∅)) w))).
Proof.
  unfold clearAllTerminals, bind, modify. cbn. rewrite saveState_eq. reflexivity.
Qed.

Lemma loadState_eq w :
  loadState w =
  match content (stateFile w) with
  | Missing => (Ret tt, saved w)
  | Garbage => (Ret tt, newStateData (freshState (clock w)) w)
  | Holds parsed => (Ret tt, newStateData parsed w)
  end.
Proof.
  unfold loadState, try_catch, bind, gets, modify, readJson, existsSync.
  destruct (content (stateFile w)) eqn:E; cbn.
  - rewrite saveState_eq. reflexivity.
  - rewrite E. reflexivity.
  - rewrite E. reflexivity.
Qed.

Lemma keyed_with_lastUpdated now s : keyed s → keyed (with_lastUpdated now s).
Proof. intros H k d. apply H. Qed.

Lemma keyed_saved w :
  keyed (stateData w) → keyedFile (stateFile w) →
  keyed (stateData (saved w)) ∧ keyedFile (stateFile (saved w)).
Proof.
  intros Hs Hf. rewrite saved_stateData, saved_stateFile. split.
  - by apply keyed_with_lastUpdated.
  - destruct (writable (stateFile w)); [|done].
    unfold keyedFile. cbn. by apply keyed_with_lastUpdated.
Qed.

Lemma keyed_insert k now info s :
  keyed s → keyed (with_terminals (<[k := stored k now info]>) s).
Proof.
  intros H k' d. unfold with_terminals. cbn.
  destruct (decide (k = k')) as [->|Hne].
  - rewrite lookup_insert_eq. by intros [= <-].
  - rewrite lookup_insert_ne by done. apply H.
Qed.

Lemma keyed_terminalsSet k now info w :
  keyed (stateData w) → keyed (stateData (terminalsSet k (stored k now info) w)).
Proof.
  intros H. unfold terminalsSet.
  destruct (String.eqb k "__proto__"), (terminals (stateData w) !! k);
    first [exact H | by apply keyed_insert].
Qed.

Lemma keyed_delete k s : keyed s → keyed (with_terminals (delete k) s).
Proof.
  intros H k' d. unfold with_terminals. cbn.
  intros Hl. apply lookup_delete_Some in Hl as [_ Hl]. by apply H.
Qed.

Lemma keyed_clear s : keyed (with_terminals (fun _ => ∅) s).
Proof. intros k d. unfold with_terminals. cbn. by rewrite lookup_empty. Qed.

End StateStore.

Section Counter.

Lemma counted_counter w :
  terminalIdCounter (stateData (counted w)) = Js.increment (terminalIdCounter (stateData w)).
Proof. unfold counted. rewrite saved_stateData. reflexivity. Qed.

Lemma exact_below (c count : nat) :
  (N.of_nat c + N.of_nat (S count) <= 2 ^ 53)%N →
  (N.of_nat c <= Js.MAX_SAFE_INTEGER)%N
  ∧ (N.of_nat (S c) + N.of_nat count <= 2 ^ 53)%N.
Proof.
  unfold Js.MAX_SAFE_INTEGER.
  change (2 ^ 53)%N with 9007199254740992%N. lia.
Qed.

Lemma nextIds_seq count : ∀ w,
  (N.of_nat (terminalIdCounter (stateData w)) + N.of_nat count <= 2 ^ 53)%N →
  ∃ w', nextIds count w = (Ret (seq (terminalIdCounter (stateData w)) count), w')
        ∧ terminalIdCounter (stateData w') = terminalIdCounter (stateData w) + count.
Proof.
  induction count as [|k IH]; intros w Hb.
  - exists w. split; [reflexivity | lia].
  - apply exact_below in Hb as [Hc Hb].
    cbn [nextIds]. unfold bind at 1. rewrite getNextTerminalId_eq.
    fold (counted w).
    assert (Hw : terminalIdCounter (stateData (counted w))
                 = S (terminalIdCounter (stateData w))).
    { rewrite counted_counter. by apply increment_exact. }
    destruct (IH (counted w)) as (w' & Hrun & Hcnt); [by rewrite Hw|].
    exists w'. unfold bind. rewrite Hrun, Hw. split; [reflexivity | lia].
Qed.

Lemma seq_increasing (c count i j a b : nat) :
  i < j → seq c count !! i = Some a → seq c count !! j = Some b → a < b.
Proof.
  intros Hij Ha Hb.
  apply lookup_seq in Ha as [-> _]. apply lookup_seq in Hb as [-> _]. lia.
Qed.

(** Where the counter holds 2^53 a call leaves it as it is. *)
Lemma getNextTerminalId_stalls w :
  N.of_nat (terminalIdCounter (stateData w)) = (2 ^ 53)%N →
  getNextTerminalId w = (Ret (terminalIdCounter (stateData w)), counted w)
  ∧ terminalIdCounter (stateData (counted w)) = terminalIdCounter (stateData w).
Proof.
  intros H. split; [apply getNextTerminalId_eq|].
  rewrite counted_counter. by apply increment_stalls.
Qed.

Lemma nextIds_stalled count : ∀ w,
  N.of_nat (terminalIdCounter (stateData w)) = (2 ^ 53)%N →
  ∃ w', nextIds count w = (Ret (replicate count (terminalIdCounter (stateData w))), w')
        ∧ terminalIdCounter (stateData w') = terminalIdCounter (stateData w).
Proof.
  induction count as [|k IH]; intros w H.
  - exists w. by split.
  - destruct (getNextTerminalId_stalls w H) as [Hrun Hc].
    cbn [nextIds replicate]. unfold bind at 1. rewrite Hrun.
    destruct (IH (counted w)) as (w' & Hrest & Hc'); [by rewrite Hc|].
    exists w'. unfold bind. rewrite Hrest, Hc. split; [reflexivity|].
    by rewrite Hc'.
Qed.

End Counter.

(** C7, amended.  On a store whose counter [c] is such that [c + count] is
    at most 2^53, [count] calls of [getNextTerminalId] in a row return
    [c], [c + 1], ... in this order: each call returns the value of the
    counter and leaves the counter one higher, so the numbers increase
    strictly from one call to the next and none comes twice. *)
Theorem getNextTerminalId_strictly_increasing (count : nat) (w : World) :
  (N.of_nat (terminalIdCounter (stateData w)) + N.of_nat count <= 2 ^ 53)%N →
  ((1 ≤ count)%nat →
   ∃ w1, getNextTerminalId w = (Ret (terminalIdCounter (stateData w)), w1)
         ∧ terminalIdCounter (stateData w1) = S (terminalIdCounter (stateData w)))
  ∧ ∃ ids w', nextIds count w = (Ret ids, w')
      ∧ length ids = count
      ∧ (∀ i a, ids !! i = Some a → a = terminalIdCounter (stateData w) + i)
      ∧ terminalIdCounter (stateData w') = terminalIdCounter (stateData w) + count
      ∧ (∀ i j a b, i < j → ids !! i = Some a → ids !! j = Some b → a < b)
      ∧ NoDup ids.
Proof.
  intros Hb. split.
  - intros Hcount. destruct count as [|k]; [lia|].
    apply exact_below in Hb as [Hc _].
    eexists. split; [apply getNextTerminalId_eq|].
    fold (counted w). rewrite counted_counter. by apply increment_exact.
  - destruct (nextIds_seq count w Hb) as (w' & Hrun & Hcnt).
    eexists _, w'. split; [exact Hrun|].
    split; [apply length_seq|]. split; [|split; [exact Hcnt|split]].
    + intros i a Ha. by apply lookup_seq in Ha as [-> _].
    + intros i j a b. apply seq_increasing.
    + apply NoDup_seq.
Qed.

(** C10, amended.  [upsertTerminal], [removeTerminal] and
    [clearAllTerminals] keep every key of the persisted table, in memory
    and in the state file, equal to the [id] of the descriptor stored under
    it.  Unless the key [String(terminalId)] is [__proto__] and the table
    has no such key, [upsertTerminal] stores under that key a descriptor
    whose [id] is the key and whose [lastUpdated] is the time of the call,
    the other fields being those of the argument; with the key [__proto__]
    on a table without it the table is left as it is. *)
Theorem persisted_table_keyed (w : World) (id : Js.Id) (info : Descriptor) :
  keyed (stateData w) → keyedFile (stateFile w) →
  (let w' := (upsertTerminal id info w).2 in
   keyed (stateData w') ∧ keyedFile (stateFile w')
   ∧ (Js.String id ≠ "__proto__" ∨ is_Some (terminals (stateData w) !! Js.String id) →
      ∃ d, terminals (stateData w') !! Js.String id = Some d
           ∧ d_id d = Js.String id ∧ d_lastUpdated d = clock w
           ∧ d_type d = d_type info ∧ d_createdTime d = d_createdTime info
           ∧ d_lastActivity d = d_lastActivity info ∧ d_name d = d_name info)
   ∧ (Js.String id = "__proto__" → terminals (stateData w) !! Js.String id = None →
      terminals (stateData w') = terminals (stateData w)))
  ∧ (let w' := (removeTerminal id w).2 in
     keyed (stateData w') ∧ keyedFile (stateFile w'))
  ∧ (let w' := (clearAllTerminals w).2 in
     keyed (stateData w') ∧ keyedFile (stateFile w')).
Proof.
  intros Hs Hf. split; [|split].
  - rewrite upsertTerminal_eq. cbn [snd]. unfold upserted.
    set (d := stored (Js.String id) (clock w) info).
    set (w1 := terminalsSet (Js.String id) d w).
    assert (H1 : keyed (stateData w1)) by (by apply keyed_terminalsSet).
    assert (Hf1 : keyedFile (stateFile w1)).
    { subst w1. destruct (terminalsSet_frame (Js.String id) d w) as (_ & -> & _).
      exact Hf. }
    destruct (keyed_saved w1 H1 Hf1) as [Hk Hkf].
    split; [exact Hk|]. split; [exact Hkf|]. split.
    + intros Hid. exists d. split; [|by repeat split].
      rewrite saved_stateData. subst w1.
      assert (Hset : terminalsSet (Js.String id) d w
                     = set_stateData (with_terminals (<[Js.String id := d]>)) w).
      { destruct Hid as [Hid|Hid]; [|by apply terminalsSet_own].
        apply terminalsSet_ordinary. by apply String.eqb_neq. }
      rewrite Hset. cbn. apply lookup_insert_eq.
    + intros Hid Hnone. rewrite saved_stateData. subst w1.
      rewrite Hid in *. by rewrite terminalsSet_proto.
  - rewrite removeTerminal_eq.
    destruct (truthyValue _); cbn [snd]; [|by split].
    apply keyed_saved; [by apply keyed_delete | exact Hf].
  - rewrite clearAllTerminals_eq. cbn [snd].
    apply keyed_saved; [apply keyed_clear | exact Hf].
Qed.

(** C4, amended.  [loadState] never throws.  When the state file is absent
    the state in memory is kept (it is the empty state with counter 1 when
    the constructor calls [loadState]) and is written to the file at once,
    unless the write fails.  When the file cannot be read or parsed the
    state in memory becomes the empty state with counter 1 and the file is
    left as it is.  Otherwise the state in memory is the content of the
    file. *)
Theorem loadState_fallback (w : World) :
  ∃ w', loadState w = (Ret tt, w')
    ∧ match content (stateFile w) with
      | Missing =>
          stateData w' = with_lastUpdated (clock w) (stateData w)
          ∧ stateFile w' =
              (if writable (stateFile w)
               then mkFile (Holds (stateData w')) true else stateFile w)
      | Garbage =>
          stateData w' = freshState (clock w) ∧ stateFile w' = stateFile w
      | Holds parsed =>
          stateData w' = parsed ∧ stateFile w' = stateFile w
      end
    ∧ ∃ w'', newTerminalStateManager w = (Ret tt, w'')
        ∧ match content (stateFile w) with
          | Missing | Garbage =>
              terminals (stateData w'') = ∅ ∧ terminalIdCounter (stateData w'') = 1
          | Holds parsed => stateData w'' = parsed
          end.
Proof.
  unfold newTerminalStateManager, bind, gets, modify. cbn.
  rewrite !loadState_eq. cbn.
  destruct (content (stateFile w)) eqn:E.
  - eexists. split; [reflexivity|]. split.
    + rewrite saved_stateData, saved_stateFile. split; [reflexivity|].
      destruct (writable (stateFile w)) eqn:Ew; [|reflexivity].
      unfold write. by rewrite Ew.
    + eexists. split; [reflexivity|]. rewrite saved_stateData. by split.
  - eexists. split; [reflexivity|]. split; [by split|].
    eexists. split; [reflexivity|]. by split.
  - eexists. split; [reflexivity|]. split; [by split|].
    eexists. split; reflexivity.
Qed.

(** ** The command log *)

Section CommandLog.

Lemma readCommandLog_eq w :
  readCommandLog w =
  match content (commandLog w) with
  | Missing => (Ret [], w)
  | Garbage => (Throw "Unexpected token", w)
  | Holds logData => (Ret logData, w)
  end.
Proof.
  unfold readCommandLog, bind, gets, readJson, existsSync, ret.
  destruct (content (commandLog w)) eqn:E; cbn; rewrite ?E; reflexivity.
Qed.

Lemma logCommandExecution_eq terminalId terminalType command outputFile result w :
  logCommandExecution terminalId terminalType command outputFile result w =
  (Ret tt, logged terminalId terminalType command outputFile result w).
Proof.
  unfold logCommandExecution, logged, try_catch. unfold bind at 1.
  rewrite readCommandLog_eq.
  destruct (content (commandLog w)); cbn; [| reflexivity |];
    unfold writeCommandLog, logEntryFor;
    destruct (writable (commandLog w)); reflexivity.
Qed.

Lemma updateCommandResult_eq terminalId command result w :
  updateCommandResult terminalId command result w =
  (Ret tt, updated terminalId command result w).
Proof.
  unfold updateCommandResult, updated, try_catch. unfold bind at 1.
  rewrite readCommandLog_eq.
  destruct (content (commandLog w)); cbn; [| reflexivity |];
    unfold writeCommandLog;
    destruct (writable (commandLog w)); reflexivity.
Qed.

Lemma logged_frame terminalId terminalType command outputFile result w :
  let w' := logged terminalId terminalType command outputFile result w in
  clock w' = clock w ∧ stateFile w' = stateFile w ∧ tmpFiles w' = tmpFiles w
  ∧ vscode w' = vscode w ∧ stateData w' = stateData w
  ∧ managedTerminals w' = managedTerminals w ∧ timers w' = timers w
  ∧ globals w' = globals w.
Proof.
  unfold logged.
  destruct (content (commandLog w)), (writable (commandLog w)); cbn; repeat split.
Qed.

(** The loop visits the indices below [n] from the highest down and stops
    at the first entry that still awaits a result. *)
Lemma updateLoop_scan terminalId command result (logData : list LogEntry) n :
  length (updateLoop n terminalId command result logData) = length logData
  ∧ ((∃ i e, i < n ∧ logData !! i = Some e
        ∧ awaitsResult terminalId command e = true
        ∧ (∀ j e', i < j → j < n → logData !! j = Some e' →
             awaitsResult terminalId command e' = false)
        ∧ updateLoop n terminalId command result logData
          = <[i := with_result result e]> logData)
     ∨ ((∀ j e', j < n → logData !! j = Some e' →
           awaitsResult terminalId command e' = false)
        ∧ updateLoop n terminalId command result logData = logData)).
Proof.
  induction n as [|i IH].
  - split; [reflexivity|]. right. split; [intros; lia | reflexivity].
  - cbn [updateLoop].
    destruct (logData !! i) as [e|] eqn:Hi.
    + destruct (awaitsResult terminalId command e) eqn:He.
      * split; [apply length_insert|]. left.
        exists i, e. repeat split; try done; [lia | intros; lia].
      * destruct IH as [Hlen [(k & e0 & Hk & Hk0 & Hm & Hlast & Heq) | [Hnone Heq]]].
        -- split; [exact Hlen|]. left. exists k, e0.
           repeat split; try done; [lia|].
           intros j e' Hkj Hj Hje.
           destruct (decide (j = i)) as [->|Hne]; [congruence|].
           apply (Hlast j e'); [done | lia | done].
        -- split; [exact Hlen|]. right. split; [|exact Heq].
           intros j e' Hj Hje.
           destruct (decide (j = i)) as [->|Hne]; [congruence|].
           apply (Hnone j e'); [lia | done].
    + destruct IH as [Hlen [(k & e0 & Hk & Hk0 & Hm & Hlast & Heq) | [Hnone Heq]]].
      * split; [exact Hlen|]. left. exists k, e0.
        repeat split; try done; [lia|].
        intros j e' Hkj Hj Hje.
        destruct (decide (j = i)) as [->|Hne]; [congruence|].
        apply (Hlast j e'); [done | lia | done].
      * split; [exact Hlen|]. right. split; [|exact Heq].
        intros j e' Hj Hje.
        destruct (decide (j = i)) as [->|Hne]; [congruence|].
        apply (Hnone j e'); [lia | done].
Qed.

End CommandLog.

(** C6, amended.  [updateCommandResult] never throws and rewrites the log
    with the result of the loop, unless the log cannot be read or written,
    in which case it leaves the file alone.  The loop keeps the number of
    entries.  If some entry has the given terminal id and command and a
    result that is still empty ([null] or the empty string), the last such
    entry gets the result and every other entry stays as it was; if there
    is none, the log is unchanged. *)
Theorem updateCommandResult_last_pending (terminalId command result : string) (w : World) :
  (∃ w', updateCommandResult terminalId command result w = (Ret tt, w')
     ∧ match content (commandLog w) with
       | Holds logData =>
           if writable (commandLog w)
           then content (commandLog w')
                = Holds (updateLoop (length logData) terminalId command result logData)
           else commandLog w' = commandLog w
       | Missing =>
           if writable (commandLog w)
           then content (commandLog w') = Holds []
           else commandLog w' = commandLog w
       | Garbage => commandLog w' = commandLog w
       end)
  ∧ ∀ logData : list LogEntry,
      let logData' := updateLoop (length logData) terminalId command result logData in
      length logData' = length logData
      ∧ ((∃ i e, logData !! i = Some e
            ∧ awaitsResult terminalId command e = true
            ∧ (∀ j e', i < j → logData !! j = Some e' →
                 awaitsResult terminalId command e' = false)
            ∧ logData' !! i = Some (with_result result e)
            ∧ (∀ j, j ≠ i → logData' !! j = logData !! j))
         ∨ ((∀ e, e ∈ logData → awaitsResult terminalId command e = false)
            ∧ logData' = logData)).
Proof.
  split.
  - eexists. split; [apply updateCommandResult_eq|].
    unfold updated.
    destruct (content (commandLog w)), (writable (commandLog w)); reflexivity.
  - intros logData logData'. subst logData'.
    destruct (updateLoop_scan terminalId command result logData (length logData))
      as [Hlen [(i & e & Hi & Hie & Hm & Hlast & Heq) | [Hnone Heq]]].
    + split; [exact Hlen|]. left. exists i, e.
      repeat split; try done.
      * intros j e' Hij Hje. apply (Hlast j e'); try done.
        by apply lookup_lt_Some in Hje.
      * rewrite Heq. by apply list_lookup_insert_eq.
      * intros j Hne. rewrite Heq. by apply list_lookup_insert_ne.
    + split; [exact Hlen|]. right. split; [|exact Heq].
      intros e He. apply list_elem_of_lookup in He as [j Hj].
      apply (Hnone j e); [|done]. by apply lookup_lt_Some in Hj.
Qed.

(** ** Dispatch *)

Section Dispatch.

Lemma sendCommandToTerminal_eq terminalId command clearAfterExecution redirectOutput w :
  sendCommandToTerminal terminalId command clearAfterExecution redirectOutput w =
  match resolveTarget terminalId w with
  | None => (Throw mouseNotFound, w)
  | Some id =>
      match JsMap.get id (managedTerminals w) with
      | None => (Throw (terminalNotFound id), w)
      | Some info =>
          (Ret (resultFor id command redirectOutput (clock w)),
           dispatched id info command clearAfterExecution redirectOutput w)
      end
  end.
Proof.
  assert (Hfound : ∀ id,
    (do terminalInfo <~ gets (fun w => JsMap.get id (managedTerminals w));
     match terminalInfo with
     | None => throw (terminalNotFound id)
     | Some terminalInfo =>
         try_catch
           (run (if negb (String.eqb (ti_type terminalInfo) "mouse")
                 then show (ti_terminal terminalInfo) else ret tt);
            do now <~ gets clock;
            let outputFile := if redirectOutput then Some (outputFileName now) else None in
            let finalCommand :=
              match outputFile with
              | Some f => command +:+ " > " +:+ f +:+ " 2>&1"
              | None => command
              end in
            run sendText (ti_terminal terminalInfo) finalCommand;
            let result :=
              mkCommandResult (resultMessage command id outputFile)
                              EmptyString 0 outputFile in
            run logCommandExecution id (ti_type terminalInfo) command outputFile None;
            run (if clearAfterExecution
                 then modify (set_timers (fun ts =>
                        ts ++ [TClear (ti_terminal terminalInfo) id command outputFile]))
                 else ret tt);
            do now <~ gets clock;
            let terminalInfo :=
              mkTerminalInfo (ti_terminal terminalInfo) (ti_type terminalInfo)
                             (ti_createdTime terminalInfo) now (ti_name terminalInfo) in
            run modify (set_managedTerminals (JsMap.set id terminalInfo));
            run upsertTerminal (Js.IdStr id) (descriptorOf terminalInfo);
            ret result)
           (fun error => throw error)
     end) w =
    match JsMap.get id (managedTerminals w) with
    | None => (Throw (terminalNotFound id), w)
    | Some info =>
        (Ret (resultFor id command redirectOutput (clock w)),
         dispatched id info command clearAfterExecution redirectOutput w)
    end).
  { intros id. unfold bind at 1. unfold gets at 1.
    destruct (JsMap.get id (managedTerminals w)) as [info|]; [|reflexivity].
    unfold try_catch, dispatched, resultFor, redirection, finalCommand.
    unfold bind at 1.
    destruct (negb (String.eqb (ti_type info) "mouse")).
    - unfold show at 1, modify at 1. unfold bind at 1, gets at 1.
      unfold bind at 1, sendText at 1, modify at 1.
      unfold bind at 1. rewrite logCommandExecution_eq.
      pose proof (logged_frame id (ti_type info) command
                    (if redirectOutput then Some (outputFileName (clock w)) else None) None
                    (sendText (ti_terminal info)
                       (match (if redirectOutput then Some (outputFileName (clock w)) else None) with
                        | Some f => command +:+ " > " +:+ f +:+ " 2>&1"
                        | None => command
                        end) (show (ti_terminal info) w).2).2) as (Hc & _).
      cbn in Hc. cbn [snd fst clock set_vscode].
      destruct clearAfterExecution;
        unfold bind, modify, gets, ret; cbn -[logged saved upsertTerminal];
        rewrite upsertTerminal_eq; unfold upserted;
        cbn -[logged saved terminalsSet]; rewrite Hc; reflexivity.
    - unfold ret at 1. unfold bind at 1, gets at 1.
      unfold bind at 1, sendText at 1, modify at 1.
      unfold bind at 1. rewrite logCommandExecution_eq.
      pose proof (logged_frame id (ti_type info) command
                    (if redirectOutput then Some (outputFileName (clock w)) else None) None
                    (sendText (ti_terminal info)
                       (match (if redirectOutput then Some (outputFileName (clock w)) else None) with
                        | Some f => command +:+ " > " +:+ f +:+ " 2>&1"
                        | None => command
                        end) w).2) as (Hc & _).
      cbn in Hc. cbn [snd fst clock set_vscode].
      destruct clearAfterExecution;
        unfold bind, modify, gets, ret; cbn -[logged saved upsertTerminal];
        rewrite upsertTerminal_eq; unfold upserted;
        cbn -[logged saved terminalsSet]; rewrite Hc; reflexivity. }
  unfold sendCommandToTerminal, resolveTarget. unfold bind at 1.
  destruct (Js.truthy terminalId) eqn:Ht.
  - unfold ret at 1. apply Hfound.
  - unfold bind at 1, gets at 1.
    destruct (findMouse (managedTerminals w)) as [id|].
    + destruct (Js.truthy (Some (Js.IdStr id))) eqn:Hid.
      * unfold ret at 1. apply Hfound.
      * reflexivity.
    + rewrite Ht. reflexivity.
Qed.

Lemma JsMap_get_keys {V} k (v : V) m : JsMap.get k m = Some v → k ∈ JsMap.keys m.
Proof.
  induction m as [|[k' v'] m IH]; cbn; [done|].
  destruct (String.eqb_spec k k') as [->|Hne]; intros H.
  - apply list_elem_of_here.
  - apply list_elem_of_further, IH, H.
Qed.

Lemma JsMap_keys_set {V} k (v v' : V) m :
  JsMap.get k m = Some v → JsMap.keys (JsMap.set k v' m) = JsMap.keys m.
Proof.
  induction m as [|[k' v0] m IH]; cbn; [done|].
  destruct (String.eqb_spec k k') as [->|Hne]; intros H; cbn.
  - reflexivity.
  - f_equal. apply IH, H.
Qed.

Lemma JsMap_get_set {V} k k' (v : V) m :
  JsMap.get k' (JsMap.set k v m) = if String.eqb k' k then Some v else JsMap.get k' m.
Proof.
  induction m as [|[k0 v0] m IH]; cbn.
  - destruct (String.eqb_spec k' k); reflexivity.
  - destruct (String.eqb_spec k k0) as [->|Hne]; cbn.
    + destruct (String.eqb_spec k' k0); reflexivity.
    + destruct (String.eqb_spec k' k0) as [->|Hne'].
      * destruct (String.eqb_spec k0 k); [congruence | reflexivity].
      * apply IH.
Qed.

Lemma findMouse_get m id :
  NoDup (JsMap.keys m) → findMouse m = Some id →
  ∃ info, JsMap.get id m = Some info ∧ ti_type info = "mouse".
Proof.
  induction m as [|[k v] m IH]; cbn; [done|].
  intros Hnd. apply NoDup_cons in Hnd as [Hk Hnd].
  destruct (String.eqb_spec (ti_type v) "mouse") as [Hty|Hty].
  - intros [= ->]. exists v. by rewrite String.eqb_refl.
  - intros Hf. destruct (IH Hnd Hf) as (info & Hget & Hm).
    exists info. split; [|done].
    destruct (String.eqb_spec id k) as [->|Hne]; [|done].
    exfalso. apply Hk. by eapply JsMap_get_keys.
Qed.


(** What a successful call leaves behind, field by field. *)
Lemma dispatched_fields id info command clearAfterExecution redirectOutput w :
  let w' := dispatched id info command clearAfterExecution redirectOutput w in
  let outputFile := redirection redirectOutput (clock w) in
  window_terminals (vscode w') = window_terminals (vscode w)
  ∧ next_ref (vscode w') = next_ref (vscode w)
  ∧ terminalIdCounter (stateData w') = terminalIdCounter (stateData w)
  ∧ managedTerminals w' =
      JsMap.set id (mkTerminalInfo (ti_terminal info) (ti_type info) (ti_createdTime info)
                                   (clock w) (ti_name info)) (managedTerminals w)
  ∧ sentText (vscode w') =
      (ti_terminal info, finalCommand command outputFile) :: sentText (vscode w)
  ∧ shown (vscode w') =
      (if negb (String.eqb (ti_type info) "mouse")
       then ti_terminal info :: shown (vscode w) else shown (vscode w))
  ∧ commandLog w' = commandLog (logged id (ti_type info) command outputFile None w)
  ∧ globals w' = globals w
  ∧ shell_name (vscode w') = shell_name (vscode w).
Proof.
  unfold dispatched, logged, saved, terminalsSet.
  destruct (negb (String.eqb (ti_type info) "mouse")), clearAfterExecution;
    cbn; destruct (content (commandLog w)), (writable (commandLog w));
    cbn; destruct (String.eqb id "__proto__");
    try destruct (terminals (stateData w) !! id);
    cbn; destruct (writable (stateFile w)); cbn; repeat split.
Qed.

End Dispatch.

(** C3, amended.  A call of [sendCommandToTerminal] that returns has
    appended exactly one entry to the command log, with status
    ["executed"] and result [null], naming the terminal, the command and
    the output file of the call, provided the log was absent or readable
    and could be written; otherwise the log file is as it was. *)
Theorem sendCommandToTerminal_logs_one_entry
    (terminalId : option Js.Id) (command : string)
    (clearAfterExecution redirectOutput : bool) (w w' : World) (r : CommandResult) :
  sendCommandToTerminal terminalId command clearAfterExecution redirectOutput w = (Ret r, w') →
  let before := match content (commandLog w) with Holds logData => logData | _ => [] end in
  match content (commandLog w) with
  | Garbage => commandLog w' = commandLog w
  | _ =>
      if writable (commandLog w)
      then ∃ e, content (commandLog w') = Holds (before ++ [e])
                ∧ le_status e = "executed" ∧ le_result e = None
                ∧ le_command e = command ∧ le_outputFile e = outputFile r
                ∧ resolveTarget terminalId w = Some (le_terminalId e)
                ∧ le_id e = length before + 1
      else commandLog w' = commandLog w
  end.
Proof.
  rewrite sendCommandToTerminal_eq.
  destruct (resolveTarget terminalId w) as [id|] eqn:Hid; [|done].
  destruct (JsMap.get id (managedTerminals w)) as [info|] eqn:Hinfo; [|done].
  intros [= <- <-].
  pose proof (dispatched_fields id info command clearAfterExecution redirectOutput w)
    as (_ & _ & _ & _ & _ & _ & Hlog & _).
  rewrite Hlog. unfold logged.
  destruct (content (commandLog w)) as [| |logData], (writable (commandLog w)); cbn;
    try reflexivity; eexists; repeat split.
Qed.

(** C5, amended.  [sendCommandToTerminal] never creates a terminal: the
    window, the id counter and the keys of the registry are the same after
    the call, whatever its outcome.  Without an id, the command goes to
    the first terminal of type ["mouse"] in the registry, and the call
    throws when there is none.  With an id that is not a key of the
    registry the call throws and changes nothing, whether or not a mouse
    terminal is registered. *)
Theorem sendCommandToTerminal_resolution
    (terminalId : option Js.Id) (command : string)
    (clearAfterExecution redirectOutput : bool) (w : World) :
  NoDup (JsMap.keys (managedTerminals w)) →
  let out := sendCommandToTerminal terminalId command clearAfterExecution redirectOutput w in
  (window_terminals (vscode out.2) = window_terminals (vscode w)
   ∧ next_ref (vscode out.2) = next_ref (vscode w)
   ∧ terminalIdCounter (stateData out.2) = terminalIdCounter (stateData w)
   ∧ JsMap.keys (managedTerminals out.2) = JsMap.keys (managedTerminals w))
  ∧ (Js.truthy terminalId = false →
     match findMouse (managedTerminals w) with
     | Some id =>
         id ≠ EmptyString →
         ∃ info r, JsMap.get id (managedTerminals w) = Some info
           ∧ ti_type info = "mouse"
           ∧ out.1 = Ret r
           ∧ sentText (vscode out.2) =
               (ti_terminal info,
                finalCommand command (redirection redirectOutput (clock w)))
               :: sentText (vscode w)
     | None => out = (Throw mouseNotFound, w)
     end)
  ∧ (Js.truthy terminalId = true →
     JsMap.get (Js.StringOpt terminalId) (managedTerminals w) = None →
     out = (Throw (terminalNotFound (Js.StringOpt terminalId)), w)).
Proof.
  intros Hnd out. subst out. rewrite sendCommandToTerminal_eq.
  split; [|split].
  - destruct (resolveTarget terminalId w) as [id|]; [|done].
    destruct (JsMap.get id (managedTerminals w)) as [info|] eqn:Hinfo; [|done].
    cbn [snd].
    pose proof (dispatched_fields id info command clearAfterExecution redirectOutput w)
      as (Hw & Hn & Hc & Hm & _).
    repeat split; try done.
    rewrite Hm. by eapply JsMap_keys_set.
  - intros Hfalsy. unfold resolveTarget. rewrite Hfalsy.
    destruct (findMouse (managedTerminals w)) as [id|] eqn:Hfind; [|done].
    intros Hne. destruct (findMouse_get _ _ Hnd Hfind) as (info & Hget & Hty).
    assert (Ht : Js.truthy (Some (Js.IdStr id)) = true).
    { cbn. by destruct (String.eqb_spec id EmptyString). }
    rewrite Ht, Hget. cbn [fst snd].
    pose proof (dispatched_fields id info command clearAfterExecution redirectOutput w)
      as (_ & _ & _ & _ & Hs & _).
    exists info. eexists. repeat split; done.
  - intros Htruthy Hnone. unfold resolveTarget. by rewrite Htruthy, Hnone.
Qed.


(** ** Creation and adoption *)

Section Creation.

Ltac split_fields :=
  repeat match goal with
         | |- _ ∧ _ => split
         | |- ∃ _, _ => eexists
         end; reflexivity.

Lemma upsertTerminal_upserted id info w :
  upsertTerminal id info w = (Ret tt, upserted (Js.String id) info w).
Proof. apply upsertTerminal_eq. Qed.

Lemma getNextTerminalId_counted w :
  getNextTerminalId w = (Ret (terminalIdCounter (stateData w)), counted w).
Proof. apply getNextTerminalId_eq. Qed.

Lemma counted_fields w :
  clock (counted w) = clock w ∧ vscode (counted w) = vscode w
  ∧ managedTerminals (counted w) = managedTerminals w
  ∧ globals (counted w) = globals w
  ∧ terminalIdCounter (stateData (counted w))
    = Js.increment (terminalIdCounter (stateData w))
  ∧ terminals (stateData (counted w)) = terminals (stateData w)
  ∧ commandLog (counted w) = commandLog w.
Proof.
  unfold counted, saved. destruct (writable (stateFile _)); cbn; repeat split.
Qed.

Lemma upserted_fields id info w :
  String.eqb id "__proto__" = false →
  let w' := upserted id info w in
  clock w' = clock w ∧ vscode w' = vscode w
  ∧ managedTerminals w' = managedTerminals w
  ∧ globals w' = globals w
  ∧ terminalIdCounter (stateData w') = terminalIdCounter (stateData w)
  ∧ terminals (stateData w') = <[id := stored id (clock w) info]> (terminals (stateData w))
  ∧ commandLog w' = commandLog w.
Proof.
  intros Hid. cbv zeta. rewrite upserted_ordinary by exact Hid.
  unfold saved. destruct (writable (stateFile _)); cbn; repeat split.
Qed.

(** The same for any key: the table gets the descriptor, or, under the
    key [__proto__] it does not have, stays as it is. *)
Lemma upserted_fields_any id info w :
  let w' := upserted id info w in
  clock w' = clock w ∧ vscode w' = vscode w
  ∧ managedTerminals w' = managedTerminals w
  ∧ globals w' = globals w
  ∧ terminalIdCounter (stateData w') = terminalIdCounter (stateData w)
  ∧ (terminals (stateData w') = <[id := stored id (clock w) info]> (terminals (stateData w))
     ∨ (id = "__proto__" ∧ terminals (stateData w) !! id = None
        ∧ terminals (stateData w') = terminals (stateData w)))
  ∧ commandLog w' = commandLog w.
Proof.
  cbv zeta. unfold upserted.
  set (d := stored id (clock w) info).
  destruct (saved_frame (terminalsSet id d w)) as (Sc & Sl & _ & Sv & Sm & _ & Sg).
  destruct (terminalsSet_frame id d w) as (Tc & _ & Tl & _ & Tv & Tm & _ & Tg & Tn & _).
  rewrite Sc, Sl, Sv, Sm, Sg, Tc, Tl, Tv, Tm, Tg, saved_stateData. cbn.
  rewrite Tn. repeat split. apply terminalsSet_terminals.
Qed.

Lemma createRemoteTerminal_eq type sendWelcome w :
  createRemoteTerminal type sendWelcome w =
  if host_ok (vscode w)
  then (Ret (terminalIdCounter (stateData w)), createdRemote type sendWelcome w)
  else (Throw hostFailure, counted w).
Proof.
  unfold createRemoteTerminal, requestRemoteTerminal, registerRemoteTerminal.
  unfold bind at 1. unfold bind at 1. rewrite getNextTerminalId_counted.
  destruct (counted_fields w) as (Hclock & Hvs & _).
  unfold bind at 1, hostNewTerminal at 1. rewrite Hvs.
  destruct (host_ok (vscode w)) eqn:Hok; [|reflexivity].
  unfold ret at 1.
  unfold bind at 1. unfold bind at 1, gets at 1.
  unfold createdRemote.
  replace (set_vscode _ (counted w)) with (set_vscode withNewTerminal (counted w))
    by (unfold set_vscode, withNewTerminal; rewrite Hvs; reflexivity).
  set (w1 := (sleep 1000 (set_vscode withNewTerminal (counted w))).2).
  change (sleep 1000 (set_vscode withNewTerminal (counted w))) with (Ret tt, w1).
  cbv beta iota.
  assert (Hl : last (window_terminals (vscode w1))
               = Some (mkVSTerminal (next_ref (vscode w)) (shell_name (vscode w)) true)).
  { subst w1. cbn. rewrite Hvs. apply last_snoc. }
  rewrite Hl. cbn [t_ref].
  destruct (String.eqb type "mouse"), sendWelcome;
    unfold bind, ret, show, sendSequence, modify, gets; cbn -[upsertTerminal upserted];
    rewrite upsertTerminal_upserted; reflexivity.
Qed.

Lemma createLocalTerminal_eq type sendWelcome w :
  createLocalTerminal type sendWelcome w =
  if host_ok (vscode w)
  then (Ret (terminalIdCounter (stateData w)), createdLocal type sendWelcome w)
  else (Throw hostFailure, counted w).
Proof.
  unfold createLocalTerminal. unfold bind at 1. rewrite getNextTerminalId_counted.
  destruct (counted_fields w) as (Hclock & Hvs & _).
  unfold bind at 1, hostNewTerminal at 1. rewrite Hvs.
  destruct (host_ok (vscode w)) eqn:Hok; [|reflexivity].
  unfold createdLocal.
  replace (set_vscode _ (counted w)) with (set_vscode withNewTerminal (counted w))
    by (unfold set_vscode, withNewTerminal; rewrite Hvs; reflexivity).
  destruct sendWelcome;
    unfold bind, ret, show, sendText, sleep, modify, gets; cbn -[upsertTerminal upserted];
    rewrite upsertTerminal_upserted; reflexivity.
Qed.

Lemma tryRecoverExistingTerminal_eq terminalType terminalId w :
  tryRecoverExistingTerminal terminalType terminalId w =
  match findExistingTerminalInVSCode terminalType w with
  | Some t => (Ret true, recovered terminalType terminalId t w)
  | None => (Ret false, w)
  end.
Proof.
  unfold tryRecoverExistingTerminal, try_catch. unfold bind at 1, gets at 1.
  destruct (findExistingTerminalInVSCode terminalType w) as [t|]; [|reflexivity].
  unfold bind, ret, modify, gets; cbn -[upsertTerminal upserted].
  rewrite upsertTerminal_upserted. reflexivity.
Qed.

Lemma createdRemote_fields type sendWelcome w :
  let w' := createdRemote type sendWelcome w in
  let c := terminalIdCounter (stateData w) in
  globals w' = globals w
  ∧ terminalIdCounter (stateData w') = Js.increment c
  ∧ (∃ now name,
       managedTerminals w' =
       JsMap.set (pretty c) (registryInfo (next_ref (vscode w)) type now name)
                 (managedTerminals w)
       ∧ terminals (stateData w') =
         <[pretty c := mkDescriptor (pretty c) type now now now name]>
           (terminals (stateData w)))
  ∧ window_terminals (vscode w') =
      window_terminals (vscode w)
      ++ [mkVSTerminal (next_ref (vscode w)) (shell_name (vscode w)) true]
  ∧ next_ref (vscode w') = S (next_ref (vscode w))
  ∧ shell_name (vscode w') = shell_name (vscode w)
  ∧ host_ok (vscode w') = host_ok (vscode w)
  ∧ shown (vscode w') =
      (if String.eqb type "mouse" then shown (vscode w)
       else next_ref (vscode w) :: shown (vscode w))
  ∧ commandLog w' = commandLog w.
Proof.
  cbv zeta. unfold createdRemote.
  match goal with
  | |- context [upserted ?i ?d ?v] =>
      destruct (upserted_fields i d v (pretty_not_proto _))
        as (_ & Hv & Hm & Hg & Hc & Ht & Hl)
  end.
  rewrite Hv, Hm, Hg, Hc, Ht, Hl. clear Hv Hm Hg Hc Ht Hl.
  destruct (counted_fields w) as (Hk & Hv & Hm & Hg & Hc & Ht & Hl).
  destruct (String.eqb type "mouse"), sendWelcome;
    cbn -[counted pretty Js.toUpperCase String.append];
    rewrite ?Hk, ?Hv, ?Hm, ?Hg, ?Hc, ?Ht, ?Hl; split_fields.
Qed.

Lemma createdLocal_fields type sendWelcome w :
  let w' := createdLocal type sendWelcome w in
  let c := terminalIdCounter (stateData w) in
  globals w' = globals w
  ∧ terminalIdCounter (stateData w') = Js.increment c
  ∧ (∃ now name,
       managedTerminals w' =
       JsMap.set (pretty c) (registryInfo (next_ref (vscode w)) type now name)
                 (managedTerminals w)
       ∧ terminals (stateData w') =
         <[pretty c := mkDescriptor (pretty c) type now now now name]>
           (terminals (stateData w)))
  ∧ window_terminals (vscode w') =
      window_terminals (vscode w)
      ++ [mkVSTerminal (next_ref (vscode w)) (shell_name (vscode w)) true]
  ∧ next_ref (vscode w') = S (next_ref (vscode w))
  ∧ shell_name (vscode w') = shell_name (vscode w)
  ∧ host_ok (vscode w') = host_ok (vscode w)
  ∧ shown (vscode w') = next_ref (vscode w) :: shown (vscode w)
  ∧ commandLog w' = commandLog w.
Proof.
  cbv zeta. unfold createdLocal.
  match goal with
  | |- context [upserted ?i ?d ?v] =>
      destruct (upserted_fields i d v (pretty_not_proto _))
        as (_ & Hv & Hm & Hg & Hc & Ht & Hl)
  end.
  rewrite Hv, Hm, Hg, Hc, Ht, Hl. clear Hv Hm Hg Hc Ht Hl.
  destruct (counted_fields w) as (Hk & Hv & Hm & Hg & Hc & Ht & Hl).
  destruct sendWelcome;
    cbn -[counted pretty Js.toUpperCase String.append];
    rewrite ?Hk, ?Hv, ?Hm, ?Hg, ?Hc, ?Ht, ?Hl; split_fields.
Qed.

Lemma recovered_fields terminalType terminalId t w :
  let w' := recovered terminalType terminalId t w in
  globals w' = globals w
  ∧ terminalIdCounter (stateData w') = terminalIdCounter (stateData w)
  ∧ (∃ name,
       managedTerminals w' =
       JsMap.set (Js.String terminalId) (registryInfo (t_ref t) terminalType (clock w) name)
                 (managedTerminals w)
       ∧ (terminals (stateData w') =
          <[Js.String terminalId :=
              mkDescriptor (Js.String terminalId) terminalType (clock w) (clock w) (clock w) name]>
            (terminals (stateData w))
          ∨ (Js.String terminalId = "__proto__"
             ∧ terminals (stateData w) !! Js.String terminalId = None
             ∧ terminals (stateData w') = terminals (stateData w))))
  ∧ vscode w' = vscode w
  ∧ commandLog w' = commandLog w.
Proof.
  cbv zeta. unfold recovered.
  match goal with
  | |- context [upserted ?i ?d ?v] =>
      destruct (upserted_fields_any i d v) as (_ & Hv & Hm & Hg & Hc & Ht & Hl)
  end.
  rewrite Hv, Hm, Hg, Hc, Hl.
  cbn -[pretty Js.toUpperCase String.append] in *.
  repeat split. eexists. split; [reflexivity|]. exact Ht.
Qed.

Lemma set_globals_fields f w :
  globals (set_globals f w) = f (globals w)
  ∧ stateData (set_globals f w) = stateData w
  ∧ managedTerminals (set_globals f w) = managedTerminals w
  ∧ vscode (set_globals f w) = vscode w
  ∧ clock (set_globals f w) = clock w
  ∧ commandLog (set_globals f w) = commandLog w.
Proof. repeat split. Qed.

Lemma counted_after_failure w :
  globals (counted w) = globals w
  ∧ managedTerminals (counted w) = managedTerminals w
  ∧ vscode (counted w) = vscode w
  ∧ terminals (stateData (counted w)) = terminals (stateData w).
Proof. destruct (counted_fields w) as (_ & ? & ? & ? & _ & ? & _). done. Qed.

End Creation.

(** ** Reconciliation *)

Section Reconciliation.


Lemma JsMap_set_has {V} k (v : V) m : JsMap.get k (JsMap.set k v m) = Some v.
Proof. by rewrite JsMap_get_set, String.eqb_refl. Qed.






Lemma deepCheck_true w :
  deepCheck w = true →
  terminalsInitialized (globals w) = true
  ∧ Js.truthy (mouseTerminalId (globals w)) = true
  ∧ Js.truthy (catTerminalId (globals w)) = true
  ∧ is_Some (JsMap.get (Js.StringOpt (mouseTerminalId (globals w))) (managedTerminals w))
  ∧ is_Some (JsMap.get (Js.StringOpt (catTerminalId (globals w))) (managedTerminals w)).
Proof.
  unfold deepCheck.
  destruct (terminalsInitialized (globals w)); [|discriminate].
  destruct (Js.truthy (mouseTerminalId (globals w))); [|discriminate].
  destruct (Js.truthy (catTerminalId (globals w))); [|discriminate].
  cbn [andb].
  destruct (JsMap.get (Js.StringOpt (mouseTerminalId (globals w))) (managedTerminals w));
    [|discriminate].
  destruct (JsMap.get (Js.StringOpt (catTerminalId (globals w))) (managedTerminals w));
    [|discriminate].
  intros _. repeat split; by eexists.
Qed.



End Reconciliation.

(** ** The probe *)

Section Probe.

Lemma readNames_eq allTerminals w :
  readNames allTerminals w =
  if forallb t_readable allTerminals then (Ret tt, w) else (Throw notReadable, w).
Proof.
  induction allTerminals as [|t ts IH]; [reflexivity|].
  cbn [readNames forallb]. unfold bind, readProperties.
  destruct (t_readable t); [exact IH | reflexivity].
Qed.

Lemma readTerminal_eq terminal w :
  readTerminal terminal w =
  match List.find (fun t => Nat.eqb (t_ref t) terminal) (window_terminals (vscode w)) with
  | Some t => if t_readable t then (Ret tt, w) else (Throw notReadable, w)
  | None => (Ret tt, w)
  end.
Proof.
  unfold readTerminal, bind, gets, readProperties.
  destruct (List.find _ _) as [t|]; [|reflexivity].
  by destruct (t_readable t).
Qed.

Lemma existsb_find {A} (f : A → bool) l :
  existsb f l = match List.find f l with Some _ => true | None => false end.
Proof.
  induction l as [|a l IH]; [reflexivity|].
  cbn. by destruct (f a).
Qed.

Lemma find_unreadable (f : VSTerminal → bool) l t :
  List.find f l = Some t → t_readable t = false → forallb t_readable l = false.
Proof.
  intros Hf Hr. apply find_some in Hf as [Hin _].
  apply not_true_is_false. intros Hall.
  rewrite forallb_forall in Hall. specialize (Hall t Hin). congruence.
Qed.

Lemma readThen {A} (a : A) terminal w :
  bind (readTerminal terminal) (fun _ => ret a) w =
  match List.find (fun t => Nat.eqb (t_ref t) terminal) (window_terminals (vscode w)) with
  | Some t => if t_readable t then (Ret a, w) else (Throw notReadable, w)
  | None => (Ret a, w)
  end.
Proof.
  unfold bind. rewrite readTerminal_eq.
  destruct (List.find _ _) as [t|]; [|reflexivity].
  by destruct (t_readable t).
Qed.

(** [isTerminalAliveInVSCode] changes nothing and answers [probe]. *)
Lemma isTerminalAliveInVSCode_eq terminal w :
  isTerminalAliveInVSCode terminal w = (probe terminal w, w).
Proof.
  unfold isTerminalAliveInVSCode, probe, try_catch.
  unfold bind at 1, gets at 1. unfold bind at 1.
  rewrite readNames_eq, existsb_find.
  destruct (forallb t_readable _) eqn:Ea;
    destruct (List.find _ _) as [t|] eqn:Ef;
    cbv beta iota; rewrite ?readThen, ?Ef; try reflexivity.
  - destruct (t_readable t) eqn:Er; [reflexivity|].
    rewrite (find_unreadable _ _ _ Ef Er) in Ea. discriminate.
  - destruct (t_readable t) eqn:Er; reflexivity.
Qed.

(** The probe is never left waiting. *)
Lemma probe_returns terminal w : probe terminal w ≠ Blocked.
Proof.
  unfold probe. destruct (List.find _ _) as [t|]; [|discriminate].
  destruct (t_readable t); discriminate.
Qed.

(** A terminal that is not in the window is answered with [false]. *)
Lemma probe_closed terminal w :
  enumerated terminal w = false → probe terminal w = Ret false.
Proof.
  unfold enumerated, probe. rewrite existsb_find.
  by destruct (List.find _ _).
Qed.

(** The probe answers [true] only for a terminal of the window, and only
    when every terminal of the window can be read. *)
Lemma probe_true terminal w :
  probe terminal w = Ret true →
  enumerated terminal w = true
  ∧ forallb t_readable (window_terminals (vscode w)) = true.
Proof.
  unfold enumerated, probe. rewrite existsb_find.
  destruct (List.find _ _) as [t|]; [|discriminate].
  destruct (t_readable t); [|discriminate]. by intros [= ->].
Qed.

End Probe.

(** ** The health check *)

Section HealthCheck.

Lemma JsMap_get_set_ne {V} k k' (v : V) m :
  k' ≠ k → JsMap.get k' (JsMap.set k v m) = JsMap.get k' m.
Proof.
  intros Hne. rewrite JsMap_get_set.
  by destruct (String.eqb_spec k' k).
Qed.



(** The fields of a world after the mouse terminal has been replaced. *)
Lemma replaced_mouse_fields w :
  ∃ wA,
    wA = (setTerminalReferences
            (set_globals
               (with_mouseTerminalId (Some (Js.IdNum (terminalIdCounter (stateData w)))))
               (createdRemote "mouse" true w))).2
    ∧ mouseTerminalId (globals wA) = Some (Js.IdNum (terminalIdCounter (stateData w)))
    ∧ terminalIdCounter (stateData wA) = Js.increment (terminalIdCounter (stateData w))
    ∧ (∃ now name,
         managedTerminals wA =
         JsMap.set (pretty (terminalIdCounter (stateData w)))
                   (registryInfo (next_ref (vscode w)) "mouse" now name)
                   (managedTerminals w)
         ∧ terminals (stateData wA) =
           <[pretty (terminalIdCounter (stateData w)) :=
               mkDescriptor (pretty (terminalIdCounter (stateData w))) "mouse" now now now name]>
             (terminals (stateData w)))
    ∧ window_terminals (vscode wA) =
        window_terminals (vscode w)
        ++ [mkVSTerminal (next_ref (vscode w)) (shell_name (vscode w)) true]
    ∧ host_ok (vscode wA) = host_ok (vscode w)
    ∧ shown (vscode wA) = shown (vscode w).
Proof.
  eexists. split; [reflexivity|].
  destruct (createdRemote_fields "mouse" true w)
    as (Hg & Hc & Hm & Hw & _ & _ & Hh & Hs & _).
  unfold setTerminalReferences, modify. cbn [snd].
  destruct (set_globals_fields
              (fun g => with_mouseTerminalIdRef (mouseTerminalId g) g)
              (set_globals
                 (with_mouseTerminalId (Some (Js.IdNum (terminalIdCounter (stateData w)))))
                 (createdRemote "mouse" true w))) as (-> & -> & -> & -> & _).
  destruct (set_globals_fields
              (with_mouseTerminalId (Some (Js.IdNum (terminalIdCounter (stateData w)))))
              (createdRemote "mouse" true w)) as (-> & -> & -> & -> & _).
  rewrite Hc, Hw, Hs, Hh. repeat split; try reflexivity. exact Hm.
Qed.


End HealthCheck.



(** ** The mouse terminal stays hidden while no terminal is adopted *)

Section Hidden.

Lemma Settled_blank : Settled blankWorld.
Proof.
  split.
  - intros id info H. discriminate H.
  - split; [|split; reflexivity]. intros t Ht. by apply elem_of_nil in Ht.
  - intros id info H. discriminate H.
  - intros h Hh. by apply elem_of_nil in Hh.
  - intros id1 info1 id2 info2 H. discriminate H.
  - intros id info H. discriminate H.
  - intros id n H. discriminate H.
  - reflexivity.
  - intros id info H. discriminate H.
Qed.

Lemma refines_refl m : refines m m.
Proof. intros id info H. by exists info. Qed.

Lemma refines_touch id info info' m :
  JsMap.get id m = Some info →
  ti_terminal info = ti_terminal info' → ti_type info = ti_type info' →
  refines (JsMap.set id info' m) m.
Proof.
  intros Hget Ht Hty id1 i1. rewrite JsMap_get_set.
  destruct (String.eqb_spec id1 id) as [->|Hne].
  - intros [= <-]. by exists info.
  - intros H. by exists i1.
Qed.

(** The invariant survives a step that refines the registry, takes
    terminals away from the window at most, and moves the counter up at
    most. *)
Lemma Settled_refine w w' :
  refines (managedTerminals w') (managedTerminals w) →
  (∀ t, t ∈ window_terminals (vscode w') → t ∈ window_terminals (vscode w)) →
  next_ref (vscode w') = next_ref (vscode w) →
  shell_name (vscode w') = shell_name (vscode w) →
  shown (vscode w') = shown (vscode w) →
  (terminalIdCounter (stateData w) ≤ terminalIdCounter (stateData w'))%nat →
  catTerminalId (globals w') = catTerminalId (globals w) →
  Settled w → Settled w'.
Proof.
  intros Hm Hwin Hn Hsh Hs Hc Hg [H1 [H2 [H2a H2b]] H3 H4 H5 H6 H7 H8 H9].
  split.
  - intros id info' Hget Hty. rewrite Hs.
    destruct (Hm id info' Hget) as (info & Hget0 & <- & Hty0).
    apply (H1 id info Hget0). congruence.
  - split; [|rewrite Hsh; by split]. intros t Ht. apply H2, Hwin, Ht.
  - intros id info' Hget. rewrite Hn.
    destruct (Hm id info' Hget) as (info & Hget0 & <- & _). by apply (H3 id).
  - intros h. rewrite Hs, Hn. apply H4.
  - intros id1 i1 id2 i2 Hg1 Hg2 Ht1 Ht2.
    destruct (Hm id1 i1 Hg1) as (j1 & Hj1 & <- & Hty1).
    destruct (Hm id2 i2 Hg2) as (j2 & Hj2 & <- & Hty2).
    apply (H5 id1 j1 id2 j2); congruence.
  - intros id info' Hcat Hget. rewrite Hg in Hcat.
    destruct (Hm _ info' Hget) as (info & Hget0 & _ & Hty0).
    rewrite <- Hty0. by apply (H6 id).
  - intros id n Hcat Hle. rewrite Hg in Hcat. apply (H7 id n Hcat). lia.
  - intros n Hle.
    destruct (JsMap.get (pretty n) (managedTerminals w')) as [info'|] eqn:Hget; [|done].
    destruct (Hm _ info' Hget) as (info & Hget0 & _).
    rewrite H8 in Hget0; [done | lia].
  - intros id info' Hcat Hget. rewrite Hg in Hcat. rewrite Hs.
    destruct (Hm _ info' Hget) as (info & Hget0 & <- & _). by apply (H9 id).
Qed.

(** A new terminal of the window registered under the next id. *)
Lemma Settled_created w w' type now name :
  Settled w →
  managedTerminals w' =
    JsMap.set (pretty (terminalIdCounter (stateData w)))
              (registryInfo (next_ref (vscode w)) type now name) (managedTerminals w) →
  window_terminals (vscode w') =
    window_terminals (vscode w)
    ++ [mkVSTerminal (next_ref (vscode w)) (shell_name (vscode w)) true] →
  next_ref (vscode w') = S (next_ref (vscode w)) →
  shell_name (vscode w') = shell_name (vscode w) →
  (shown (vscode w') = shown (vscode w)
   ∨ type ≠ "mouse" ∧ shown (vscode w') = next_ref (vscode w) :: shown (vscode w)) →
  terminalIdCounter (stateData w') = S (terminalIdCounter (stateData w)) →
  catTerminalId (globals w') = catTerminalId (globals w) →
  Settled w'.
Proof.
  intros [H1 [H2 [H2a H2b]] H3 H4 H5 H6 H7 H8 H9] Hm Hwin Hn Hsh Hs Hc Hg.
  assert (Hnew : ∀ id info,
    JsMap.get id (managedTerminals w') = Some info →
    (id = pretty (terminalIdCounter (stateData w))
     ∧ ti_terminal info = next_ref (vscode w) ∧ ti_type info = type)
    ∨ (JsMap.get id (managedTerminals w) = Some info)).
  { intros id info. rewrite Hm, JsMap_get_set.
    destruct (String.eqb_spec id (pretty (terminalIdCounter (stateData w)))) as [->|Hne].
    - intros [= <-]. by left.
    - intros H. by right. }
  assert (Hshown : ∀ h, h ∈ shown (vscode w') →
                        h = next_ref (vscode w) ∧ type ≠ "mouse" ∨ h ∈ shown (vscode w)).
  { intros h. destruct Hs as [-> | [Hty ->]]; [by right|].
    intros [->|Hin]%elem_of_cons; [by left | by right]. }
  split.
  - intros id info Hget Hty Hin.
    destruct (Hnew id info Hget) as [(-> & Hterm & Htype) | Hold].
    + destruct (Hshown _ Hin) as [[_ Hne] | Hin0]; [congruence|].
      apply H4 in Hin0. lia.
    + destruct (Hshown _ Hin) as [[Heq _] | Hin0].
      * apply H3 in Hold. lia.
      * by apply (H1 id info).
  - split; [|rewrite Hsh; by split]. intros t. rewrite Hwin.
    intros [Hin | ->%list_elem_of_singleton]%elem_of_app; [by apply H2 | by split].
  - intros id info Hget. rewrite Hn.
    destruct (Hnew id info Hget) as [(_ & -> & _) | Hold]; [lia|].
    apply H3 in Hold. lia.
  - intros h Hin. rewrite Hn.
    destruct (Hshown _ Hin) as [[-> _] | Hin0]; [lia|].
    apply H4 in Hin0. lia.
  - intros id1 i1 id2 i2 Hg1 Hg2 Ht1 Ht2.
    destruct (Hnew id1 i1 Hg1) as [(_ & Hterm1 & Htype1) | Hold1],
             (Hnew id2 i2 Hg2) as [(_ & Hterm2 & Htype2) | Hold2].
    + congruence.
    + apply H3 in Hold2. lia.
    + apply H3 in Hold1. lia.
    + by apply (H5 id1 i1 id2 i2).
  - intros id info Hcat Hget. rewrite Hg in Hcat.
    destruct (Hnew _ info Hget) as [(Heq & _) | Hold].
    + exfalso. by apply (H7 id (terminalIdCounter (stateData w)) Hcat).
    + by apply (H6 id).
  - intros id n Hcat Hle. rewrite Hg in Hcat. apply (H7 id n Hcat). lia.
  - intros n Hle. rewrite Hm, JsMap_get_set_ne.
    + apply H8. lia.
    + intros Heq. apply (inj pretty) in Heq. lia.
  - intros id info Hcat Hget. rewrite Hg in Hcat.
    destruct (Hnew _ info Hget) as [(Heq & _) | Hold].
    + exfalso. by apply (H7 id (terminalIdCounter (stateData w)) Hcat).
    + pose proof (H9 id info Hcat Hold) as Hin.
      destruct Hs as [-> | [_ ->]]; [exact Hin | by apply list_elem_of_further].
Qed.

(** The id of a registered terminal that is not a mouse terminal becomes
    the id of the cat terminal. *)
Lemma Settled_cat_stored w w' k info :
  Settled w →
  JsMap.get (pretty k) (managedTerminals w) = Some info →
  ti_type info ≠ "mouse" →
  ti_terminal info ∈ shown (vscode w) →
  (k < terminalIdCounter (stateData w))%nat →
  managedTerminals w' = managedTerminals w →
  vscode w' = vscode w →
  terminalIdCounter (stateData w') = terminalIdCounter (stateData w) →
  catTerminalId (globals w') = Some (Js.IdNum k) →
  Settled w'.
Proof.
  intros [H1 H2 H3 H4 H5 H6 H7 H8 H9] Hget Hty Hin Hk Hm Hv Hc Hg.
  split; unfold mouseHidden, noneAdoptable in *; rewrite ?Hm, ?Hv, ?Hc, ?Hg; try assumption.
  - intros id info' [= <-]. cbn [Js.String]. rewrite Hget. by intros [= <-].
  - intros id n [= <-] Hle. cbn [Js.String]. intros Heq. apply (inj pretty) in Heq. lia.
  - intros id info' [= <-]. cbn [Js.String]. rewrite Hget. by intros [= <-].
Qed.

(** [show()] on the terminal of an entry that is not a mouse terminal. *)
Lemma Settled_show w w' id info :
  Settled w →
  JsMap.get id (managedTerminals w) = Some info →
  ti_type info ≠ "mouse" →
  managedTerminals w' = managedTerminals w →
  window_terminals (vscode w') = window_terminals (vscode w) →
  next_ref (vscode w') = next_ref (vscode w) →
  shell_name (vscode w') = shell_name (vscode w) →
  shown (vscode w') = ti_terminal info :: shown (vscode w) →
  terminalIdCounter (stateData w') = terminalIdCounter (stateData w) →
  catTerminalId (globals w') = catTerminalId (globals w) →
  Settled w'.
Proof.
  intros [H1 H2 H3 H4 H5 H6 H7 H8 H9] Hget Hty Hm Hwin Hn Hsh Hs Hc Hg.
  split; unfold mouseHidden, noneAdoptable in *;
    rewrite ?Hm, ?Hwin, ?Hn, ?Hsh, ?Hs, ?Hc, ?Hg; try assumption.
  - intros id1 i1 Hg1 Ht1 [Heq | Hin]%elem_of_cons.
    + by apply (H5 id1 i1 id info).
    + by apply (H1 id1 i1).
  - intros h [-> | Hin]%elem_of_cons; [by apply (H3 id) | by apply H4].
  - intros id1 i1 Hcat Hg1. apply list_elem_of_further. by apply (H9 id1).
Qed.


Lemma Settled_globals f w :
  (∀ g, catTerminalId (f g) = catTerminalId g) →
  Settled w → Settled (set_globals f w).
Proof.
  intros Hf. destruct (set_globals_fields f w) as (Hg & Hs & Hm & Hv & _).
  apply Settled_refine; rewrite ?Hm, ?Hv, ?Hs, ?Hg; try done. apply refines_refl.
Qed.

Lemma Settled_counted w : Settled w → Settled (counted w).
Proof.
  destruct (counted_fields w) as (_ & Hv & Hm & Hg & Hc & _).
  apply Settled_refine; rewrite ?Hm, ?Hv, ?Hc, ?Hg; try done;
    [apply refines_refl | apply increment_le].
Qed.

(** The ids that are left below 2^53. *)
Lemma idsLeft_le n m w : (m ≤ n)%nat → idsLeft n w → idsLeft m w.
Proof. unfold idsLeft. lia. Qed.

Lemma idsLeft_same n w w' :
  terminalIdCounter (stateData w') = terminalIdCounter (stateData w) →
  idsLeft n w → idsLeft n w'.
Proof. unfold idsLeft. by intros ->. Qed.

Lemma idsLeft_exact n w :
  idsLeft (S n) w →
  Js.increment (terminalIdCounter (stateData w)) = S (terminalIdCounter (stateData w)).
Proof. intros H. apply increment_exact. by apply exact_below in H as [H _]. Qed.

Lemma idsLeft_taken n w w' :
  terminalIdCounter (stateData w') = Js.increment (terminalIdCounter (stateData w)) →
  idsLeft (S n) w → idsLeft n w'.
Proof.
  intros Hc H. unfold idsLeft. rewrite Hc, (idsLeft_exact n w H).
  by apply exact_below in H as [_ H].
Qed.

Lemma Kept_le n m w : (m ≤ n)%nat → Kept n w → Kept m w.
Proof. intros Hmn [H Hb]. split; [exact H | by apply (idsLeft_le n)]. Qed.

Lemma Kept_globals f w n :
  (∀ g, catTerminalId (f g) = catTerminalId g) →
  Kept n w → Kept n (set_globals f w).
Proof. intros Hf [H Hb]. split; [by apply Settled_globals | exact Hb]. Qed.

Lemma Kept_counted n w : Kept (S n) w → Kept n (counted w).
Proof.
  intros [H Hb]. split; [by apply Settled_counted|].
  apply (idsLeft_taken n w); [apply counted_counter | exact Hb].
Qed.

Lemma Kept_createRemoteTerminal type sendWelcome w n :
  Kept (S n) w → Kept n (createRemoteTerminal type sendWelcome w).2.
Proof.
  intros [H Hb]. rewrite createRemoteTerminal_eq.
  destruct (host_ok (vscode w)); cbn [snd]; [|by apply Kept_counted].
  destruct (createdRemote_fields type sendWelcome w)
    as (Hg & Hc & (now & name & Hm & _) & Hw & Hn & Hsh & _ & Hs & _).
  split; [|by apply (idsLeft_taken n w)].
  apply (Settled_created w _ type now name H Hm Hw Hn Hsh);
    [|rewrite Hc; by apply (idsLeft_exact n)|by rewrite Hg].
  rewrite Hs. destruct (String.eqb_spec type "mouse"); [by left | by right].
Qed.

Lemma Kept_createLocalTerminal sendWelcome w n :
  Kept (S n) w → Kept n (createLocalTerminal "cat" sendWelcome w).2.
Proof.
  intros [H Hb]. rewrite createLocalTerminal_eq.
  destruct (host_ok (vscode w)); cbn [snd]; [|by apply Kept_counted].
  destruct (createdLocal_fields "cat" sendWelcome w)
    as (Hg & Hc & (now & name & Hm & _) & Hw & Hn & Hsh & _ & Hs & _).
  split; [|by apply (idsLeft_taken n w)].
  apply (Settled_created w _ "cat" now name H Hm Hw Hn Hsh);
    [|rewrite Hc; by apply (idsLeft_exact n)|by rewrite Hg].
  right. split; [discriminate | exact Hs].
Qed.

(** The block that creates the mouse terminal and stores its id. *)
Lemma Kept_create_mouse {A} (rest : M A) w n m :
  (∀ v, Kept n v → Kept m (rest v).2) → (m ≤ n)%nat →
  Kept (S n) w →
  Kept m ((do created <~ createRemoteTerminal "mouse" true;
           run modify (set_globals (with_mouseTerminalId (Some (Js.IdNum created))));
           rest) w).2.
Proof.
  intros Hrest Hmn H. pose proof (Kept_createRemoteTerminal "mouse" true w n H) as H1.
  unfold bind at 1.
  destruct (createRemoteTerminal "mouse" true w) as [[c| |] w1];
    [|by apply (Kept_le n)..].
  unfold bind, modify. apply Hrest. by apply Kept_globals.
Qed.

(** The block that creates the cat terminal and stores its id. *)
Lemma Kept_create_cat {A} (rest : M A) w n m :
  (∀ v, Kept n v → Kept m (rest v).2) → (m ≤ n)%nat →
  Kept (S n) w →
  Kept m ((do created <~ createLocalTerminal "cat" true;
           run modify (set_globals (with_catTerminalId (Some (Js.IdNum created))));
           rest) w).2.
Proof.
  intros Hrest Hmn H. pose proof (Kept_createLocalTerminal true w n H) as H1.
  destruct H as [H Hb].
  unfold bind at 1. revert H1. rewrite createLocalTerminal_eq.
  destruct (host_ok (vscode w)); cbn [snd]; [|by apply (Kept_le n)].
  intros [H1 Hb1]. unfold bind, modify. apply Hrest.
  destruct (createdLocal_fields "cat" true w)
    as (Hg & Hc & (now & name & Hm & _) & _ & _ & _ & _ & Hs & _).
  destruct (set_globals_fields
              (with_catTerminalId (Some (Js.IdNum (terminalIdCounter (stateData w)))))
              (createdLocal "cat" true w)) as (Sg & Ss & Sm & Sv & _).
  split; [|apply (idsLeft_same n (createdLocal "cat" true w)); [by rewrite Ss | exact Hb1]].
  apply (Settled_cat_stored (createdLocal "cat" true w) _
           (terminalIdCounter (stateData w))
           (registryInfo (next_ref (vscode w)) "cat" now name) H1).
  - rewrite Hm. apply JsMap_set_has.
  - discriminate.
  - rewrite Hs. apply list_elem_of_here.
  - rewrite Hc, (idsLeft_exact n w Hb). lia.
  - exact Sm.
  - exact Sv.
  - by rewrite Ss.
  - rewrite Sg. reflexivity.
Qed.

Lemma find_all_false {A} (f : A → bool) l :
  (∀ x, x ∈ l → f x = false) → List.find f l = None.
Proof.
  induction l as [|x l IH]; [done|]. intros H. cbn.
  rewrite (H x) by apply list_elem_of_here.
  apply IH. intros y Hy. apply H. by apply list_elem_of_further.
Qed.

Lemma findExistingTerminalInVSCode_none terminalType w :
  Settled w → findExistingTerminalInVSCode terminalType w = None.
Proof.
  intros [_ [Hnames _] _ _ _ _ _ _ _]. apply find_all_false.
  intros t Ht. destruct (Hnames t Ht) as [Hm Hc]. unfold matchesType.
  rewrite Hm, Hc, !andb_false_r. by destruct (t_readable t).
Qed.

Lemma try_catch_rethrow_world {A} (m : M A) (f : string → string) w :
  (try_catch m (fun error => throw (f error)) w).2 = (m w).2.
Proof. unfold try_catch, throw. by destruct (m w) as [[a|e|] w1]. Qed.

Lemma Kept_ensureMouse failed failedAgain w n :
  Kept (S n) w →
  Kept n (ensureOne "mouse" mouseTerminalId with_mouseTerminalId createRemoteTerminal
                    failed failedAgain w).2.
Proof.
  intros H. pose proof (Kept_le (S n) n w (Nat.le_succ_diag_r n) H) as H'.
  assert (Hcreate : ∀ msg,
    Kept n (try_catch
              (do created <~ createRemoteTerminal "mouse" true;
               modify (set_globals (with_mouseTerminalId (Some (Js.IdNum created)))))
              (fun error => throw (msg +:+ error)) w).2).
  { intros msg. rewrite (try_catch_rethrow_world _ (String.append msg)).
    pose proof (Kept_createRemoteTerminal "mouse" true w n H) as H1.
    unfold bind.
    destruct (createRemoteTerminal "mouse" true w) as [[c| |] w1]; try exact H1.
    unfold modify. by apply Kept_globals. }
  destruct H as [H Hb].
  unfold ensureOne, bind, gets.
  destruct (negb (Js.truthy (mouseTerminalId (globals w)))); [apply Hcreate|].
  destruct (JsMap.get _ (managedTerminals w)); [exact H'|].
  destruct (mouseTerminalId (globals w)) as [id|]; [|exact H'].
  rewrite tryRecoverExistingTerminal_eq, findExistingTerminalInVSCode_none by exact H.
  apply Hcreate.
Qed.

Lemma Kept_ensureCat failed failedAgain w n :
  Kept (S n) w →
  let out := ensureOne "cat" catTerminalId with_catTerminalId createLocalTerminal
                       failed failedAgain w in
  Kept n out.2 ∧ (out.1 = Ret tt → is_Some (catTerminalId (globals out.2))).
Proof.
  intros H. pose proof (Kept_le (S n) n w (Nat.le_succ_diag_r n) H) as H'.
  assert (Hcreate : ∀ msg,
    let out := try_catch
                 (do created <~ createLocalTerminal "cat" true;
                  modify (set_globals (with_catTerminalId (Some (Js.IdNum created)))))
                 (fun error => throw (msg +:+ error)) w in
    Kept n out.2 ∧ (out.1 = Ret tt → is_Some (catTerminalId (globals out.2)))).
  { intros msg out. subst out. split.
    - rewrite (try_catch_rethrow_world _ (String.append msg)).
      pose proof (Kept_create_cat (ret tt) w n n (fun v Hv => Hv) (Nat.le_refl n) H) as H1.
      revert H1. unfold bind.
      destruct (createLocalTerminal "cat" true w) as [[c| |] w1]; done.
    - unfold try_catch, bind.
      destruct (createLocalTerminal "cat" true w) as [[c| |] w1]; try discriminate.
      intros _. by eexists. }
  destruct H as [H Hb].
  unfold ensureOne, bind, gets.
  destruct (Js.truthy (catTerminalId (globals w))) eqn:Ht; cbn [negb]; [|apply Hcreate].
  destruct (catTerminalId (globals w)) as [id|] eqn:Hid; [|discriminate Ht].
  destruct (JsMap.get _ (managedTerminals w)).
  - cbn [fst snd ret]. rewrite Hid. split; [exact H' | by eexists].
  - rewrite tryRecoverExistingTerminal_eq, findExistingTerminalInVSCode_none by exact H.
    apply Hcreate.
Qed.

Lemma Kept_ensureTerminalsExist w n :
  Kept (S (S n)) w → Kept n (ensureTerminalsExist w).2.
Proof.
  intros H.
  assert (Hle : (n ≤ S (S n))%nat) by lia.
  pose proof (Kept_le _ n w Hle H) as H'.
  unfold ensureTerminalsExist. unfold bind at 1, gets at 1.
  destruct (terminalCreationInProgress (globals w)); [exact H'|].
  unfold bind at 1, gets at 1.
  destruct (deepCheck w); [exact H'|].
  unfold bind at 1, modify at 1.
  assert (H0 : Kept (S (S n)) (set_globals (with_terminalCreationInProgress true) w))
    by (by apply Kept_globals).
  revert H0. generalize (set_globals (with_terminalCreationInProgress true) w).
  clear H H'. intros w0 H0.
  unfold try_finally, try_catch. unfold bind at 1.
  pose proof (Kept_ensureMouse "Mouse终端创建失败: " "Mouse终端重新创建失败: " w0 (S n) H0)
    as HA.
  destruct (ensureOne "mouse" _ _ _ _ _ w0) as [[[]|e|] wA]; cbn [snd] in HA;
    [|apply Kept_globals; [done|]; apply (Kept_le (S n)); [lia|exact HA]
     |apply (Kept_le (S n)); [lia|exact HA]].
  unfold bind at 1.
  pose proof (Kept_ensureCat "Cat终端创建失败: " "Cat终端重新创建失败: " wA n HA) as [HB Hcat].
  destruct (ensureOne "cat" _ _ _ _ _ wA) as [[[]|e|] wB]; cbn [fst snd] in HB, Hcat;
    [|by apply Kept_globals|exact HB].
  destruct (Hcat eq_refl) as [id Hid].
  unfold bind at 1, gets at 1. rewrite Hid. cbn [Js.StringOpt].
  assert (HC : ∀ wC, Kept n wC →
    Kept n ((do _ <~ setTerminalReferences;
             do _ <~ modify (set_globals (with_terminalsInitialized true));
             gets terminalIds) wC).2).
  { intros wC HC. unfold bind, setTerminalReferences, modify, gets. cbn [snd].
    apply Kept_globals; [done|]. apply Kept_globals; [done|]. exact HC. }
  destruct (JsMap.get (Js.String id) (managedTerminals wB)) as [info|] eqn:Hinfo.
  - unfold bind at 1, show at 1, modify at 1.
    destruct HB as [HB HbB].
    match goal with
    | |- context [set_vscode ?f wB] =>
        assert (HS : Kept n (set_vscode f wB))
          by (split; [apply (Settled_show wB _ (Js.String id) info HB Hinfo);
                      [by apply (st_cat wB HB id) | done..]
                     | exact HbB]);
        revert HS; generalize (set_vscode f wB)
    end.
    intros wS HS. specialize (HC wS HS). revert HC.
    destruct ((do _ <~ setTerminalReferences;
               do _ <~ modify (set_globals (with_terminalsInitialized true));
               gets terminalIds) wS) as [[a|e|] wC]; cbn [snd]; intros HC;
      [by apply Kept_globals | by apply Kept_globals | exact HC].
  - unfold bind at 1, ret at 1.
    specialize (HC wB HB). revert HC.
    destruct ((do _ <~ setTerminalReferences;
               do _ <~ modify (set_globals (with_terminalsInitialized true));
               gets terminalIds) wB) as [[a|e|] wC]; cbn [snd]; intros HC;
      [by apply Kept_globals | by apply Kept_globals | exact HC].
Qed.

Lemma Kept_setTerminalReferences w n :
  Kept n w → Kept n (setTerminalReferences w).2.
Proof. intros H. unfold setTerminalReferences, modify. cbn [snd]. by apply Kept_globals. Qed.

Lemma Kept_healthCheckTick w n :
  Kept (S (S n)) w → Kept n (healthCheckTick w).2.
Proof.
  intros H. unfold healthCheckTick.
  assert (Hle : (n ≤ S (S n))%nat) by lia.
  pose proof (Kept_le _ n w Hle H) as H'.
  assert (Hmouse : ∀ v, Kept (S (S n)) v →
    Kept (S n) (checkOne "mouse" mouseTerminalId with_mouseTerminalId createRemoteTerminal
                         setTerminalReferences v).2).
  { intros v Hv.
    pose proof (Kept_le _ (S n) v (Nat.le_succ_diag_r _) Hv) as Hv'.
    assert (Hnew : Kept (S n)
      ((do created <~ createRemoteTerminal "mouse" true;
        run modify (set_globals (with_mouseTerminalId (Some (Js.IdNum created))));
        setTerminalReferences) v).2).
    { apply (Kept_create_mouse _ v (S n) (S n)); [|lia|exact Hv].
      intros u Hu. by apply Kept_setTerminalReferences. }
    unfold checkOne. unfold bind at 1, gets at 1. unfold bind at 1, gets at 1.
    cbv zeta.
    destruct (Js.truthy (mouseTerminalId (globals v))); [|exact Hnew].
    destruct (JsMap.get _ (managedTerminals v)) as [info|]; [|exact Hnew].
    unfold bind at 1. rewrite isTerminalAliveInVSCode_eq.
    destruct (probe (ti_terminal info) v) as [[|]|e|]; [exact Hv'|exact Hnew|exact Hv'..]. }
  assert (Hcat : ∀ v, Kept (S n) v →
    Kept n (checkOne "cat" catTerminalId with_catTerminalId createLocalTerminal
                     (ret tt) v).2).
  { intros v Hv.
    pose proof (Kept_le _ n v (Nat.le_succ_diag_r _) Hv) as Hv'.
    assert (Hnew : Kept n
      ((do created <~ createLocalTerminal "cat" true;
        run modify (set_globals (with_catTerminalId (Some (Js.IdNum created))));
        ret tt) v).2).
    { apply (Kept_create_cat _ v n n); [|lia|exact Hv]. intros u Hu. exact Hu. }
    unfold checkOne. unfold bind at 1, gets at 1. unfold bind at 1, gets at 1.
    cbv zeta.
    destruct (Js.truthy (catTerminalId (globals v))); [|exact Hnew].
    destruct (JsMap.get _ (managedTerminals v)) as [info|]; [|exact Hnew].
    unfold bind at 1. rewrite isTerminalAliveInVSCode_eq.
    destruct (probe (ti_terminal info) v) as [[|]|e|]; [exact Hv'|exact Hnew|exact Hv'..]. }
  unfold try_catch. unfold bind at 1, gets at 1.
  destruct (negb (shouldMaintainTerminals (globals w))); [exact H'|].
  destruct (negb (terminalsInitialized (globals w))); [exact H'|].
  unfold bind at 1. specialize (Hmouse w H).
  destruct (checkOne "mouse" _ _ _ _ w) as [[[]|e|] wA]; cbn [snd] in Hmouse;
    [|apply (Kept_le (S n)); [lia|exact Hmouse]..].
  specialize (Hcat wA Hmouse).
  destruct (checkOne "cat" _ _ _ _ wA) as [[[]|e|] wB]; exact Hcat.
Qed.

Lemma Kept_sendCommandToTerminal terminalId command clearAfterExecution redirectOutput w n :
  Kept n w →
  Kept n (sendCommandToTerminal terminalId command clearAfterExecution redirectOutput w).2.
Proof.
  intros [H Hb]. rewrite sendCommandToTerminal_eq.
  destruct (resolveTarget terminalId w) as [id|]; [|by split].
  destruct (JsMap.get id (managedTerminals w)) as [info|] eqn:Hinfo; [|by split].
  cbn [snd].
  destruct (dispatched_fields id info command clearAfterExecution redirectOutput w)
    as (Hw & Hn & Hc & Hm & _ & Hs & _ & Hg & Hsh).
  split; [|by apply (idsLeft_same n w)].
  assert (Href : refines (managedTerminals (dispatched id info command clearAfterExecution
                                                       redirectOutput w))
                         (managedTerminals w)).
  { rewrite Hm. by apply (refines_touch id info). }
  destruct (String.eqb_spec (ti_type info) "mouse") as [Hty|Hty]; cbn [negb] in Hs.
  - apply (Settled_refine w); [exact Href | | exact Hn | exact Hsh | exact Hs | | | exact H].
    + intros t. by rewrite Hw.
    + rewrite Hc. lia.
    + by rewrite Hg.
  - pose (wS := (show (ti_terminal info) w).2).
    assert (HS : Settled wS) by (by apply (Settled_show w wS id info)).
    apply (Settled_refine wS); [exact Href | | exact Hn | exact Hsh | exact Hs | | | exact HS].
    + intros t. by rewrite Hw.
    + rewrite Hc. cbn. lia.
    + by rewrite Hg.
Qed.

Lemma Kept_fire t w n : Kept n w → Kept n (fire t w).2.
Proof.
  assert (Hsame : ∀ w w' : World,
    managedTerminals w' = managedTerminals w →
    window_terminals (vscode w') = window_terminals (vscode w) →
    next_ref (vscode w') = next_ref (vscode w) →
    shell_name (vscode w') = shell_name (vscode w) →
    shown (vscode w') = shown (vscode w) →
    stateData w' = stateData w → globals w' = globals w →
    Kept n w → Kept n w').
  { intros v v' Hm Hw Hn Hsh Hs Hd Hg [Hv Hb].
    split; [|apply (idsLeft_same n v); [by rewrite Hd | exact Hb]].
    apply (Settled_refine v); try assumption.
    - rewrite Hm. apply refines_refl.
    - intros x. by rewrite Hw.
    - by rewrite Hd.
    - by rewrite Hg. }
  intros H. destruct t as [terminal terminalId command [f|] | terminalId command f];
    unfold fire.
  - unfold bind, sendText, modify. cbn [snd]. by apply (Hsame w).
  - unfold bind, sendText, modify, ret. cbn [snd]. by apply (Hsame w).
  - unfold try_catch, bind, gets.
    destruct (tmpFiles w !! f) as [output|]; [|exact H].
    rewrite updateCommandResult_eq. cbn [snd]. unfold updated.
    destruct (content (commandLog w)), (writable (commandLog w)); try exact H;
      by apply (Hsame w).
Qed.

Lemma Kept_closeTerminal terminal w n : Kept n w → Kept n (closeTerminal terminal w).
Proof.
  intros [H Hb]. split; [|exact Hb].
  apply (Settled_refine w); try reflexivity; [apply refines_refl | | exact H].
  intros t Ht. cbn in Ht. apply list_elem_of_In in Ht.
  apply filter_In in Ht as [Ht _]. by apply list_elem_of_In.
Qed.

(** An operation takes two ids at most. *)
Lemma Kept_after op w n : Kept (S (S n)) w → Kept n (after op w).
Proof.
  intros H.
  assert (H1 : Kept (S n) w) by (apply (Kept_le (S (S n))); [lia|exact H]).
  assert (H0 : Kept n w) by (apply (Kept_le (S (S n))); [lia|exact H]).
  destruct op; cbn [after].
  - by apply Kept_ensureTerminalsExist.
  - by apply Kept_healthCheckTick.
  - by apply Kept_sendCommandToTerminal.
  - by apply Kept_createRemoteTerminal.
  - by apply Kept_createLocalTerminal.
  - by apply Kept_fire.
  - by apply Kept_closeTerminal.
Qed.

End Hidden.

(** A run keeps the state of the controller while ids are left. *)
Lemma Kept_afterAll ops : ∀ w n,
  Kept (2 * length ops + n) w → Kept n (afterAll ops w).
Proof.
  induction ops as [|op ops IH]; intros w n H; [exact H|].
  cbn [afterAll foldl]. apply IH. apply Kept_after.
  revert H. cbn [length]. replace (2 * S (length ops) + n) with (S (S (2 * length ops + n))) by lia.
  done.
Qed.


Corollary mouse_hidden_from_blank (ops : list Op) :
  idsLeft (2 * length ops) blankWorld →
  mouseHidden (afterAll ops blankWorld) ∧ catRevealed (afterAll ops blankWorld).
Proof.
  intros Hb.
  destruct (Kept_afterAll ops blankWorld 0) as [H _].
  { split; [exact Settled_blank|]. by rewrite Nat.add_0_r. }
  split; [exact (st_hidden _ H)|exact (st_revealed _ H)].
Qed.

(** * The claims at concrete inputs *)

(** C1 at a failing input.  After a reload the ids 1 and 2 are known, the
    registry is empty and the window holds one terminal whose name contains
    both [MOUSE] and [CAT].  [ensureTerminalsExist] adopts that terminal as
    the mouse terminal and as the cat terminal, and then calls [show()] on
    it: the terminal of the mouse entry has been revealed. *)
Theorem ensureTerminalsExist_reveals_adopted_mouse :
  let out := ensureTerminalsExist reloadedWorld in
  out.1 = Ret (Some (Js.IdStr "1"), Some (Js.IdStr "2"))
  ∧ JsMap.get "1" (managedTerminals out.2)
    = Some (mkTerminalInfo 0 "mouse" 5000 5000 "MOUSE TERMINAL (RECOVERED)")
  ∧ shown (vscode reloadedWorld) = []
  ∧ shown (vscode out.2) = [0].
Proof. vm_compute. repeat split. Qed.



(** C3 refuted.  A call that returns in [liveWorld] appends one entry
    whose status is ["executed"], not ["started"]; a call that returns in
    a world whose command log cannot be parsed appends nothing. *)
Lemma sendCommandToTerminal_status_executed :
  (let out := sendCommandToTerminal None "whoami" true true liveWorld in
   ∃ r e, out.1 = Ret r
     ∧ content (commandLog out.2) = Holds [e]
     ∧ le_status e = "executed" ∧ le_status e ≠ "started")
  ∧ (let out := sendCommandToTerminal None "whoami" true true garbledWorld in
     ∃ r, out.1 = Ret r ∧ content (commandLog out.2) = Garbage).
Proof.
  split.
  - eexists _, _. vm_compute. repeat split. discriminate.
  - eexists. vm_compute. split; reflexivity.
Qed.

(** C3, amended, for a call without id in [liveWorld]. *)
Lemma sendCommandToTerminal_logs_one_entry_witness :
  ∃ e, content (commandLog (sendCommandToTerminal None "whoami" true true liveWorld).2)
       = Holds ([] ++ [e])
     ∧ le_status e = "executed" ∧ le_result e = None
     ∧ le_command e = "whoami"
     ∧ le_outputFile e = outputFile (resultFor "1" "whoami" true 2900)
     ∧ resolveTarget None liveWorld = Some (le_terminalId e)
     ∧ le_id e = length (@nil LogEntry) + 1.
Proof.
  apply (sendCommandToTerminal_logs_one_entry None "whoami" true true liveWorld
           (sendCommandToTerminal None "whoami" true true liveWorld).2
           (resultFor "1" "whoami" true 2900)).
  vm_compute. reflexivity.
Defined.

(** C4 refuted.  With a state file that cannot be parsed, [loadState] and
    the constructor end with the empty state in memory, and the file still
    holds what it held: the fresh state has not been written. *)
Lemma loadState_keeps_garbage_file :
  (let out := loadState garbledWorld in
   out.1 = Ret tt
   ∧ terminals (stateData out.2) = ∅
   ∧ terminalIdCounter (stateData out.2) = 1
   ∧ content (stateFile out.2) = Garbage
   ∧ content (stateFile out.2) ≠ Holds (stateData out.2))
  ∧ (let out := newTerminalStateManager garbledWorld in
     out.1 = Ret tt ∧ content (stateFile out.2) = Garbage).
Proof. vm_compute. repeat split. discriminate. Qed.

(** C5 refuted.  In [liveWorld] the mouse terminal is registered under the
    key 1 and no terminal is registered under the key 7; a call with the id
    7 throws and leaves the world as it was, instead of going to the mouse
    terminal. *)
Lemma sendCommandToTerminal_unknown_id_throws :
  findMouse (managedTerminals liveWorld) = Some "1"
  ∧ JsMap.get "7" (managedTerminals liveWorld) = None
  ∧ sendCommandToTerminal (Some (Js.IdStr "7")) "whoami" true true liveWorld
    = (Throw (terminalNotFound "7"), liveWorld).
Proof. vm_compute. repeat split. Qed.

(** C5, amended, for a call without id in [liveWorld]. *)
Lemma sendCommandToTerminal_resolution_witness :
  NoDup (JsMap.keys (managedTerminals liveWorld))
  ∧ let out := sendCommandToTerminal None "whoami" true true liveWorld in
    (window_terminals (vscode out.2) = window_terminals (vscode liveWorld)
     ∧ next_ref (vscode out.2) = next_ref (vscode liveWorld)
     ∧ terminalIdCounter (stateData out.2) = terminalIdCounter (stateData liveWorld)
     ∧ JsMap.keys (managedTerminals out.2) = JsMap.keys (managedTerminals liveWorld))
    ∧ (Js.truthy None = false →
       match findMouse (managedTerminals liveWorld) with
       | Some id =>
           id ≠ EmptyString →
           ∃ info r, JsMap.get id (managedTerminals liveWorld) = Some info
             ∧ ti_type info = "mouse"
             ∧ out.1 = Ret r
             ∧ sentText (vscode out.2) =
                 (ti_terminal info,
                  finalCommand "whoami" (redirection true (clock liveWorld)))
                 :: sentText (vscode liveWorld)
       | None => out = (Throw mouseNotFound, liveWorld)
       end)
    ∧ (Js.truthy None = true →
       JsMap.get (Js.StringOpt None) (managedTerminals liveWorld) = None →
       out = (Throw (terminalNotFound (Js.StringOpt None)), liveWorld)).
Proof.
  assert (Hnd : NoDup (JsMap.keys (managedTerminals liveWorld))).
  { apply (bool_decide_unpack _). vm_compute. exact I. }
  split; [exact Hnd|].
  exact (sendCommandToTerminal_resolution None "whoami" true true liveWorld Hnd).
Defined.

(** C6 refuted.  Of two entries for the same terminal and command the
    older has the result [null] and the newer the empty string.  The update
    leaves the older entry, the only one whose result is [null], as it
    is, and overwrites the result of the newer one. *)
Lemma updateLoop_overwrites_empty_result :
  le_result pendingEntry = None
  ∧ le_result emptyOutputEntry = Some EmptyString
  ∧ le_terminalId pendingEntry = le_terminalId emptyOutputEntry
  ∧ le_command pendingEntry = le_command emptyOutputEntry
  ∧ updateLoop 2 "1" "true" "out" [pendingEntry; emptyOutputEntry]
    = [pendingEntry; with_result "out" emptyOutputEntry]
  ∧ with_result "out" emptyOutputEntry ≠ emptyOutputEntry.
Proof. vm_compute. repeat split. discriminate. Qed.

(** C7, amended, for three calls in [blankWorld], whose counter is 1. *)
Lemma getNextTerminalId_strictly_increasing_witness :
  ((1 ≤ 3)%nat →
   ∃ w1, getNextTerminalId blankWorld = (Ret (terminalIdCounter (stateData blankWorld)), w1)
         ∧ terminalIdCounter (stateData w1) = S (terminalIdCounter (stateData blankWorld)))
  ∧ ∃ ids w', nextIds 3 blankWorld = (Ret ids, w')
      ∧ length ids = 3
      ∧ (∀ i a, ids !! i = Some a → a = terminalIdCounter (stateData blankWorld) + i)
      ∧ terminalIdCounter (stateData w') = terminalIdCounter (stateData blankWorld) + 3
      ∧ (∀ i j a b, i < j → ids !! i = Some a → ids !! j = Some b → a < b)
      ∧ NoDup ids.
Proof.
  apply (getNextTerminalId_strictly_increasing 3 blankWorld).
  vm_compute. discriminate.
Defined.

(** C7 refuted.  In [saturatedWorld] the counter holds 2^53.  Two calls of
    [getNextTerminalId] in a row return that number twice: the second id
    is not greater than the first, and the counter is not one higher
    after a call. *)
Lemma getNextTerminalId_repeats_from_2_53 :
  let c := terminalIdCounter (stateData saturatedWorld) in
  N.of_nat c = (2 ^ 53)%N
  ∧ (∃ w1, getNextTerminalId saturatedWorld = (Ret c, w1)
           ∧ terminalIdCounter (stateData w1) = c)
  ∧ ∃ w', nextIds 2 saturatedWorld = (Ret [c; c], w').
Proof.
  assert (H : N.of_nat (terminalIdCounter (stateData saturatedWorld)) = (2 ^ 53)%N)
    by apply N2Nat.id.
  split; [exact H|]. split.
  - exists (counted saturatedWorld). by apply getNextTerminalId_stalls.
  - destruct (nextIds_stalled 2 saturatedWorld H) as (w' & Hrun & _).
    exists w'. exact Hrun.
Qed.




(** C10 refuted.  [upsertTerminal] with the id [__proto__] in
    [blankWorld], whose table is empty: no descriptor is held under the key
    [__proto__] afterwards, in memory or in the state file; the descriptor
    has become the prototype of the table, where [getTerminal] finds it. *)
Lemma upsertTerminal_proto_stores_nothing :
  let info := mkDescriptor "x" "mouse" 1 2 3 "REMOTE TERMINAL (MOUSE)" in
  let out := upsertTerminal (Js.IdStr "__proto__") info blankWorld in
  out.1 = Ret tt
  ∧ terminals (stateData out.2) !! Js.String (Js.IdStr "__proto__") = None
  ∧ content (stateFile out.2) = Holds (freshState 1000)
  ∧ terminalsPrototype out.2
    = Some (mkDescriptor "__proto__" "mouse" 1 1000 3 "REMOTE TERMINAL (MOUSE)")
  ∧ getTerminal (Js.IdStr "__proto__") out.2
    = Some (JsDescriptor (mkDescriptor "__proto__" "mouse" 1 1000 3
                                       "REMOTE TERMINAL (MOUSE)")).
Proof. vm_compute. repeat split. Qed.

(** C10, amended, for the table of [reloadedWorld]. *)
Lemma persisted_table_keyed_witness :
  let info := mkDescriptor "x" "cat" 1 2 3 "LOCAL TERMINAL (CAT)" in
  keyed (stateData reloadedWorld) ∧ keyedFile (stateFile reloadedWorld)
  ∧ (let w' := (upsertTerminal (Js.IdNum 7) info reloadedWorld).2 in
     keyed (stateData w') ∧ keyedFile (stateFile w')
     ∧ (Js.String (Js.IdNum 7) ≠ "__proto__"
        ∨ is_Some (terminals (stateData reloadedWorld) !! Js.String (Js.IdNum 7)) →
        ∃ d, terminals (stateData w') !! Js.String (Js.IdNum 7) = Some d
             ∧ d_id d = Js.String (Js.IdNum 7) ∧ d_lastUpdated d = clock reloadedWorld
             ∧ d_type d = d_type info ∧ d_createdTime d = d_createdTime info
             ∧ d_lastActivity d = d_lastActivity info ∧ d_name d = d_name info)
     ∧ (Js.String (Js.IdNum 7) = "__proto__" →
        terminals (stateData reloadedWorld) !! Js.String (Js.IdNum 7) = None →
        terminals (stateData w') = terminals (stateData reloadedWorld)))
  ∧ (let w' := (removeTerminal (Js.IdNum 7) reloadedWorld).2 in
     keyed (stateData w') ∧ keyedFile (stateFile w'))
  ∧ (let w' := (clearAllTerminals reloadedWorld).2 in
     keyed (stateData w') ∧ keyedFile (stateFile w')).
Proof.
  intros info.
  assert (Hk : keyed (mkStateData restoredTable 3 20)).
  { apply (bool_decide_unpack (map_Forall (fun k d => d_id d = k) restoredTable)).
    vm_compute. exact I. }
  split; [exact Hk|]. split; [exact Hk|].
  exact (persisted_table_keyed reloadedWorld (Js.IdNum 7) info Hk Hk).
Defined.

(** ** Two runs of the whole *)

(** On a machine without the two files the constructor leaves the empty
    state with counter 1 in memory and in the state file, an empty command
    log, and an empty registry. *)
Example newTerminalManager_first_start :
  let out := newTerminalManager firstStart in
  out.1 = Ret tt
  ∧ stateData out.2 = freshState 0
  ∧ content (stateFile out.2) = Holds (freshState 0)
  ∧ content (commandLog out.2) = Holds []
  ∧ managedTerminals out.2 = [].
Proof. vm_compute. repeat split. Qed.

(** The round trip of one command through the log: the call appends one
    pending entry and leaves the outer timer; the outer timer sends
    [clear] and leaves the inner one; when the output file holds
    ["root"], the inner timer fills the result of that same entry. *)
Example audit_round_trip :
  let f := "/tmp/evil_sshagent_output_2900.txt" in
  let w1 := (sendCommandToTerminal None "whoami" true true liveWorld).2 in
  let w2 := (fire (TClear 0 "1" "whoami" (Some f)) w1).2 in
  let w3 := (fire (TReadBack "1" "whoami" f) (writeOutput f "root" w2)).2 in
  let e := logEntryFor 0 2900 "1" "mouse" "whoami" (Some f) None in
  timers w1 = [TClear 0 "1" "whoami" (Some f)]
  ∧ content (commandLog w1) = Holds [e]
  ∧ timers w2 = [TClear 0 "1" "whoami" (Some f); TReadBack "1" "whoami" f]
  ∧ content (commandLog w2) = Holds [e]
  ∧ content (commandLog w3) = Holds [with_result "root" e].
Proof. vm_compute. repeat split. Qed.

(** * Further properties *)

(** ** The state file over a restart *)

Section Restart.

Lemma saved_mirrored w : writable (stateFile w) = true → mirrored (saved w).
Proof.
  intros Hw. unfold mirrored. rewrite saved_stateFile, saved_stateData, Hw. reflexivity.
Qed.

Lemma saved_writable w : writable (stateFile (saved w)) = writable (stateFile w).
Proof. rewrite saved_stateFile. destruct (writable (stateFile w)) eqn:E; [exact E|exact E]. Qed.

Lemma newTerminalStateManager_eq w :
  newTerminalStateManager w =
  match content (stateFile w) with
  | Missing => (Ret tt, saved (newStateData (freshState (clock w)) w))
  | Garbage => (Ret tt, newStateData (freshState (clock w)) w)
  | Holds parsed => (Ret tt, newStateData parsed w)
  end.
Proof.
  unfold newTerminalStateManager, bind, gets, modify. cbn.
  rewrite loadState_eq. cbn.
  destruct (content (stateFile w)); reflexivity.
Qed.

(** A state manager built on a file that mirrors the memory finds the
    state it had; the table it holds is a new object. *)
Lemma mirrored_restart w :
  mirrored w →
  newTerminalStateManager w = (Ret tt, set_terminalsPrototype (fun _ => None) w).
Proof.
  unfold mirrored. intros Hm. rewrite newTerminalStateManager_eq, Hm.
  destruct w; reflexivity.
Qed.

Lemma mutate_mirrored m w :
  writable (stateFile w) = true → mirrored w →
  writable (stateFile (mutate m w)) = true ∧ mirrored (mutate m w).
Proof.
  intros Hw Hm. destruct m as [id info|id| |]; cbn [mutate].
  - rewrite upsertTerminal_eq. cbn [snd]. unfold upserted.
    assert (Hw' : writable (stateFile (terminalsSet (Js.String id)
                     (stored (Js.String id) (clock w) info) w)) = true).
    { destruct (terminalsSet_frame (Js.String id)
                  (stored (Js.String id) (clock w) info) w) as (_ & -> & _). exact Hw. }
    split; [rewrite saved_writable; exact Hw'|apply saved_mirrored; exact Hw'].
  - rewrite removeTerminal_eq.
    destruct (truthyValue _); cbn [snd].
    + split; [rewrite saved_writable; exact Hw|apply saved_mirrored; exact Hw].
    + split; [exact Hw|exact Hm].
  - rewrite getNextTerminalId_eq. cbn [snd].
    split; [rewrite saved_writable; exact Hw|apply saved_mirrored; exact Hw].
  - rewrite clearAllTerminals_eq. cbn [snd].
    split; [rewrite saved_writable; exact Hw|apply saved_mirrored; exact Hw].
Qed.

Lemma mutateAll_mirrored ms : ∀ w,
  writable (stateFile w) = true → mirrored w →
  writable (stateFile (mutateAll ms w)) = true ∧ mirrored (mutateAll ms w).
Proof.
  induction ms as [|m ms IH]; intros w Hw Hm; [split; assumption|].
  cbn [mutateAll foldl]. destruct (mutate_mirrored m w Hw Hm) as [Hw' Hm'].
  apply (IH _ Hw' Hm').
Qed.

End Restart.

(** X1.  With a state file that can be written and that is absent or
    well formed when the state manager is built, the file mirrors the
    memory after every sequence of [upsertTerminal], [removeTerminal],
    [getNextTerminalId] and [clearAllTerminals]: a state manager built
    afterwards starts with exactly the table, the counter and the time
    stamp the first one ended with, and the rest of the world is as it
    was, but for the table being a new object. *)
Theorem state_survives_restart (ms : list Mutation) (w : World) :
  writable (stateFile w) = true →
  content (stateFile w) ≠ Garbage →
  ∃ w1, newTerminalStateManager w = (Ret tt, w1)
    ∧ mirrored (mutateAll ms w1)
    ∧ newTerminalStateManager (mutateAll ms w1)
      = (Ret tt, set_terminalsPrototype (fun _ => None) (mutateAll ms w1)).
Proof.
  intros Hw Hg.
  assert (∃ w1, newTerminalStateManager w = (Ret tt, w1)
                ∧ writable (stateFile w1) = true ∧ mirrored w1) as (w1 & E & Hw1 & Hm1).
  { rewrite newTerminalStateManager_eq.
    destruct (content (stateFile w)) as [| |parsed] eqn:Ec.
    - eexists. split; [reflexivity|].
      split; [rewrite saved_writable; exact Hw|apply saved_mirrored; exact Hw].
    - destruct (Hg eq_refl).
    - eexists. split; [reflexivity|]. split; [exact Hw|exact Ec]. }
  exists w1. split; [exact E|].
  destruct (mutateAll_mirrored ms w1 Hw1 Hm1) as [_ Hm].
  split; [exact Hm|apply mirrored_restart; exact Hm].
Qed.

Lemma state_survives_restart_witness :
  ∃ w1, newTerminalStateManager firstStart = (Ret tt, w1)
    ∧ mirrored (mutateAll [MNextId; MUpsert (Js.IdNum 1) (mkDescriptor "x" "mouse" 5 6 7 "M");
                           MRemove (Js.IdStr "9"); MNextId] w1)
    ∧ newTerminalStateManager
        (mutateAll [MNextId; MUpsert (Js.IdNum 1) (mkDescriptor "x" "mouse" 5 6 7 "M");
                    MRemove (Js.IdStr "9"); MNextId] w1)
      = (Ret tt,
         set_terminalsPrototype (fun _ => None)
           (mutateAll [MNextId; MUpsert (Js.IdNum 1) (mkDescriptor "x" "mouse" 5 6 7 "M");
                       MRemove (Js.IdStr "9"); MNextId] w1)).
Proof.
  apply (state_survives_restart _ firstStart); [reflexivity|discriminate].
Defined.

(** X2.  When the state file cannot be written, [getNextTerminalId] still
    returns, and the id it returned is issued a second time by the state
    manager built after a restart. *)
Theorem getNextTerminalId_reissued_after_restart (w : World) :
  mirrored w →
  writable (stateFile w) = false →
  ∃ w1 w2 w3,
    getNextTerminalId w = (Ret (terminalIdCounter (stateData w)), w1)
    ∧ newTerminalStateManager w1 = (Ret tt, w2)
    ∧ getNextTerminalId w2 = (Ret (terminalIdCounter (stateData w)), w3).
Proof.
  unfold mirrored. intros Hm Hw.
  do 3 eexists. split; [apply getNextTerminalId_eq|].
  split.
  - rewrite newTerminalStateManager_eq, saved_stateFile. cbn. rewrite Hw, Hm. reflexivity.
  - rewrite getNextTerminalId_eq. reflexivity.
Qed.

Lemma getNextTerminalId_reissued_after_restart_witness :
  ∃ w1 w2 w3,
    getNextTerminalId (set_stateFile (fun f => mkFile (content f) false) reloadedWorld)
    = (Ret 3, w1)
    ∧ newTerminalStateManager w1 = (Ret tt, w2)
    ∧ getNextTerminalId w2 = (Ret 3, w3).
Proof.
  apply (getNextTerminalId_reissued_after_restart
           (set_stateFile (fun f => mkFile (content f) false) reloadedWorld));
    reflexivity.
Defined.

Section Removal.

Lemma removed_terminalsGet k w :
  terminalsGet k (saved (set_stateData (with_terminals (delete k)) w)) = inheritedGet k w.
Proof.
  unfold terminalsGet, inheritedGet.
  rewrite saved_stateData, saved_terminalsPrototype. cbn.
  by rewrite lookup_delete_eq.
Qed.

End Removal.

(** X3.  [removeTerminal(id)] tests [terminals[id]] for truth.  Where that
    is falsy it answers [false] and changes nothing, not even the time
    stamp.  Where it is truthy it answers [true], deletes the key from the
    table and no other key, keeps the counter and stamps the state; after
    that [terminals[id]] is what the table inherits under the name, so a
    second call answers [false] for a name the table does not inherit,
    as is every name that is no property of [Object.prototype] while the
    table has the prototype of a new object, and answers [true] again,
    deleting nothing, for a name it inherits. *)
Theorem removeTerminal_removes_once (id : Js.Id) (w : World) :
  let k := Js.String id in
  (getTerminal id w = None → removeTerminal id w = (Ret false, w))
  ∧ (is_Some (getTerminal id w) →
     ∃ w', removeTerminal id w = (Ret true, w')
       ∧ terminals (stateData w') = delete k (terminals (stateData w))
       ∧ terminalIdCounter (stateData w') = terminalIdCounter (stateData w)
       ∧ getLastUpdatedTime w' = clock w
       ∧ terminalsGet k w' = inheritedGet k w
       ∧ (truthyValue (inheritedGet k w) = false →
          removeTerminal id w' = (Ret false, w'))
       ∧ (truthyValue (inheritedGet k w) = true →
          ∃ w'', removeTerminal id w' = (Ret true, w'')
            ∧ terminals (stateData w'') = terminals (stateData w')))
  ∧ (terminalsPrototype w = None → Js.inObjectPrototype k = false →
     inheritedGet k w = JsUndefined)
  ∧ (Js.inObjectPrototype k = true → terminals (stateData w) !! k = None →
     ∃ w', removeTerminal id w = (Ret true, w')
       ∧ terminals (stateData w') = terminals (stateData w)
       ∧ getLastUpdatedTime w' = clock w).
Proof.
  cbv zeta. unfold getTerminal, getLastUpdatedTime. rewrite removeTerminal_eq.
  split; [|split; [|split]].
  - destruct (truthyValue (terminalsGet (Js.String id) w)); [discriminate|reflexivity].
  - destruct (truthyValue (terminalsGet (Js.String id) w)); [intros _|by intros [? ?]].
    eexists. split; [reflexivity|].
    rewrite removeTerminal_eq, removed_terminalsGet, !saved_stateData. cbn.
    split; [reflexivity|]. split; [reflexivity|]. split; [reflexivity|].
    split; [reflexivity|]. split.
    + by intros ->.
    + intros ->. eexists. split; [reflexivity|].
      rewrite saved_stateData. cbn. rewrite ?saved_stateData. cbn.
      by rewrite delete_delete_eq.
  - intros Hp Hk. unfold inheritedGet. by rewrite Hp, Hk.
  - intros Hk Hnone. unfold terminalsGet, inheritedGet. rewrite Hnone.
    assert (Ht : truthyValue
      match terminalsPrototype w with
      | Some p =>
          match descriptorProperty p (Js.String id) with
          | Some v => v
          | None =>
              if String.eqb (Js.String id) "__proto__" then JsDescriptor p
              else if Js.inObjectPrototype (Js.String id) then JsNative
              else JsUndefined
          end
      | None => if Js.inObjectPrototype (Js.String id) then JsNative else JsUndefined
      end = true).
    { rewrite Hk. destruct (terminalsPrototype w) as [p|]; [|reflexivity].
      revert Hk. unfold descriptorProperty, Js.inObjectPrototype, Js.objectPrototype.
      cbn [existsb].
      repeat match goal with
             | |- context [String.eqb (Js.String id) ?s] =>
                 destruct (String.eqb_spec (Js.String id) s) as [->|]
             end; try reflexivity; try discriminate. }
    rewrite Ht. eexists. split; [reflexivity|].
    rewrite !saved_stateData. cbn. split; [|reflexivity].
    by apply delete_id.
Qed.
(** ** Destroying terminals *)

Section Destroy.

Lemma mapDelete_get {V} k k' (m : list (string * V)) :
  JsMap.get k' (mapDelete k m) = if String.eqb k' k then None else JsMap.get k' m.
Proof.
  induction m as [|[k0 v] m IH]; cbn.
  - destruct (String.eqb k' k); reflexivity.
  - destruct (String.eqb_spec k k0) as [->|Hne].
    + rewrite IH. destruct (String.eqb_spec k' k0); reflexivity.
    + cbn. rewrite IH.
      destruct (String.eqb_spec k' k0) as [->|Hne'].
      * destruct (String.eqb_spec k0 k) as [->|_]; [destruct (Hne eq_refl)|reflexivity].
      * reflexivity.
Qed.

Lemma JsMap_get_none_nil {V} (m : list (string * V)) :
  (∀ k, JsMap.get k m = None) → m = [].
Proof.
  destruct m as [|[k v] m]; [reflexivity|].
  intros H. specialize (H k). cbn in H. rewrite String.eqb_refl in H. discriminate.
Qed.

Lemma JsMap_get_not_key {V} k (m : list (string * V)) :
  k ∉ JsMap.keys m → JsMap.get k m = None.
Proof.
  induction m as [|[k0 v] m IH]; cbn; [reflexivity|].
  intros Hn. destruct (String.eqb_spec k k0) as [->|Hne].
  - destruct Hn. apply list_elem_of_here.
  - apply IH. intros Hin. apply Hn. apply list_elem_of_further. exact Hin.
Qed.

Lemma destroyTerminal_eq id w :
  destroyTerminal id w =
  match JsMap.get (Js.String id) (managedTerminals w) with
  | None => (Ret false, w)
  | Some info => (Ret true, destroyed (Js.String id) info w)
  end.
Proof.
  unfold destroyTerminal, bind, gets. cbn -[removeTerminal].
  destruct (JsMap.get (Js.String id) (managedTerminals w)) as [info|]; [|reflexivity].
  unfold try_catch, bind, dispose, modify. cbn -[removeTerminal].
  rewrite removeTerminal_eq. unfold destroyed, closeTerminal.
  match goal with
  | |- context [terminalsGet ?k ?v] =>
      change (terminalsGet k v) with (terminalsGet k w)
  end.
  cbn [Js.String].
  destruct (truthyValue (terminalsGet (Js.String id) w)); reflexivity.
Qed.

Lemma destroyed_fields id info w :
  let w' := destroyed id info w in
  managedTerminals w' = mapDelete id (managedTerminals w)
  ∧ terminals (stateData w') = delete id (terminals (stateData w))
  ∧ terminalIdCounter (stateData w') = terminalIdCounter (stateData w)
  ∧ window_terminals (vscode w') =
      List.filter (fun t => negb (Nat.eqb (t_ref t) (ti_terminal info)))
                  (window_terminals (vscode w))
  ∧ next_ref (vscode w') = next_ref (vscode w)
  ∧ shell_name (vscode w') = shell_name (vscode w)
  ∧ host_ok (vscode w') = host_ok (vscode w)
  ∧ shown (vscode w') = shown (vscode w)
  ∧ sentText (vscode w') = sentText (vscode w)
  ∧ globals w' = globals w
  ∧ clock w' = clock w
  ∧ commandLog w' = commandLog w
  ∧ timers w' = timers w.
Proof.
  cbv zeta. unfold destroyed.
  destruct (truthyValue (terminalsGet id w)) eqn:Et.
  - match goal with |- context [saved ?x] =>
      destruct (saved_frame x) as (Hc & Hl & _ & Hv & Hm & Ht & Hg);
      rewrite Hc, Hl, Hv, Hm, Ht, Hg, !saved_stateData end.
    repeat split.
  - assert (E : terminals (stateData w) !! id = None).
    { destruct (terminals (stateData w) !! id) as [d|] eqn:E; [|reflexivity].
      rewrite (terminalsGet_own id d w E) in Et. discriminate. }
    cbn. rewrite (delete_id _ _ E). repeat split.
Qed.

Lemma filter_ref_not_alive terminal w w' :
  window_terminals (vscode w') =
    List.filter (fun t => negb (Nat.eqb (t_ref t) terminal)) (window_terminals (vscode w)) →
  enumerated terminal w' = false.
Proof.
  intros Hw. unfold enumerated. rewrite Hw, existsb_find.
  rewrite (find_all_false (fun t => Nat.eqb (t_ref t) terminal)); [reflexivity|].
  intros x Hx. apply list_elem_of_In, filter_In in Hx as [_ Hx].
  destruct (Nat.eqb (t_ref x) terminal); [discriminate|reflexivity].
Qed.

End Destroy.

(** X4.  [destroyTerminal] of an id that is not in the registry answers
    [false] and changes nothing, whether or not the id has a persisted
    descriptor.  Of a registered id it answers [true]: the terminal is
    disposed and no longer alive, the id leaves the registry and the
    persisted table, every other id keeps its entries, and the ids held by
    the extension and the counter stay as they are. *)
Theorem destroyTerminal_registered_only (id : Js.Id) (w : World) :
  match JsMap.get (Js.String id) (managedTerminals w) with
  | None => destroyTerminal id w = (Ret false, w)
  | Some info =>
      ∃ w', destroyTerminal id w = (Ret true, w')
        ∧ JsMap.get (Js.String id) (managedTerminals w') = None
        ∧ terminals (stateData w') !! Js.String id = None
        ∧ enumerated (ti_terminal info) w' = false
        ∧ isTerminalAliveInVSCode (ti_terminal info) w' = (Ret false, w')
        ∧ (∀ k, k ≠ Js.String id →
             JsMap.get k (managedTerminals w') = JsMap.get k (managedTerminals w)
             ∧ terminals (stateData w') !! k = terminals (stateData w) !! k)
        ∧ (∀ t, t ∈ window_terminals (vscode w') ↔
                t ∈ window_terminals (vscode w) ∧ t_ref t ≠ ti_terminal info)
        ∧ globals w' = globals w
        ∧ terminalIdCounter (stateData w') = terminalIdCounter (stateData w)
  end.
Proof.
  rewrite destroyTerminal_eq.
  destruct (JsMap.get (Js.String id) (managedTerminals w)) as [info|] eqn:E; [|reflexivity].
  eexists. split; [reflexivity|].
  destruct (destroyed_fields (Js.String id) info w)
    as (Hm & Ht & Hc & Hw & _ & _ & _ & _ & _ & Hg & _).
  pose proof (filter_ref_not_alive _ w _ Hw) as Hgone.
  rewrite isTerminalAliveInVSCode_eq, (probe_closed _ _ Hgone).
  rewrite Hm, Ht, Hc, Hg.
  split; [rewrite mapDelete_get, String.eqb_refl; reflexivity|].
  split; [apply lookup_delete_eq|].
  split; [exact Hgone|]. split; [reflexivity|].
  split.
  - intros k Hk. rewrite mapDelete_get.
    destruct (String.eqb_spec k (Js.String id)) as [->|_]; [destruct (Hk eq_refl)|].
    split; [reflexivity|apply lookup_delete_ne; congruence].
  - split; [|split; reflexivity].
    intros t. rewrite Hw. rewrite !list_elem_of_In, filter_In.
    destruct (Nat.eqb_spec (t_ref t) (ti_terminal info)) as [He|Hne]; cbn.
    + split; [intros [_ Hf]; discriminate|intros [_ Hf]; destruct (Hf He)].
    + split; [intros [Hin _]; split; [exact Hin|exact Hne]|intros [Hin _]; split; [exact Hin|reflexivity]].
Qed.
Section Reaping.

Lemma Reaped_nil w : Reaped [] w w.
Proof.
  unfold Reaped. split; [|split; [|split; [|split; [|split; [|repeat split]]]]].
  - intros k Hk. apply elem_of_nil in Hk. destruct Hk.
  - reflexivity.
  - intros k Hk _. apply elem_of_nil in Hk. destruct Hk.
  - reflexivity.
  - intros t. split; [|intros [Ht _]; exact Ht].
    intros Ht. split; [exact Ht|].
    intros k info Hk. apply elem_of_nil in Hk. destruct Hk.
Qed.

Lemma Reaped_trans ks1 ks2 w w1 w2 :
  Reaped ks1 w w1 → Reaped ks2 w1 w2 → Reaped (ks1 ++ ks2) w w2.
Proof.
  intros (A1 & A2 & A3 & A4 & A5 & Ag & Ac & An & As & Ah & Ash & Ast & Acl & Al & Ati)
         (B1 & B2 & B3 & B4 & B5 & Bg & Bc & Bn & Bs & Bh & Bsh & Bst & Bcl & Bl & Bti).
  unfold Reaped.
  rewrite Bg, Bc, Bn, Bs, Bh, Bsh, Bst, Bcl, Bl, Bti.
  split; [|split; [|split; [|split; [|split; [|repeat split; assumption]]]]].
  - intros k Hk. destruct (decide (k ∈ ks2)) as [H2|H2]; [apply B1; exact H2|].
    rewrite (B2 k H2). apply A1.
    apply elem_of_app in Hk as [Hk|Hk]; [exact Hk|destruct (H2 Hk)].
  - intros k Hk. rewrite B2, A2; [reflexivity| |];
      intros Hin; apply Hk, elem_of_app; [left|right]; exact Hin.
  - intros k Hk Hreg.
    destruct (decide (k ∈ ks1)) as [H1|H1].
    + destruct (decide (k ∈ ks2 ∧ is_Some (JsMap.get k (managedTerminals w1)))) as [[H2 Hr]|Hn].
      * apply B3; assumption.
      * rewrite (B4 k Hn). apply A3; assumption.
    + apply elem_of_app in Hk as [Hk|Hk]; [destruct (H1 Hk)|].
      apply B3; [exact Hk|]. rewrite (A2 k H1). exact Hreg.
  - intros k Hn.
    rewrite B4, A4; [reflexivity| |].
    + intros [H1 Hr]. apply Hn. split; [apply elem_of_app; left; exact H1|exact Hr].
    + intros [H2 Hr]. destruct (decide (k ∈ ks1)) as [H1|H1].
      * rewrite (A1 k H1) in Hr. destruct Hr; discriminate.
      * rewrite (A2 k H1) in Hr. apply Hn. split; [apply elem_of_app; right; exact H2|exact Hr].
  - intros t. rewrite B5, A5. split.
    + intros [[Hin H1] H2]. split; [exact Hin|].
      intros k info Hk Hget. destruct (decide (k ∈ ks1)) as [Hk1|Hk1].
      * apply (H1 k info Hk1 Hget).
      * apply elem_of_app in Hk as [Hk|Hk]; [destruct (Hk1 Hk)|].
        apply (H2 k info Hk). rewrite (A2 k Hk1). exact Hget.
    + intros [Hin H12]. split; [split; [exact Hin|]|].
      * intros k info Hk Hget. apply (H12 k info); [apply elem_of_app; left; exact Hk|exact Hget].
      * intros k info Hk Hget. destruct (decide (k ∈ ks1)) as [Hk1|Hk1].
        -- rewrite (A1 k Hk1) in Hget. discriminate.
        -- rewrite (A2 k Hk1) in Hget.
           apply (H12 k info); [apply elem_of_app; right; exact Hk|exact Hget].
Qed.

Lemma Reaped_destroyTerminal k w :
  Reaped [k] w (destroyTerminal (Js.IdStr k) w).2.
Proof.
  rewrite destroyTerminal_eq. cbn [Js.String].
  destruct (JsMap.get k (managedTerminals w)) as [info|] eqn:E; cbn [snd].
  - destruct (destroyed_fields k info w)
      as (Hm & Ht & Hc & Hw & Hn & Hs & Hh & Hsh & Hst & Hg & Hcl & Hl & Hti).
    unfold Reaped. rewrite Hm, Ht, Hc, Hw, Hn, Hs, Hh, Hsh, Hst, Hg, Hcl, Hl, Hti.
    split; [|split; [|split; [|split; [|split; [|repeat split]]]]].
    + intros k' Hk. apply list_elem_of_singleton in Hk as ->.
      rewrite mapDelete_get, String.eqb_refl. reflexivity.
    + intros k' Hk. rewrite mapDelete_get.
      destruct (String.eqb_spec k' k) as [->|_]; [|reflexivity].
      destruct Hk. apply list_elem_of_singleton. reflexivity.
    + intros k' Hk _. apply list_elem_of_singleton in Hk as ->. apply lookup_delete_eq.
    + intros k' Hn'. apply lookup_delete_ne. intros ->. apply Hn'.
      split; [apply list_elem_of_singleton; reflexivity|rewrite E; eexists; reflexivity].
    + intros t. rewrite list_elem_of_In, filter_In, <- list_elem_of_In.
      split.
      * intros [Hin Hf]. split; [exact Hin|].
        intros k' info' Hk Hget. apply list_elem_of_singleton in Hk as ->.
        rewrite E in Hget. injection Hget as <-.
        intros He. rewrite He, Nat.eqb_refl in Hf. discriminate.
      * intros [Hin Hf]. split; [exact Hin|].
        destruct (Nat.eqb_spec (t_ref t) (ti_terminal info)) as [He|_]; [|reflexivity].
        destruct (Hf k info); [apply list_elem_of_singleton; reflexivity|exact E|exact He].
  - unfold Reaped. split; [|split; [|split; [|split; [|split; [|repeat split]]]]].
    + intros k' Hk. apply list_elem_of_singleton in Hk as ->. exact E.
    + reflexivity.
    + intros k' Hk [x Hx]. apply list_elem_of_singleton in Hk as ->.
      rewrite E in Hx. discriminate.
    + reflexivity.
    + intros t. split; [|intros [Ht _]; exact Ht].
      intros Ht. split; [exact Ht|].
      intros k' info' Hk Hget. apply list_elem_of_singleton in Hk as ->.
      rewrite E in Hget. discriminate.
Qed.

Lemma Reaped_destroyEach ks : ∀ w, Reaped ks w (destroyEach ks w).
Proof.
  induction ks as [|k ks IH]; intros w; [apply Reaped_nil|].
  change (k :: ks) with ([k] ++ ks).
  apply (Reaped_trans [k] ks w (destroyTerminal (Js.IdStr k) w).2).
  - apply Reaped_destroyTerminal.
  - apply IH.
Qed.

Lemma forEach_destroyTerminal ks : ∀ w,
  forEach ks (fun terminalId => run destroyTerminal (Js.IdStr terminalId); ret tt) w
  = (Ret tt, destroyEach ks w).
Proof.
  induction ks as [|k ks IH]; intros w; [reflexivity|].
  cbn [forEach destroyEach foldl]. unfold bind at 1 2.
  rewrite destroyTerminal_eq. cbn [Js.String].
  destruct (JsMap.get k (managedTerminals w)); cbn [snd]; unfold ret at 1; apply IH.
Qed.

Lemma destroyAllTerminals_eq w :
  destroyAllTerminals w
  = (Ret (length (managedTerminals w)), destroyEach (JsMap.keys (managedTerminals w)) w).
Proof.
  unfold destroyAllTerminals, bind at 1, gets at 1.
  unfold bind. rewrite forEach_destroyTerminal. unfold ret, JsMap.keys.
  rewrite length_fmap. reflexivity.
Qed.

End Reaping.

(** X5.  [destroyAllTerminals] answers the number of registry entries and
    leaves the registry empty; every registered terminal has left the
    window and the persisted table.  A descriptor whose id is not in the
    registry stays in the table, and the ids held by the extension and
    the counter are not reset. *)
Theorem destroyAllTerminals_empties_registry (w : World) :
  ∃ w', destroyAllTerminals w = (Ret (length (managedTerminals w)), w')
    ∧ managedTerminals w' = []
    ∧ (∀ k, terminals (stateData w') !! k =
            if mapHas k (managedTerminals w) then None else terminals (stateData w) !! k)
    ∧ (∀ t, t ∈ window_terminals (vscode w') ↔
            t ∈ window_terminals (vscode w)
            ∧ ∀ k info, JsMap.get k (managedTerminals w) = Some info →
                        t_ref t ≠ ti_terminal info)
    ∧ globals w' = globals w
    ∧ terminalIdCounter (stateData w') = terminalIdCounter (stateData w).
Proof.
  rewrite destroyAllTerminals_eq. eexists. split; [reflexivity|].
  destruct (Reaped_destroyEach (JsMap.keys (managedTerminals w)) w)
    as (A1 & A2 & A3 & A4 & A5 & Ag & Ac & _).
  split; [|split; [|split; [|split; [exact Ag|exact Ac]]]].
  - apply JsMap_get_none_nil. intros k.
    destruct (decide (k ∈ JsMap.keys (managedTerminals w))) as [Hk|Hk].
    + apply A1. exact Hk.
    + rewrite (A2 k Hk). apply JsMap_get_not_key. exact Hk.
  - intros k. unfold mapHas.
    destruct (JsMap.get k (managedTerminals w)) as [info|] eqn:E.
    + apply A3; [apply (JsMap_get_keys k info); exact E|rewrite E; eexists; reflexivity].
    + apply A4. intros [_ [x Hx]]. rewrite E in Hx. discriminate.
  - intros t. rewrite A5. split.
    + intros [Hin Hf]. split; [exact Hin|].
      intros k info Hget. apply (Hf k info); [apply (JsMap_get_keys k info); exact Hget|exact Hget].
    + intros [Hin Hf]. split; [exact Hin|].
      intros k info _ Hget. apply (Hf k info Hget).
Qed.
(** ** Enumerating the persisted table *)

Section Enumeration.
Context `{JsObject}.

Lemma ObjectKeys_lookup (m : gmap string Descriptor) k :
  k ∈ ObjectKeys m ↔ is_Some (m !! k).
Proof.
  rewrite (ObjectKeys_enum m), list_elem_of_fmap. split.
  - intros [[k' d] [-> Hin]]. apply elem_of_map_to_list in Hin. eexists. exact Hin.
  - intros [d Hd]. exists (k, d). split; [reflexivity|apply elem_of_map_to_list; exact Hd].
Qed.

Lemma ObjectKeys_length (m : gmap string Descriptor) : length (ObjectKeys m) = size m.
Proof. rewrite (ObjectKeys_enum m), length_fmap. apply length_map_to_list. Qed.

Lemma cleanupLoop_eq table now maxIdleTimeMs ids : ∀ cleanedCount w,
  (∀ k, k ∈ ids → is_Some (table !! k)) →
  cleanupLoop ids table now maxIdleTimeMs cleanedCount w
  = (Ret (cleanedCount + length (List.filter (idleKey now maxIdleTimeMs table) ids)),
     destroyEach (List.filter (idleKey now maxIdleTimeMs table) ids) w).
Proof.
  induction ids as [|k ids IH]; intros n w Hin.
  - cbn. unfold ret. rewrite Nat.add_0_r. reflexivity.
  - destruct (Hin k (list_elem_of_here _ _)) as [d Hd].
    assert (∀ k', k' ∈ ids → is_Some (table !! k')) as Hin'.
    { intros k' Hk'. apply Hin, list_elem_of_further, Hk'. }
    assert (idleKey now maxIdleTimeMs table k = idle now maxIdleTimeMs d) as Hk.
    { unfold idleKey. rewrite Hd. reflexivity. }
    cbn [cleanupLoop List.filter]. rewrite Hk.
    unfold bind at 1, property. rewrite Hd. unfold ret at 1.
    destruct (idle now maxIdleTimeMs d).
    + unfold bind at 1. cbn [length destroyEach foldl].
      rewrite destroyTerminal_eq. cbn [Js.String].
      destruct (JsMap.get k (managedTerminals w)); cbn [snd];
        rewrite (IH _ _ Hin'), Nat.add_succ_r; reflexivity.
    + apply (IH _ _ Hin').
Qed.

Lemma cleanupIdleTerminals_eq maxIdleTimeMs w :
  cleanupIdleTerminals maxIdleTimeMs w
  = (Ret (length (List.filter (idleKey (clock w) maxIdleTimeMs (terminals (stateData w)))
                              (ObjectKeys (terminals (stateData w))))),
     destroyEach (List.filter (idleKey (clock w) maxIdleTimeMs (terminals (stateData w)))
                              (ObjectKeys (terminals (stateData w)))) w).
Proof.
  unfold cleanupIdleTerminals, bind, gets, getAllTerminals.
  rewrite cleanupLoop_eq; [reflexivity|].
  intros k Hk. apply ObjectKeys_lookup. exact Hk.
Qed.

Lemma idleKey_listed now maxIdleTimeMs (table : gmap string Descriptor) k :
  k ∈ List.filter (idleKey now maxIdleTimeMs table) (ObjectKeys table)
  ↔ idleKey now maxIdleTimeMs table k = true.
Proof.
  rewrite list_elem_of_In, filter_In, <- list_elem_of_In, ObjectKeys_lookup.
  split; [intros [_ Hi]; exact Hi|].
  intros Hi. split; [|exact Hi].
  unfold idleKey in Hi. destruct (table !! k); [eexists; reflexivity|discriminate].
Qed.

Lemma statusLoop_eq w ids : ∀ acc,
  (∀ k, k ∈ ids → is_Some (terminals (stateData w) !! k)) →
  statusLoop ids (terminals (stateData w)) acc w
  = (Ret (acc ++ omap (fun k => statusOf w k <$> terminals (stateData w) !! k) ids), w).
Proof.
  induction ids as [|k ids IH]; intros acc Hin.
  - cbn. unfold ret. rewrite app_nil_r. reflexivity.
  - destruct (Hin k (list_elem_of_here _ _)) as [d Hd].
    cbn [statusLoop omap list_omap]. unfold bind at 1, property. rewrite Hd. unfold ret at 1.
    unfold bind at 1, gets at 1. unfold bind at 1, gets at 1.
    rewrite IH.
    + cbn. rewrite <- app_assoc. reflexivity.
    + intros k' Hk'. apply Hin, list_elem_of_further, Hk'.
Qed.

End Enumeration.

Lemma destroyEach_unregistered ks w :
  managedTerminals w = [] → destroyEach ks w = w.
Proof.
  intros Hnil. induction ks as [|k ks IH]; [reflexivity|].
  cbn [destroyEach foldl]. rewrite destroyTerminal_eq, Hnil. cbn [JsMap.get snd]. exact IH.
Qed.

(** X6.  [cleanupIdleTerminals] answers the number of persisted descriptors
    that are idle, whether or not their terminal is registered, but
    destroys only those that are registered: an idle descriptor without
    registry entry is counted and stays in the table. *)
Theorem cleanupIdleTerminals_counts_descriptors `{JsObject} (maxIdleTimeMs : nat) (w : World) :
  let table := terminals (stateData w) in
  let isIdle := idleKey (clock w) maxIdleTimeMs table in
  ∃ w', cleanupIdleTerminals maxIdleTimeMs w
        = (Ret (length (List.filter isIdle (ObjectKeys table))), w')
    ∧ (∀ k, JsMap.get k (managedTerminals w') =
            if isIdle k then None else JsMap.get k (managedTerminals w))
    ∧ (∀ k, terminals (stateData w') !! k =
            if isIdle k && mapHas k (managedTerminals w) then None else table !! k)
    ∧ (managedTerminals w = [] → w' = w)
    ∧ globals w' = globals w
    ∧ terminalIdCounter (stateData w') = terminalIdCounter (stateData w).
Proof.
  cbv zeta. rewrite cleanupIdleTerminals_eq. eexists. split; [reflexivity|].
  match goal with |- context [destroyEach ?ks w] =>
    destruct (Reaped_destroyEach ks w) as (A1 & A2 & A3 & A4 & _ & Ag & Ac & _);
    pose proof (fun k => idleKey_listed (clock w) maxIdleTimeMs (terminals (stateData w)) k) as Hl
  end.
  split; [|split; [|split; [|split; [exact Ag|exact Ac]]]].
  - intros k. destruct (idleKey _ _ _ k) eqn:Ei.
    + apply A1, Hl, Ei.
    + apply A2. intros Hin. apply Hl in Hin. rewrite Ei in Hin. discriminate.
  - intros k. destruct (idleKey _ _ _ k) eqn:Ei; cbn [andb].
    + unfold mapHas. destruct (JsMap.get k (managedTerminals w)) eqn:Eg.
      * apply A3; [apply Hl, Ei|rewrite Eg; eexists; reflexivity].
      * apply A4. intros [_ [x Hx]]. rewrite Eg in Hx. discriminate.
    + apply A4. intros [Hin _]. apply Hl in Hin. rewrite Ei in Hin. discriminate.
  - intros Hnil. apply destroyEach_unregistered. exact Hnil.
Qed.
Section Status.
Context `{JsObject}.

Lemma statusList_ids w (ks : list string) :
  (∀ k, k ∈ ks → is_Some (terminals (stateData w) !! k)) →
  ts_id <$> omap (fun k => statusOf w k <$> terminals (stateData w) !! k) ks = ks.
Proof.
  induction ks as [|k ks IH]; intros Hin; [reflexivity|].
  destruct (Hin k (list_elem_of_here _ _)) as [d Hd].
  cbn [omap list_omap]. rewrite Hd. cbn. f_equal.
  apply IH. intros k' Hk'. apply Hin, list_elem_of_further, Hk'.
Qed.

Lemma getTerminalStatus_eq w :
  getTerminalStatus w
  = (Ret (length (ObjectKeys (terminals (stateData w))),
          omap (fun k => statusOf w k <$> terminals (stateData w) !! k)
               (ObjectKeys (terminals (stateData w)))), w).
Proof.
  unfold getTerminalStatus, bind at 1, gets at 1, getAllTerminals.
  unfold bind at 1. rewrite statusLoop_eq.
  - reflexivity.
  - intros k Hk. apply ObjectKeys_lookup. exact Hk.
Qed.

End Status.

(** X7.  [getTerminalStatus] changes nothing and reports the persisted
    table, not the registry: [totalTerminals] is the number of descriptors
    and the length of the list, every descriptor has one element in the
    list, and [isActive] tells whether its id is in the registry.  A
    registered terminal without descriptor is not reported. *)
Theorem getTerminalStatus_reports_descriptors `{JsObject} (w : World) :
  ∃ l, getTerminalStatus w = (Ret (length l, l), w)
    ∧ length l = size (terminals (stateData w))
    ∧ length l = getTerminalCount w
    ∧ ts_id <$> l = getAllTerminalIds w
    ∧ (∀ k d, terminals (stateData w) !! k = Some d → statusOf w k d ∈ l)
    ∧ (∀ s, s ∈ l →
         ∃ d, terminals (stateData w) !! ts_id s = Some d ∧ s = statusOf w (ts_id s) d).
Proof.
  rewrite getTerminalStatus_eq.
  assert (ts_id <$> omap (fun k => statusOf w k <$> terminals (stateData w) !! k)
                         (ObjectKeys (terminals (stateData w)))
          = ObjectKeys (terminals (stateData w))) as Hids.
  { apply statusList_ids. intros k Hk. apply ObjectKeys_lookup. exact Hk. }
  assert (length (omap (fun k => statusOf w k <$> terminals (stateData w) !! k)
                       (ObjectKeys (terminals (stateData w))))
          = length (ObjectKeys (terminals (stateData w)))) as Hlen.
  { rewrite <- Hids at 2. rewrite length_fmap. reflexivity. }
  eexists. split; [rewrite <- Hlen; reflexivity|].
  split; [rewrite Hlen; apply ObjectKeys_length|].
  split; [exact Hlen|].
  split; [exact Hids|].
  split.
  - intros k d Hd. apply list_elem_of_omap. exists k.
    split; [apply ObjectKeys_lookup; rewrite Hd; eexists; reflexivity|].
    rewrite Hd. reflexivity.
  - intros s Hs. apply list_elem_of_omap in Hs as (k & _ & Hs).
    destruct (terminals (stateData w) !! k) as [d|] eqn:Hd; [|discriminate].
    cbn in Hs. injection Hs as <-. cbn [ts_id statusOf]. exists d. split; [exact Hd|reflexivity].
Qed.
(** ** The executor and the HTTP server *)

Section Server.

Lemma JsMap_get_key {V} k (m : list (string * V)) :
  k ∈ JsMap.keys m → is_Some (JsMap.get k m).
Proof.
  induction m as [|[k0 v] m IH]; cbn.
  - intros Hk. apply elem_of_nil in Hk. destruct Hk.
  - intros Hk. destruct (String.eqb_spec k k0) as [->|Hne]; [eexists; reflexivity|].
    apply IH. apply elem_of_cons in Hk as [Hk|Hk]; [destruct (Hne Hk)|exact Hk].
Qed.

Lemma findMouse_key m id : findMouse m = Some id → id ∈ JsMap.keys m.
Proof.
  induction m as [|[k info] m IH]; cbn; [discriminate|].
  destruct (String.eqb (ti_type info) "mouse").
  - intros Heq. injection Heq as ->. apply list_elem_of_here.
  - intros Heq. apply list_elem_of_further, IH, Heq.
Qed.

Lemma executeRemoteCommand_eq command terminalId w :
  executeRemoteCommand command terminalId w =
  match sendCommandToTerminal terminalId command true true w with
  | (Throw error, w') => (Ret (failure error), w')
  | out => out
  end.
Proof. reflexivity. Qed.

Lemma sendCommandToTerminal_throws terminalId command clearAfterExecution redirectOutput w e w' :
  sendCommandToTerminal terminalId command clearAfterExecution redirectOutput w = (Throw e, w') →
  w' = w
  ∧ match resolveTarget terminalId w with
    | None => e = mouseNotFound
    | Some id => JsMap.get id (managedTerminals w) = None ∧ e = terminalNotFound id
    end.
Proof.
  rewrite sendCommandToTerminal_eq.
  destruct (resolveTarget terminalId w) as [id|].
  - destruct (JsMap.get id (managedTerminals w)); intros Heq; [discriminate|].
    injection Heq as <- <-. repeat split.
  - intros Heq. injection Heq as <- <-. repeat split.
Qed.

Lemma sendCommandToTerminal_not_blocked terminalId command clearAfterExecution redirectOutput w :
  (sendCommandToTerminal terminalId command clearAfterExecution redirectOutput w).1 ≠ Blocked.
Proof.
  rewrite sendCommandToTerminal_eq.
  destruct (resolveTarget terminalId w) as [id|]; [|discriminate].
  destruct (JsMap.get id (managedTerminals w)); discriminate.
Qed.

Lemma executeRemoteCommand_returns command terminalId w :
  ∃ r, executeRemoteCommand command terminalId w
       = (Ret r, (sendCommandToTerminal terminalId command true true w).2)
    ∧ match (sendCommandToTerminal terminalId command true true w).1 with
      | Ret r' => r = r'
      | Throw error => r = failure error
      | Blocked => False
      end.
Proof.
  rewrite executeRemoteCommand_eq.
  pose proof (sendCommandToTerminal_not_blocked terminalId command true true w) as Hb.
  destruct (sendCommandToTerminal terminalId command true true w) as [[r|e|] w'];
    cbn [fst snd] in *; [eexists; split; reflexivity ..|destruct (Hb eq_refl)].
Qed.

Lemma handleCommandRoute_eq req w :
  handleCommandRoute req w =
  if Js.truthy (mouseTerminalIdRef (globals w))
  then
    match commandOf req with
    | Ret command =>
        match command with
        | Some command =>
            if String.eqb command EmptyString
            then (Ret (mkResponse 400 (ErrorBody "Command parameter is required" (clock w))), w)
            else
              match executeRemoteCommand command (mouseTerminalIdRef (globals w)) w with
              | (Ret result, w') =>
                  (Ret (mkResponse 200 (CommandBody command (stdout result) (stderr result)
                                                    (exitCode result) (clock w'))), w')
              | (Throw _, w') => (Throw "command is not defined", w')
              | (Blocked, w') => (Blocked, w')
              end
        | None => (Ret (mkResponse 400 (ErrorBody "Command parameter is required" (clock w))), w)
        end
    | Throw _ => (Throw "command is not defined", w)
    | Blocked => (Blocked, w)
    end
  else (Ret (mkResponse 500 (ErrorBody "Terminal not initialized" (clock w))), w).
Proof.
  unfold handleCommandRoute, bind at 1, gets at 1.
  destruct (Js.truthy (mouseTerminalIdRef (globals w))); [|reflexivity].
  cbn [negb]. unfold commandOf, try_catch, bind at 1.
  destruct (String.eqb (req_method req) "POST").
  - unfold bind at 1, getPostData.
    destruct (req_body req) as [fromBody| |]; [|reflexivity|reflexivity].
    unfold ret at 1.
    destruct (if Js.truthy_str fromBody then fromBody else req_query req) as [c|];
      [|reflexivity].
    destruct (String.eqb c EmptyString); [reflexivity|].
    unfold bind at 1.
    destruct (executeRemoteCommand c (mouseTerminalIdRef (globals w)) w) as [[r|e|] w'];
      reflexivity.
  - unfold ret at 1.
    destruct (req_query req) as [c|]; [|reflexivity].
    destruct (String.eqb c EmptyString); [reflexivity|].
    unfold bind at 1.
    destruct (executeRemoteCommand c (mouseTerminalIdRef (globals w)) w) as [[r|e|] w'];
      reflexivity.
Qed.

End Server.

(** X8.  [executeRemoteCommand] never throws: it returns what the dispatch
    returns, and when the dispatch throws it returns exit code 1 with the
    message of the exception in [stderr], an empty [stdout] and no output
    file, and the world is as it was before the call. *)
Theorem executeRemoteCommand_never_throws
    (command : string) (terminalId : option Js.Id) (w : World) :
  ∃ r w', executeRemoteCommand command terminalId w = (Ret r, w')
    ∧ (sendCommandToTerminal terminalId command true true w = (Ret r, w') ∧ exitCode r = 0
       ∨ ∃ error, sendCommandToTerminal terminalId command true true w = (Throw error, w)
                  ∧ r = mkCommandResult EmptyString error 1 None ∧ w' = w
                  ∧ (error = mouseNotFound
                     ∨ error = terminalNotFound (Js.StringOpt terminalId))).
Proof.
  rewrite executeRemoteCommand_eq.
  pose proof (sendCommandToTerminal_not_blocked terminalId command true true w) as Hb.
  pose proof (sendCommandToTerminal_throws terminalId command true true w) as Ht.
  pose proof (sendCommandToTerminal_eq terminalId command true true w) as He.
  destruct (sendCommandToTerminal terminalId command true true w) as [[r|e|] w'];
    cbn [fst] in Hb.
  - do 2 eexists. split; [reflexivity|]. left. split; [reflexivity|].
    destruct (resolveTarget terminalId w) as [id|]; [|discriminate].
    destruct (JsMap.get id (managedTerminals w)); [|discriminate].
    injection He as -> _. reflexivity.
  - destruct (Ht e w' eq_refl) as [-> Hr].
    do 2 eexists. split; [reflexivity|]. right. exists e.
    split; [reflexivity|]. split; [reflexivity|]. split; [reflexivity|].
    unfold resolveTarget in Hr.
    destruct (Js.truthy terminalId).
    + right. apply Hr.
    + left. destruct (findMouse (managedTerminals w)) as [id|] eqn:E; [|exact Hr].
      destruct (Js.truthy (Some (Js.IdStr id))) eqn:Etr; [|exact Hr].
      destruct Hr as [Hr _].
      destruct (JsMap_get_key id (managedTerminals w) (findMouse_key _ _ E)) as [x Hx].
      rewrite Hx in Hr. discriminate.
  - destruct (Hb eq_refl).
Qed.
Section Requests.

Lemma handleRequest_cmd req w :
  String.eqb (req_method req) "OPTIONS" = false →
  req_pathname req = "/cmd" →
  handleRequest req w =
  match handleCommandRoute req w with
  | (Throw error, w') => (Ret (mkResponse 500 (ErrorBody error (clock w'))), w')
  | out => out
  end.
Proof.
  intros Hm Hp. unfold handleRequest. rewrite Hm, Hp. reflexivity.
Qed.

Lemma handleRequest_other req w :
  String.eqb (req_pathname req) "/cmd" = false →
  ∃ resp, handleRequest req w = (Ret resp, w).
Proof.
  intros Hp. unfold handleRequest. rewrite Hp.
  destruct (String.eqb (req_method req) "OPTIONS"); [eexists; reflexivity|].
  destruct (String.eqb (req_pathname req) "/health"); [eexists; reflexivity|].
  destruct (String.eqb (req_pathname req) "/"); eexists; reflexivity.
Qed.

End Requests.

(** X9.  A request to [/cmd] that carries a command is answered with
    status 200 whatever becomes of the command: the body carries the
    result of [executeRemoteCommand].  When the id the server holds is not
    in the registry, nothing is sent and nothing changes, and the answer
    is still 200, with exit code 1 and the message of the exception. *)
Theorem handleRequest_status_200_despite_failure
    (req : Request) (command : string) (w : World) :
  req_method req ≠ "OPTIONS" →
  req_pathname req = "/cmd" →
  Js.truthy (mouseTerminalIdRef (globals w)) = true →
  commandOf req = Ret (Some command) →
  command ≠ EmptyString →
  ∃ r w',
    executeRemoteCommand command (mouseTerminalIdRef (globals w)) w = (Ret r, w')
    ∧ handleRequest req w
      = (Ret (mkResponse 200 (CommandBody command (stdout r) (stderr r) (exitCode r)
                                          (clock w'))), w')
    ∧ (JsMap.get (Js.StringOpt (mouseTerminalIdRef (globals w))) (managedTerminals w) = None →
       w' = w
       ∧ r = failure (terminalNotFound (Js.StringOpt (mouseTerminalIdRef (globals w))))).
Proof.
  intros Hm Hp Href Hc Hne.
  apply String.eqb_neq in Hm. apply String.eqb_neq in Hne.
  rewrite (handleRequest_cmd req w Hm Hp), handleCommandRoute_eq, Href, Hc, Hne.
  rewrite executeRemoteCommand_eq, sendCommandToTerminal_eq.
  unfold resolveTarget. rewrite Href.
  destruct (JsMap.get (Js.StringOpt (mouseTerminalIdRef (globals w))) (managedTerminals w))
    as [info|].
  - do 2 eexists. split; [reflexivity|]. split; [reflexivity|]. discriminate.
  - do 2 eexists. split; [reflexivity|]. split; [reflexivity|]. intros _. split; reflexivity.
Qed.

(** X10.  When reading the body of a [POST] to [/cmd] fails, the answer is
    status 500 with the message of a [ReferenceError], not the error of
    the stream: the [catch] block of [handleCommandRoute] reads [command],
    which is declared inside the [try] block, and the listener reports the
    exception that raises. *)
Theorem handleRequest_body_error_is_masked (req : Request) (error : string) (w : World) :
  req_method req = "POST" →
  req_pathname req = "/cmd" →
  Js.truthy (mouseTerminalIdRef (globals w)) = true →
  req_body req = Throw error →
  handleRequest req w
  = (Ret (mkResponse 500 (ErrorBody "command is not defined" (clock w))), w).
Proof.
  intros Hm Hp Href Hb.
  rewrite (handleRequest_cmd req w); [|rewrite Hm; reflexivity|exact Hp].
  rewrite handleCommandRoute_eq, Href. unfold commandOf. rewrite Hm, Hb. reflexivity.
Qed.

(** ** The commands the extension sends itself *)

Section Validation.

Lemma validateTerminalExists_eq terminalId terminalType w :
  validateTerminalExists terminalId terminalType w =
  if Js.truthy terminalId
  then
    match getByValue terminalId (managedTerminals w) with
    | None => (Throw (instanceMissing terminalType), w)
    | Some info =>
        match probe (ti_terminal info) w with
        | Ret true => (Ret true, w)
        | Ret false => (Throw (notInWindow terminalType), w)
        | Throw e => (Throw e, w)
        | Blocked => (Blocked, w)
        end
    end
  else (Throw (idMissing terminalType), w).
Proof.
  unfold validateTerminalExists.
  destruct (Js.truthy terminalId); [|reflexivity].
  cbn [negb]. unfold bind at 1, gets at 1.
  destruct (getByValue terminalId (managedTerminals w)) as [info|]; [|reflexivity].
  unfold bind. rewrite isTerminalAliveInVSCode_eq.
  destruct (probe (ti_terminal info) w) as [[|]|e|]; reflexivity.
Qed.

Lemma validateTerminalExists_returns terminalId terminalType w b w' :
  validateTerminalExists terminalId terminalType w = (Ret b, w') →
  w' = w ∧ ∃ s info, terminalId = Some (Js.IdStr s)
    ∧ Js.truthy (Some (Js.IdStr s)) = true
    ∧ JsMap.get s (managedTerminals w) = Some info
    ∧ probe (ti_terminal info) w = Ret true.
Proof.
  rewrite validateTerminalExists_eq.
  destruct (Js.truthy terminalId) eqn:Et; [|discriminate].
  destruct terminalId as [[n|s]|]; cbn [getByValue]; [discriminate| |discriminate].
  destruct (JsMap.get s (managedTerminals w)) as [info|] eqn:E; [|discriminate].
  destruct (probe (ti_terminal info) w) as [[|]|e|] eqn:Ea; try discriminate.
  intros Heq. injection Heq as _ <-. split; [reflexivity|].
  exists s, info. repeat split; assumption.
Qed.

End Validation.
Section OwnCommands.

Lemma try_catch_rethrow {A} (m : M A) w :
  try_catch m (fun error => throw error) w = m w.
Proof. unfold try_catch, throw. destruct (m w) as [[a|e|] w']; reflexivity. Qed.

Lemma mapHas_true {V} k (m : list (string * V)) :
  is_Some (JsMap.get k m) → mapHas k m = true.
Proof. intros [x Hx]. unfold mapHas. rewrite Hx. reflexivity. Qed.

Lemma sendCommandToTerminal_known terminalId command clearAfterExecution redirectOutput w info :
  Js.truthy terminalId = true →
  JsMap.get (Js.StringOpt terminalId) (managedTerminals w) = Some info →
  sendCommandToTerminal terminalId command clearAfterExecution redirectOutput w
  = (Ret (resultFor (Js.StringOpt terminalId) command redirectOutput (clock w)),
     dispatched (Js.StringOpt terminalId) info command clearAfterExecution redirectOutput w).
Proof.
  intros Ht Hg. rewrite sendCommandToTerminal_eq. unfold resolveTarget.
  rewrite Ht, Hg. reflexivity.
Qed.

(** The two functions up to the call of [sendCommandToTerminal]. *)
Lemma sendCommandToOwn_eq known terminalType (hide : option Js.Id → M unit)
    command clearAfterExecution redirectOutput w :
  (∀ i v, hide i v = (Ret tt, v)) →
  try_catch
    (do stale <~ gets (needsEnsure known);
     run (if stale : bool then (run ensureTerminalsExist; ret tt) else ret tt);
     do terminalId <~ gets (fun w => known (globals w));
     run validateTerminalExists terminalId terminalType;
     run hide terminalId;
     sendCommandToTerminal terminalId command clearAfterExecution redirectOutput)
    (fun error => throw error) w
  = match (if needsEnsure known w
           then (run ensureTerminalsExist; ret tt) w else (Ret tt, w)) with
    | (Ret _, w1) =>
        match validateTerminalExists (known (globals w1)) terminalType w1 with
        | (Ret _, _) =>
            sendCommandToTerminal (known (globals w1)) command clearAfterExecution
                                  redirectOutput w1
        | (Throw e, v) => (Throw e, v)
        | (Blocked, v) => (Blocked, v)
        end
    | (Throw e, w1) => (Throw e, w1)
    | (Blocked, w1) => (Blocked, w1)
    end.
Proof.
  intros Hhide. rewrite try_catch_rethrow.
  unfold bind at 1, gets at 1. unfold bind at 1.
  destruct (needsEnsure known w).
  - destruct ((run ensureTerminalsExist; ret tt) w) as [[[]|e|] w1]; [|reflexivity|reflexivity].
    unfold bind at 1, gets at 1. unfold bind at 1.
    pose proof (validateTerminalExists_returns (known (globals w1)) terminalType w1) as Hv.
    destruct (validateTerminalExists (known (globals w1)) terminalType w1)
      as [[b|e|] v]; [|reflexivity|reflexivity].
    destruct (Hv b v eq_refl) as [-> _].
    unfold bind at 1. rewrite Hhide. reflexivity.
  - unfold ret at 1.
    unfold bind at 1, gets at 1. unfold bind at 1.
    pose proof (validateTerminalExists_returns (known (globals w)) terminalType w) as Hv.
    destruct (validateTerminalExists (known (globals w)) terminalType w)
      as [[b|e|] v]; [|reflexivity|reflexivity].
    destruct (Hv b v eq_refl) as [-> _].
    unfold bind at 1. rewrite Hhide. reflexivity.
Qed.

Lemma sendCommandToMouseTerminal_eq command clearAfterExecution redirectOutput w :
  sendCommandToMouseTerminal command clearAfterExecution redirectOutput w
  = match (if needsEnsure mouseTerminalId w
           then (run ensureTerminalsExist; ret tt) w else (Ret tt, w)) with
    | (Ret _, w1) =>
        match validateTerminalExists (mouseTerminalId (globals w1)) "Mouse" w1 with
        | (Ret _, _) =>
            sendCommandToTerminal (mouseTerminalId (globals w1)) command clearAfterExecution
                                  redirectOutput w1
        | (Throw e, v) => (Throw e, v)
        | (Blocked, v) => (Blocked, v)
        end
    | (Throw e, w1) => (Throw e, w1)
    | (Blocked, w1) => (Blocked, w1)
    end.
Proof.
  apply (sendCommandToOwn_eq mouseTerminalId "Mouse" ensureMouseTerminalHidden).
  reflexivity.
Qed.

Lemma sendCommandToCatTerminal_eq command clearAfterExecution redirectOutput w :
  sendCommandToCatTerminal command clearAfterExecution redirectOutput w
  = match (if needsEnsure catTerminalId w
           then (run ensureTerminalsExist; ret tt) w else (Ret tt, w)) with
    | (Ret _, w1) =>
        match validateTerminalExists (catTerminalId (globals w1)) "Cat" w1 with
        | (Ret _, _) =>
            sendCommandToTerminal (catTerminalId (globals w1)) command clearAfterExecution
                                  redirectOutput w1
        | (Throw e, v) => (Throw e, v)
        | (Blocked, v) => (Blocked, v)
        end
    | (Throw e, w1) => (Throw e, w1)
    | (Blocked, w1) => (Blocked, w1)
    end.
Proof.
  unfold sendCommandToCatTerminal. rewrite try_catch_rethrow.
  unfold bind at 1, gets at 1. unfold bind at 1.
  destruct (needsEnsure catTerminalId w).
  - destruct ((run ensureTerminalsExist; ret tt) w) as [[[]|e|] w1]; [|reflexivity|reflexivity].
    unfold bind at 1, gets at 1. unfold bind at 1.
    pose proof (validateTerminalExists_returns (catTerminalId (globals w1)) "Cat" w1) as Hv.
    destruct (validateTerminalExists (catTerminalId (globals w1)) "Cat" w1)
      as [[b|e|] v]; [|reflexivity|reflexivity].
    destruct (Hv b v eq_refl) as [-> _]. reflexivity.
  - unfold ret at 1.
    unfold bind at 1, gets at 1. unfold bind at 1.
    pose proof (validateTerminalExists_returns (catTerminalId (globals w)) "Cat" w) as Hv.
    destruct (validateTerminalExists (catTerminalId (globals w)) "Cat" w)
      as [[b|e|] v]; [|reflexivity|reflexivity].
    destruct (Hv b v eq_refl) as [-> _]. reflexivity.
Qed.

End OwnCommands.
(** X12.  [sendCommandToMouseTerminal] returns only when the id of the mouse
    terminal is a string: [validateTerminalExists] looks the id up in the
    registry without converting it, and the keys of the registry are
    strings.  When it returns, the terminal registered under that id was
    alive, and the world is the one the dispatch to it leaves, after
    [ensureTerminalsExist] if that was called first. *)
Theorem sendCommandToMouseTerminal_needs_string_id
    (command : string) (clearAfterExecution redirectOutput : bool)
    (w w' : World) (r : CommandResult) :
  sendCommandToMouseTerminal command clearAfterExecution redirectOutput w = (Ret r, w') →
  ∃ s info w1,
    mouseTerminalId (globals w') = Some (Js.IdStr s)
    ∧ (w1 = w ∨ needsEnsure mouseTerminalId w = true ∧ w1 = (ensureTerminalsExist w).2)
    ∧ JsMap.get s (managedTerminals w1) = Some info
    ∧ isTerminalAliveInVSCode (ti_terminal info) w1 = (Ret true, w1)
    ∧ w' = dispatched s info command clearAfterExecution redirectOutput w1
    ∧ r = resultFor s command redirectOutput (clock w1).
Proof.
  rewrite sendCommandToMouseTerminal_eq.
  assert (∀ w1, match validateTerminalExists (mouseTerminalId (globals w1)) "Mouse" w1 with
                | (Ret _, _) =>
                    sendCommandToTerminal (mouseTerminalId (globals w1)) command
                                          clearAfterExecution redirectOutput w1
                | (Throw e, v) => (Throw e, v)
                | (Blocked, v) => (Blocked, v)
                end = (Ret r, w') →
          ∃ s info, mouseTerminalId (globals w') = Some (Js.IdStr s)
            ∧ JsMap.get s (managedTerminals w1) = Some info
            ∧ isTerminalAliveInVSCode (ti_terminal info) w1 = (Ret true, w1)
            ∧ w' = dispatched s info command clearAfterExecution redirectOutput w1
            ∧ r = resultFor s command redirectOutput (clock w1)) as Hrest.
  { intros w1.
    pose proof (validateTerminalExists_returns (mouseTerminalId (globals w1)) "Mouse" w1) as Hv.
    destruct (validateTerminalExists (mouseTerminalId (globals w1)) "Mouse" w1)
      as [[b|e|] v]; [|discriminate|discriminate].
    destruct (Hv b v eq_refl) as (_ & s & info & Hid & Ht & Hg & Ha).
    rewrite Hid.
    rewrite (sendCommandToTerminal_known (Some (Js.IdStr s)) _ _ _ w1 info Ht Hg).
    cbn [Js.StringOpt Js.String]. intros Heq. injection Heq as <- <-.
    exists s, info.
    destruct (dispatched_fields s info command clearAfterExecution redirectOutput w1)
      as (_ & _ & _ & _ & _ & _ & _ & Hgl & _).
    rewrite Hgl, isTerminalAliveInVSCode_eq, Ha. repeat split; assumption. }
  destruct (needsEnsure mouseTerminalId w) eqn:En.
  - unfold bind at 1.
    destruct (ensureTerminalsExist w) as [[ids|e|] w1] eqn:Ee; [|discriminate|discriminate].
    unfold ret at 1. intros Heq.
    destruct (Hrest w1 Heq) as (s & info & H1 & H2 & H3 & H4 & H5).
    exists s, info, w1. repeat split; try assumption. right. split; reflexivity.
  - intros Heq.
    destruct (Hrest w Heq) as (s & info & H1 & H2 & H3 & H4 & H5).
    exists s, info, w. repeat split; try assumption. left. reflexivity.
Qed.

(** X13.  The ids [createRemoteTerminal] and [createLocalTerminal] return
    are numbers.  Once the terminals are initialised and the two ids are
    such numbers, registered in the registry, [sendCommandToMouseTerminal]
    and [sendCommandToCatTerminal] throw "instance does not exist" and
    change nothing: no command reaches either terminal. *)
Theorem own_commands_reject_numeric_ids
    (command : string) (clearAfterExecution redirectOutput : bool)
    (w : World) (mouse cat : nat) :
  terminalsInitialized (globals w) = true →
  mouseTerminalId (globals w) = Some (Js.IdNum mouse) →
  catTerminalId (globals w) = Some (Js.IdNum cat) →
  mouse ≠ 0 → cat ≠ 0 →
  is_Some (JsMap.get (pretty mouse) (managedTerminals w)) →
  is_Some (JsMap.get (pretty cat) (managedTerminals w)) →
  sendCommandToMouseTerminal command clearAfterExecution redirectOutput w
  = (Throw (instanceMissing "Mouse"), w)
  ∧ sendCommandToCatTerminal command clearAfterExecution redirectOutput w
    = (Throw (instanceMissing "Cat"), w).
Proof.
  intros Hi Hm Hc Hmn Hcn Hrm Hrc.
  rewrite sendCommandToMouseTerminal_eq, sendCommandToCatTerminal_eq.
  unfold needsEnsure. rewrite Hi, Hm, Hc. cbn [Js.truthy Js.StringOpt Js.String negb orb].
  rewrite (mapHas_true _ _ Hrm), (mapHas_true _ _ Hrc).
  apply Nat.eqb_neq in Hmn. apply Nat.eqb_neq in Hcn. rewrite Hmn, Hcn. cbn [negb orb].
  rewrite Hm, Hc, !validateTerminalExists_eq. cbn [Js.truthy getByValue].
  rewrite Hmn, Hcn. split; reflexivity.
Qed.
(** ** The slow path of the reconciliation *)

Section EnsureOne.
Variables (terminalType : string) (known : Globals → option Js.Id)
          (store : option Js.Id → Globals → Globals)
          (create : string → bool → M nat) (created : World → World)
          (failed failedAgain : string).
Hypothesis create_eq : ∀ w,
  create terminalType true w =
  if host_ok (vscode w)
  then (Ret (terminalIdCounter (stateData w)), created w)
  else (Throw hostFailure, counted w).

Lemma ensureOne_create msg w :
  try_catch
    (do created <~ create terminalType true;
     modify (set_globals (store (Some (Js.IdNum created)))))
    (fun error => throw (msg +:+ error)) w
  = if host_ok (vscode w)
    then (Ret tt, set_globals (store (Some (Js.IdNum (terminalIdCounter (stateData w)))))
                              (created w))
    else (Throw (msg +:+ hostFailure), counted w).
Proof.
  unfold try_catch, bind. rewrite create_eq.
  destruct (host_ok (vscode w)); reflexivity.
Qed.

Lemma ensureOne_eq w :
  ensureOne terminalType known store create failed failedAgain w =
  if Js.truthy (known (globals w))
  then
    match JsMap.get (Js.StringOpt (known (globals w))) (managedTerminals w) with
    | Some _ => (Ret tt, w)
    | None =>
        match known (globals w) with
        | Some id =>
            match findExistingTerminalInVSCode terminalType w with
            | Some t => (Ret tt, recovered terminalType id t w)
            | None =>
                if host_ok (vscode w)
                then (Ret tt,
                      set_globals (store (Some (Js.IdNum (terminalIdCounter (stateData w)))))
                                  (created w))
                else (Throw (failedAgain +:+ hostFailure), counted w)
            end
        | None => (Ret tt, w)
        end
    end
  else
    if host_ok (vscode w)
    then (Ret tt,
          set_globals (store (Some (Js.IdNum (terminalIdCounter (stateData w)))))
                      (created w))
    else (Throw (failed +:+ hostFailure), counted w).
Proof.
  unfold ensureOne. unfold bind at 1, gets at 1.
  destruct (Js.truthy (known (globals w))); cbn [negb].
  - unfold bind at 1, gets at 1.
    destruct (JsMap.get (Js.StringOpt (known (globals w))) (managedTerminals w));
      [destruct (known (globals w)); reflexivity|].
    destruct (known (globals w)) as [id|]; [|reflexivity].
    unfold bind at 1. rewrite tryRecoverExistingTerminal_eq.
    destruct (findExistingTerminalInVSCode terminalType w); [reflexivity|].
    apply ensureOne_create.
  - apply ensureOne_create.
Qed.

End EnsureOne.

Section Slow.

Lemma ensureMouse_eq w :
  ensureMouse w =
  if Js.truthy (mouseTerminalId (globals w))
  then
    match JsMap.get (Js.StringOpt (mouseTerminalId (globals w))) (managedTerminals w) with
    | Some _ => (Ret tt, w)
    | None =>
        match mouseTerminalId (globals w) with
        | Some id =>
            match findExistingTerminalInVSCode "mouse" w with
            | Some t => (Ret tt, recovered "mouse" id t w)
            | None =>
                if host_ok (vscode w)
                then (Ret tt,
                      set_globals (with_mouseTerminalId
                                     (Some (Js.IdNum (terminalIdCounter (stateData w)))))
                                  (createdRemote "mouse" true w))
                else (Throw ("Mouse终端重新创建失败: " +:+ hostFailure), counted w)
            end
        | None => (Ret tt, w)
        end
    end
  else
    if host_ok (vscode w)
    then (Ret tt,
          set_globals (with_mouseTerminalId (Some (Js.IdNum (terminalIdCounter (stateData w)))))
                      (createdRemote "mouse" true w))
    else (Throw ("Mouse终端创建失败: " +:+ hostFailure), counted w).
Proof.
  apply (ensureOne_eq "mouse" mouseTerminalId with_mouseTerminalId createRemoteTerminal
                      (createdRemote "mouse" true)).
  intros v. apply createRemoteTerminal_eq.
Qed.

Lemma ensureCat_eq w :
  ensureCat w =
  if Js.truthy (catTerminalId (globals w))
  then
    match JsMap.get (Js.StringOpt (catTerminalId (globals w))) (managedTerminals w) with
    | Some _ => (Ret tt, w)
    | None =>
        match catTerminalId (globals w) with
        | Some id =>
            match findExistingTerminalInVSCode "cat" w with
            | Some t => (Ret tt, recovered "cat" id t w)
            | None =>
                if host_ok (vscode w)
                then (Ret tt,
                      set_globals (with_catTerminalId
                                     (Some (Js.IdNum (terminalIdCounter (stateData w)))))
                                  (createdLocal "cat" true w))
                else (Throw ("Cat终端重新创建失败: " +:+ hostFailure), counted w)
            end
        | None => (Ret tt, w)
        end
    end
  else
    if host_ok (vscode w)
    then (Ret tt,
          set_globals (with_catTerminalId (Some (Js.IdNum (terminalIdCounter (stateData w)))))
                      (createdLocal "cat" true w))
    else (Throw ("Cat终端创建失败: " +:+ hostFailure), counted w).
Proof.
  apply (ensureOne_eq "cat" catTerminalId with_catTerminalId createLocalTerminal
                      (createdLocal "cat" true)).
  intros v. apply createLocalTerminal_eq.
Qed.

(** The slow path as the composition of its parts. *)
Lemma ensureTerminalsExist_slow w :
  terminalCreationInProgress (globals w) = false →
  deepCheck w = false →
  ensureTerminalsExist w =
  match ensureMouse (locked w) with
  | (Ret _, wA) =>
      match ensureCat wA with
      | (Ret _, wB) => (Ret (terminalIds (released (finished wB))), released (finished wB))
      | (Throw e, wB) => (Throw e, released wB)
      | (Blocked, wB) => (Blocked, wB)
      end
  | (Throw e, wA) => (Throw e, released wA)
  | (Blocked, wA) => (Blocked, wA)
  end.
Proof.
  intros Hlock Hdeep.
  unfold ensureTerminalsExist. unfold bind at 1, gets at 1. rewrite Hlock.
  unfold bind at 1, gets at 1. rewrite Hdeep.
  unfold bind at 1, modify at 1.
  unfold try_finally, try_catch. unfold bind at 1.
  change (ensureOne "mouse" mouseTerminalId with_mouseTerminalId createRemoteTerminal
                    "Mouse终端创建失败: " "Mouse终端重新创建失败: ") with ensureMouse.
  change (set_globals (with_terminalCreationInProgress true) w) with (locked w).
  destruct (ensureMouse (locked w)) as [[[]|e|] wA]; [|reflexivity|reflexivity].
  unfold bind at 1.
  change (ensureOne "cat" catTerminalId with_catTerminalId createLocalTerminal
                    "Cat终端创建失败: " "Cat终端重新创建失败: ") with ensureCat.
  destruct (ensureCat wA) as [[[]|e|] wB]; [|reflexivity|reflexivity].
  unfold bind at 1, gets at 1. unfold finished.
  destruct (JsMap.get (Js.StringOpt (catTerminalId (globals wB))) (managedTerminals wB));
    reflexivity.
Qed.

Lemma ensureTerminalsExist_fast w :
  terminalCreationInProgress (globals w) = false →
  deepCheck w = true →
  ensureTerminalsExist w = (Ret (terminalIds w), w).
Proof.
  intros Hlock Hdeep.
  unfold ensureTerminalsExist. unfold bind at 1, gets at 1. rewrite Hlock.
  unfold bind at 1, gets at 1. rewrite Hdeep. reflexivity.
Qed.

End Slow.
Section Frames.

Lemma partFrame_refl w : partFrame w w.
Proof. unfold partFrame. repeat split; reflexivity. Qed.

Lemma partFrame_counted w : partFrame w (counted w).
Proof.
  destruct (counted_fields w) as (_ & Hv & _ & Hg & Hc & _).
  pose proof (increment_le (terminalIdCounter (stateData w))).
  unfold partFrame. rewrite Hv, Hg, Hc. repeat split; lia.
Qed.

Lemma partFrame_recovered terminalType id t w : partFrame w (recovered terminalType id t w).
Proof.
  destruct (recovered_fields terminalType id t w) as (Hg & Hc & _ & Hv & _).
  unfold partFrame. rewrite Hv, Hg, Hc. repeat split; lia.
Qed.

Lemma partFrame_createdRemote i w :
  partFrame w (set_globals (with_mouseTerminalId i) (createdRemote "mouse" true w)).
Proof.
  destruct (createdRemote_fields "mouse" true w)
    as (Hg & Hc & _ & _ & _ & Hs & Hh & _).
  destruct (set_globals_fields (with_mouseTerminalId i) (createdRemote "mouse" true w))
    as (Sg & Ss & _ & Sv & _).
  pose proof (increment_le (terminalIdCounter (stateData w))).
  unfold partFrame. rewrite Sg, Ss, Sv, Hg, Hc, Hs, Hh. repeat split; lia.
Qed.

Lemma partFrame_createdLocal i w :
  partFrame w (set_globals (with_catTerminalId i) (createdLocal "cat" true w)).
Proof.
  destruct (createdLocal_fields "cat" true w)
    as (Hg & Hc & _ & _ & _ & Hs & Hh & _).
  destruct (set_globals_fields (with_catTerminalId i) (createdLocal "cat" true w))
    as (Sg & Ss & _ & Sv & _).
  pose proof (increment_le (terminalIdCounter (stateData w))).
  unfold partFrame. rewrite Sg, Ss, Sv, Hg, Hc, Hs, Hh. repeat split; lia.
Qed.

Lemma ensureMouse_frame w :
  ∃ o w1, ensureMouse w = (o, w1) ∧ partFrame w w1
    ∧ (o = Ret tt ∨ host_ok (vscode w) = false ∧ ∃ e, o = Throw e).
Proof.
  rewrite ensureMouse_eq.
  destruct (Js.truthy (mouseTerminalId (globals w))).
  - destruct (JsMap.get _ (managedTerminals w)).
    { do 2 eexists. split; [reflexivity|]. split; [apply partFrame_refl|left; reflexivity]. }
    destruct (mouseTerminalId (globals w)) as [id|].
    2:{ do 2 eexists. split; [reflexivity|]. split; [apply partFrame_refl|left; reflexivity]. }
    destruct (findExistingTerminalInVSCode "mouse" w).
    { do 2 eexists. split; [reflexivity|].
      split; [apply partFrame_recovered|left; reflexivity]. }
    destruct (host_ok (vscode w)) eqn:Hh.
    + do 2 eexists. split; [reflexivity|].
      split; [apply partFrame_createdRemote|left; reflexivity].
    + do 2 eexists. split; [reflexivity|].
      split; [apply partFrame_counted|right; split; [reflexivity|eexists; reflexivity]].
  - destruct (host_ok (vscode w)) eqn:Hh.
    + do 2 eexists. split; [reflexivity|].
      split; [apply partFrame_createdRemote|left; reflexivity].
    + do 2 eexists. split; [reflexivity|].
      split; [apply partFrame_counted|right; split; [reflexivity|eexists; reflexivity]].
Qed.

Lemma ensureCat_frame w :
  ∃ o w1, ensureCat w = (o, w1) ∧ partFrame w w1
    ∧ (o = Ret tt ∨ host_ok (vscode w) = false ∧ ∃ e, o = Throw e).
Proof.
  rewrite ensureCat_eq.
  destruct (Js.truthy (catTerminalId (globals w))).
  - destruct (JsMap.get _ (managedTerminals w)).
    { do 2 eexists. split; [reflexivity|]. split; [apply partFrame_refl|left; reflexivity]. }
    destruct (catTerminalId (globals w)) as [id|].
    2:{ do 2 eexists. split; [reflexivity|]. split; [apply partFrame_refl|left; reflexivity]. }
    destruct (findExistingTerminalInVSCode "cat" w).
    { do 2 eexists. split; [reflexivity|].
      split; [apply partFrame_recovered|left; reflexivity]. }
    destruct (host_ok (vscode w)) eqn:Hh.
    + do 2 eexists. split; [reflexivity|].
      split; [apply partFrame_createdLocal|left; reflexivity].
    + do 2 eexists. split; [reflexivity|].
      split; [apply partFrame_counted|right; split; [reflexivity|eexists; reflexivity]].
  - destruct (host_ok (vscode w)) eqn:Hh.
    + do 2 eexists. split; [reflexivity|].
      split; [apply partFrame_createdLocal|left; reflexivity].
    + do 2 eexists. split; [reflexivity|].
      split; [apply partFrame_counted|right; split; [reflexivity|eexists; reflexivity]].
Qed.

Lemma finished_fields w :
  stateData (finished w) = stateData w
  ∧ managedTerminals (finished w) = managedTerminals w
  ∧ window_terminals (vscode (finished w)) = window_terminals (vscode w)
  ∧ next_ref (vscode (finished w)) = next_ref (vscode w)
  ∧ host_ok (vscode (finished w)) = host_ok (vscode w)
  ∧ shell_name (vscode (finished w)) = shell_name (vscode w)
  ∧ sentText (vscode (finished w)) = sentText (vscode w)
  ∧ shown (vscode (finished w)) =
      match JsMap.get (Js.StringOpt (catTerminalId (globals w))) (managedTerminals w) with
      | Some catTerminalInfo => ti_terminal catTerminalInfo :: shown (vscode w)
      | None => shown (vscode w)
      end
  ∧ globals (finished w) =
      with_terminalsInitialized true
        (with_mouseTerminalIdRef (mouseTerminalId (globals w)) (globals w))
  ∧ stateFile (finished w) = stateFile w
  ∧ commandLog (finished w) = commandLog w
  ∧ clock (finished w) = clock w.
Proof.
  unfold finished.
  destruct (JsMap.get (Js.StringOpt (catTerminalId (globals w))) (managedTerminals w));
    repeat split.
Qed.

End Frames.
(** X14.  A call of [ensureTerminalsExist] that finds the creation lock
    taken waits; a call that finds it free is never left waiting, releases
    the lock on every way out, and throws only when the host fails to
    create a terminal: with a host that creates terminals it returns the
    ids it holds and has marked the terminals initialised.  The counter
    never goes down. *)
Theorem ensureTerminalsExist_releases_lock (w : World) :
  (terminalCreationInProgress (globals w) = true →
   ensureTerminalsExist w = (Blocked, w))
  ∧ (terminalCreationInProgress (globals w) = false →
     ∃ o w', ensureTerminalsExist w = (o, w')
       ∧ terminalCreationInProgress (globals w') = false
       ∧ (terminalIdCounter (stateData w) ≤ terminalIdCounter (stateData w'))%nat
       ∧ ((∃ e, o = Throw e ∧ host_ok (vscode w) = false
                ∧ terminalsInitialized (globals w') = terminalsInitialized (globals w))
          ∨ (o = Ret (terminalIds w') ∧ terminalsInitialized (globals w') = true))).
Proof.
  split.
  - intros Hlock. unfold ensureTerminalsExist, bind at 1, gets at 1. rewrite Hlock. reflexivity.
  - intros Hlock. destruct (deepCheck w) eqn:Hdeep.
    + rewrite (ensureTerminalsExist_fast w Hlock Hdeep).
      do 2 eexists. split; [reflexivity|]. split; [exact Hlock|]. split; [lia|].
      right. split; [reflexivity|]. apply (deepCheck_true w Hdeep).
    + rewrite (ensureTerminalsExist_slow w Hlock Hdeep).
      destruct (ensureMouse_frame (locked w))
        as (o1 & wA & -> & (Ah & _ & _ & Ai & _ & _ & Ac) & Ao).
      destruct (set_globals_fields (with_terminalCreationInProgress true) w)
        as (Lg & Ls & _ & Lv & _).
      change (host_ok (vscode wA) = host_ok (vscode w)) in Ah.
      change (terminalsInitialized (globals wA) = terminalsInitialized (globals w)) in Ai.
      change (terminalIdCounter (stateData w) ≤ terminalIdCounter (stateData wA))%nat in Ac.
      change (host_ok (vscode (locked w))) with (host_ok (vscode w)) in Ao.
      destruct Ao as [->|[Hh [e ->]]].
      2:{ destruct (set_globals_fields (with_terminalCreationInProgress false) wA)
            as (Rg & Rs & _).
          do 2 eexists. split; [reflexivity|].
          unfold released. rewrite Rg, Rs.
          split; [reflexivity|]. split; [exact Ac|].
          left. exists e. split; [reflexivity|]. split; [exact Hh|exact Ai]. }
      destruct (ensureCat_frame wA)
        as (o2 & wB & -> & (Bh & _ & _ & Bi & _ & _ & Bc) & Bo).
      destruct Bo as [->|[Hh [e ->]]].
      2:{ destruct (set_globals_fields (with_terminalCreationInProgress false) wB)
            as (Rg & Rs & _).
          do 2 eexists. split; [reflexivity|].
          unfold released. rewrite Rg, Rs.
          split; [reflexivity|]. split; [lia|].
          left. exists e. split; [reflexivity|].
          split; [rewrite <- Ah; exact Hh|rewrite <- Ai; exact Bi]. }
      destruct (finished_fields wB) as (Fs & _ & _ & _ & _ & _ & _ & _ & Fg & _).
      destruct (set_globals_fields (with_terminalCreationInProgress false) (finished wB))
        as (Rg & Rs & _).
      do 2 eexists. split; [reflexivity|].
      unfold released. rewrite Rg, Rs, Fs, Fg.
      split; [reflexivity|]. split; [lia|].
      right. split; reflexivity.
Qed.

(** X15.  When the host cannot create a terminal and no mouse terminal id
    is held, [ensureTerminalsExist] throws the creation error of the mouse
    terminal.  The attempt has consumed one id, the counter having been
    incremented, and changed nothing else: the ids held, the flags, the
    registry, the table and the window are as before, so every retry
    against a failing host increments the counter again. *)
Theorem ensureTerminalsExist_failure_consumes_id (w : World) :
  terminalCreationInProgress (globals w) = false →
  Js.truthy (mouseTerminalId (globals w)) = false →
  host_ok (vscode w) = false →
  ∃ w', ensureTerminalsExist w = (Throw ("Mouse终端创建失败: " +:+ hostFailure), w')
    ∧ terminalIdCounter (stateData w') = Js.increment (terminalIdCounter (stateData w))
    ∧ globals w' = globals w
    ∧ managedTerminals w' = managedTerminals w
    ∧ terminals (stateData w') = terminals (stateData w)
    ∧ vscode w' = vscode w.
Proof.
  intros Hlock Hm Hh.
  assert (deepCheck w = false) as Hdeep.
  { unfold deepCheck. rewrite Hm.
    destruct (terminalsInitialized (globals w)); reflexivity. }
  rewrite (ensureTerminalsExist_slow w Hlock Hdeep), ensureMouse_eq.
  destruct (set_globals_fields (with_terminalCreationInProgress true) w)
    as (Lg & Ls & Lm & Lv & _).
  change (Js.truthy (mouseTerminalId (globals (locked w))) = false) in Hm.
  change (host_ok (vscode (locked w)) = false) in Hh.
  rewrite Hm, Hh.
  eexists. split; [reflexivity|].
  destruct (set_globals_fields (with_terminalCreationInProgress false) (counted (locked w)))
    as (Rg & Rs & Rm & Rv & _).
  destruct (counted_fields (locked w)) as (_ & Cv & Cm & Cg & Cc & Ct & _).
  unfold released. rewrite Rg, Rs, Rm, Rv, Cv, Cm, Cg, Cc, Ct.
  unfold locked. rewrite Lg, Ls, Lm, Lv.
  split; [reflexivity|]. split; [|repeat split].
  destruct (globals w) as [a b c d e f]. cbn in Hlock. subst d. reflexivity.
Qed.
Section Start.


Lemma noneAdoptable_find terminalType w :
  noneAdoptable w → findExistingTerminalInVSCode terminalType w = None.
Proof.
  intros [Hnames _]. apply find_all_false.
  intros t Ht. destruct (Hnames t Ht) as [Hm Hc]. unfold matchesType.
  rewrite Hm, Hc, !andb_false_r. destruct (t_readable t); reflexivity.
Qed.

Lemma mouse_created_fields w :
  ∃ wA,
    wA = set_globals
           (with_mouseTerminalId (Some (Js.IdNum (terminalIdCounter (stateData w)))))
           (createdRemote "mouse" true w)
    ∧ globals wA
      = with_mouseTerminalId (Some (Js.IdNum (terminalIdCounter (stateData w)))) (globals w)
    ∧ terminalIdCounter (stateData wA) = Js.increment (terminalIdCounter (stateData w))
    ∧ (∃ now name,
         managedTerminals wA =
         JsMap.set (pretty (terminalIdCounter (stateData w)))
                   (registryInfo (next_ref (vscode w)) "mouse" now name)
                   (managedTerminals w)
         ∧ terminals (stateData wA) =
           <[pretty (terminalIdCounter (stateData w)) :=
               mkDescriptor (pretty (terminalIdCounter (stateData w))) "mouse" now now now name]>
             (terminals (stateData w)))
    ∧ window_terminals (vscode wA) =
        window_terminals (vscode w)
        ++ [mkVSTerminal (next_ref (vscode w)) (shell_name (vscode w)) true]
    ∧ next_ref (vscode wA) = S (next_ref (vscode w))
    ∧ shell_name (vscode wA) = shell_name (vscode w)
    ∧ host_ok (vscode wA) = host_ok (vscode w)
    ∧ shown (vscode wA) = shown (vscode w).
Proof.
  eexists. split; [reflexivity|].
  destruct (createdRemote_fields "mouse" true w)
    as (Hg & Hc & Hm & Hw & Hn & Hsn & Hh & Hs & _).
  destruct (set_globals_fields
              (with_mouseTerminalId (Some (Js.IdNum (terminalIdCounter (stateData w)))))
              (createdRemote "mouse" true w)) as (-> & -> & -> & -> & _).
  rewrite Hg, Hc, Hw, Hn, Hsn, Hh, Hs. repeat split; try reflexivity. exact Hm.
Qed.

Lemma cat_created_fields w :
  ∃ wB,
    wB = set_globals
           (with_catTerminalId (Some (Js.IdNum (terminalIdCounter (stateData w)))))
           (createdLocal "cat" true w)
    ∧ globals wB
      = with_catTerminalId (Some (Js.IdNum (terminalIdCounter (stateData w)))) (globals w)
    ∧ terminalIdCounter (stateData wB) = Js.increment (terminalIdCounter (stateData w))
    ∧ (∃ now name,
         managedTerminals wB =
         JsMap.set (pretty (terminalIdCounter (stateData w)))
                   (registryInfo (next_ref (vscode w)) "cat" now name)
                   (managedTerminals w)
         ∧ terminals (stateData wB) =
           <[pretty (terminalIdCounter (stateData w)) :=
               mkDescriptor (pretty (terminalIdCounter (stateData w))) "cat" now now now name]>
             (terminals (stateData w)))
    ∧ window_terminals (vscode wB) =
        window_terminals (vscode w)
        ++ [mkVSTerminal (next_ref (vscode w)) (shell_name (vscode w)) true]
    ∧ next_ref (vscode wB) = S (next_ref (vscode w))
    ∧ shell_name (vscode wB) = shell_name (vscode w)
    ∧ host_ok (vscode wB) = host_ok (vscode w)
    ∧ shown (vscode wB) = next_ref (vscode w) :: shown (vscode w).
Proof.
  eexists. split; [reflexivity|].
  destruct (createdLocal_fields "cat" true w)
    as (Hg & Hc & Hm & Hw & Hn & Hsn & Hh & Hs & _).
  destruct (set_globals_fields
              (with_catTerminalId (Some (Js.IdNum (terminalIdCounter (stateData w)))))
              (createdLocal "cat" true w)) as (-> & -> & -> & -> & _).
  rewrite Hg, Hc, Hw, Hn, Hsn, Hh, Hs. repeat split; try reflexivity. exact Hm.
Qed.

Lemma noneAdoptable_grown w w' :
  noneAdoptable w →
  window_terminals (vscode w') =
    window_terminals (vscode w)
    ++ [mkVSTerminal (next_ref (vscode w)) (shell_name (vscode w)) true] →
  shell_name (vscode w') = shell_name (vscode w) →
  noneAdoptable w'.
Proof.
  intros (Hn & Hm & Hc) Hw Hs. unfold noneAdoptable. rewrite Hw, Hs.
  split; [|split; assumption].
  intros t Ht. apply elem_of_app in Ht as [Ht|Ht]; [apply Hn, Ht|].
  apply list_elem_of_singleton in Ht as ->. cbn [t_name]. split; assumption.
Qed.

Lemma ensureMouse_creates w :
  JsMap.get (Js.StringOpt (mouseTerminalId (globals w))) (managedTerminals w) = None →
  noneAdoptable w →
  host_ok (vscode w) = true →
  ensureMouse w
  = (Ret tt,
     set_globals (with_mouseTerminalId (Some (Js.IdNum (terminalIdCounter (stateData w)))))
                 (createdRemote "mouse" true w)).
Proof.
  intros Hg Hn Hh. rewrite ensureMouse_eq, Hg, Hh, (noneAdoptable_find "mouse" w Hn).
  destruct (Js.truthy (mouseTerminalId (globals w))) eqn:Et; [|reflexivity].
  destruct (mouseTerminalId (globals w)); [reflexivity|discriminate].
Qed.

Lemma ensureCat_creates w :
  Js.truthy (catTerminalId (globals w)) = false
  ∨ JsMap.get (Js.StringOpt (catTerminalId (globals w))) (managedTerminals w) = None →
  noneAdoptable w →
  host_ok (vscode w) = true →
  ensureCat w
  = (Ret tt,
     set_globals (with_catTerminalId (Some (Js.IdNum (terminalIdCounter (stateData w)))))
                 (createdLocal "cat" true w)).
Proof.
  intros Hg Hn Hh. rewrite ensureCat_eq, Hh, (noneAdoptable_find "cat" w Hn).
  destruct (Js.truthy (catTerminalId (globals w))) eqn:Et; [|reflexivity].
  destruct Hg as [Hg|Hg]; [discriminate|]. rewrite Hg.
  destruct (catTerminalId (globals w)); [reflexivity|discriminate].
Qed.

End Start.
Section AtStart.

(** The first part of a start: the mouse terminal is created under the
    next id. *)
Lemma mouse_at_start w :
  managedTerminals w = [] →
  host_ok (vscode w) = true →
  noneAdoptable w →
  ∃ wA nowA nameA,
    ensureMouse (locked w) = (Ret tt, wA)
    ∧ globals wA
      = with_mouseTerminalId (Some (Js.IdNum (terminalIdCounter (stateData w))))
          (with_terminalCreationInProgress true (globals w))
    ∧ terminalIdCounter (stateData wA) = Js.increment (terminalIdCounter (stateData w))
    ∧ managedTerminals wA
      = [(pretty (terminalIdCounter (stateData w)),
          registryInfo (next_ref (vscode w)) "mouse" nowA nameA)]
    ∧ terminals (stateData wA)
      = <[pretty (terminalIdCounter (stateData w)) :=
            mkDescriptor (pretty (terminalIdCounter (stateData w))) "mouse" nowA nowA nowA nameA]>
          (terminals (stateData w))
    ∧ window_terminals (vscode wA)
      = window_terminals (vscode w)
        ++ [mkVSTerminal (next_ref (vscode w)) (shell_name (vscode w)) true]
    ∧ next_ref (vscode wA) = S (next_ref (vscode w))
    ∧ shell_name (vscode wA) = shell_name (vscode w)
    ∧ host_ok (vscode wA) = true
    ∧ shown (vscode wA) = shown (vscode w)
    ∧ noneAdoptable wA.
Proof.
  intros Hreg Hh Hn.
  rewrite (ensureMouse_creates (locked w)).
  2:{ change (managedTerminals (locked w)) with (managedTerminals w). rewrite Hreg. reflexivity. }
  2:{ exact Hn. }
  2:{ exact Hh. }
  destruct (mouse_created_fields (locked w))
    as (wA & EA & AG & AC & (nowA & nameA & AM & AT) & AW & AN & AS & AH & ASh).
  rewrite <- EA. clear EA.
  change (terminalIdCounter (stateData (locked w))) with (terminalIdCounter (stateData w))
    in AG, AC, AM, AT.
  change (globals (locked w)) with (with_terminalCreationInProgress true (globals w)) in AG.
  change (managedTerminals (locked w)) with (managedTerminals w) in AM.
  change (terminals (stateData (locked w))) with (terminals (stateData w)) in AT.
  change (vscode (locked w)) with (vscode w) in AM, AW, AN, AS, AH, ASh.
  rewrite Hreg in AM. cbn [JsMap.set] in AM.
  exists wA, nowA, nameA.
  split; [reflexivity|]. split; [exact AG|]. split; [exact AC|]. split; [exact AM|].
  split; [exact AT|]. split; [exact AW|]. split; [exact AN|]. split; [exact AS|].
  split; [by rewrite AH|]. split; [exact ASh|].
  apply (noneAdoptable_grown w wA Hn AW AS).
Qed.

Lemma deepCheck_empty w : managedTerminals w = [] → deepCheck w = false.
Proof.
  intros Hreg. unfold deepCheck. rewrite Hreg. cbn [JsMap.get].
  destruct (_ && _ && _); reflexivity.
Qed.


(** A start with a restored cat id that is the string of the next id: the
    new mouse terminal is found under that id and taken for the cat
    terminal. *)
Lemma ensure_at_start_taken w :
  managedTerminals w = [] →
  terminalCreationInProgress (globals w) = false →
  host_ok (vscode w) = true →
  noneAdoptable w →
  Js.truthy (catTerminalId (globals w))
  && String.eqb (Js.StringOpt (catTerminalId (globals w)))
                (pretty (terminalIdCounter (stateData w))) = true →
  ∃ w' mouse dm,
    ensureTerminalsExist w
    = (Ret (Some (Js.IdNum (terminalIdCounter (stateData w))), catTerminalId (globals w)), w')
    ∧ managedTerminals w' = [(pretty (terminalIdCounter (stateData w)), mouse)]
    ∧ ti_type mouse = "mouse" ∧ ti_terminal mouse = next_ref (vscode w)
    ∧ window_terminals (vscode w')
      = window_terminals (vscode w)
        ++ [mkVSTerminal (next_ref (vscode w)) (shell_name (vscode w)) true]
    ∧ shown (vscode w') = next_ref (vscode w) :: shown (vscode w)
    ∧ terminalIdCounter (stateData w') = Js.increment (terminalIdCounter (stateData w))
    ∧ terminals (stateData w')
      = <[pretty (terminalIdCounter (stateData w)) := dm]> (terminals (stateData w))
    ∧ d_type dm = "mouse"
    ∧ globals w'
      = mkGlobals (Some (Js.IdNum (terminalIdCounter (stateData w))))
                  (catTerminalId (globals w))
                  true false (shouldMaintainTerminals (globals w))
                  (Some (Js.IdNum (terminalIdCounter (stateData w)))).
Proof.
  intros Hreg Hlock Hh Hn Hcat.
  apply andb_true_iff in Hcat as [Ht Hstr]. apply String.eqb_eq in Hstr.
  rewrite (ensureTerminalsExist_slow w Hlock (deepCheck_empty w Hreg)).
  destruct (mouse_at_start w Hreg Hh Hn)
    as (wA & nowA & nameA & -> & AG & AC & AM & AT & AW & AN & AS & AH & ASh & HnA).
  assert (HcatA : catTerminalId (globals wA) = catTerminalId (globals w)).
  { rewrite AG. reflexivity. }
  assert (HgetA : JsMap.get (Js.StringOpt (catTerminalId (globals w))) (managedTerminals wA)
                  = Some (registryInfo (next_ref (vscode w)) "mouse" nowA nameA)).
  { rewrite Hstr, AM. cbn [JsMap.get]. by rewrite String.eqb_refl. }
  rewrite ensureCat_eq, HcatA, Ht, HgetA.
  destruct (finished_fields wA)
    as (Fs & Fm & Fw & _ & _ & _ & _ & Fsh & Fg & _).
  rewrite HcatA, HgetA in Fsh. cbn [ti_terminal registryInfo] in Fsh. rewrite ASh in Fsh.
  rewrite AG in Fg.
  cbn [catTerminalId with_catTerminalId mouseTerminalId with_mouseTerminalId
       with_terminalCreationInProgress
       with_mouseTerminalIdRef with_terminalsInitialized
       terminalsInitialized terminalCreationInProgress shouldMaintainTerminals
       mouseTerminalIdRef] in Fg.
  destruct (set_globals_fields (with_terminalCreationInProgress false) (finished wA))
    as (Rg & Rs & Rm & Rv & _).
  exists (released (finished wA)).
  exists (registryInfo (next_ref (vscode w)) "mouse" nowA nameA).
  eexists.
  unfold terminalIds, released. rewrite Rg, Rs, Rm, Rv, Fs, Fm, Fw, Fsh, Fg, AM, AW, AC, AT.
  cbn [mouseTerminalId catTerminalId with_terminalCreationInProgress
       ti_type ti_terminal registryInfo].
  repeat split; reflexivity.
Qed.

(** Whatever the restored ids are, the start returns, and the mouse
    terminal has the id the counter held. *)
Lemma ensure_at_start_mouse w :
  managedTerminals w = [] →
  terminalCreationInProgress (globals w) = false →
  host_ok (vscode w) = true →
  noneAdoptable w →
  ∃ ids w', ensureTerminalsExist w = (Ret ids, w')
    ∧ mouseTerminalId (globals w') = Some (Js.IdNum (terminalIdCounter (stateData w))).
Proof.
  intros Hreg Hlock Hh Hn.
  destruct (Js.truthy (catTerminalId (globals w))
            && String.eqb (Js.StringOpt (catTerminalId (globals w)))
                          (pretty (terminalIdCounter (stateData w)))) eqn:Hcat.
  - destruct (ensure_at_start_taken w Hreg Hlock Hh Hn Hcat)
      as (w' & mouse & dm & E & _ & _ & _ & _ & _ & _ & _ & _ & Hg).
    eexists _, w'. split; [exact E|]. by rewrite Hg.
  - rewrite (ensureTerminalsExist_slow w Hlock (deepCheck_empty w Hreg)).
    destruct (mouse_at_start w Hreg Hh Hn)
      as (wA & nowA & nameA & -> & AG & AC & AM & AT & AW & AN & AS & AH & ASh & HnA).
    rewrite (ensureCat_creates wA).
    2:{ rewrite AG, AM. cbn [catTerminalId with_mouseTerminalId
                              with_terminalCreationInProgress JsMap.get].
        apply andb_false_iff in Hcat as [Hcat|Hcat]; [by left|right]. by rewrite Hcat. }
    2:{ exact HnA. }
    2:{ exact AH. }
    destruct (cat_created_fields wA) as (wB & EB & BG & _).
    rewrite <- EB. clear EB. rewrite AG in BG.
    destruct (finished_fields wB) as (_ & _ & _ & _ & _ & _ & _ & _ & Fg & _).
    rewrite BG in Fg.
    destruct (set_globals_fields (with_terminalCreationInProgress false) (finished wB))
      as (Rg & _).
    eexists _, _. split; [reflexivity|].
    unfold released. rewrite Rg, Fg. reflexivity.
Qed.

End AtStart.

(** X17.  After such a start the extension cannot send a command to its
    own mouse terminal: [sendCommandToMouseTerminal] first creates the
    mouse terminal and then throws "instance does not exist", because the
    id it holds is the number [createRemoteTerminal] returned. *)
Theorem sendCommandToMouseTerminal_fails_after_start
    (command : string) (clearAfterExecution redirectOutput : bool) (w : World) :
  managedTerminals w = [] →
  terminalCreationInProgress (globals w) = false →
  host_ok (vscode w) = true →
  noneAdoptable w →
  terminalIdCounter (stateData w) ≠ 0 →
  ∃ ids w', ensureTerminalsExist w = (Ret ids, w')
    ∧ sendCommandToMouseTerminal command clearAfterExecution redirectOutput w
      = (Throw (instanceMissing "Mouse"), w').
Proof.
  intros Hreg Hlock Hh Hn Hc.
  destruct (ensure_at_start_mouse w Hreg Hlock Hh Hn) as (ids & w' & E & Hg).
  exists ids, w'.
  split; [exact E|].
  rewrite sendCommandToMouseTerminal_eq.
  assert (needsEnsure mouseTerminalId w = true) as ->.
  { unfold needsEnsure, mapHas. rewrite Hreg. cbn [JsMap.get negb]. apply orb_true_r. }
  unfold bind at 1. rewrite E. unfold ret at 1.
  rewrite validateTerminalExists_eq, Hg.
  cbn [mouseTerminalId Js.truthy getByValue].
  apply Nat.eqb_neq in Hc. rewrite Hc. reflexivity.
Qed.
(** ** The health check, whatever the state of the terminals *)

Section CheckOne.
Variables (terminalType : string) (known : Globals → option Js.Id)
          (store : option Js.Id → Globals → Globals)
          (create : string → bool → M nat) (created : World → World)
          (after : M unit) (settled : World → World).
Hypothesis create_eq : ∀ w,
  create terminalType true w =
  if host_ok (vscode w)
  then (Ret (terminalIdCounter (stateData w)), created w)
  else (Throw hostFailure, counted w).
Hypothesis after_eq : ∀ w, after w = (Ret tt, settled w).

Lemma healthy_eq (held : Globals → option Js.Id) w :
  healthy held w
  = match Js.truthy (held (globals w)),
          JsMap.get (Js.StringOpt (held (globals w))) (managedTerminals w) with
    | true, Some terminalInfo => probe (ti_terminal terminalInfo) w
    | _, _ => Ret false
    end.
Proof.
  unfold healthy. destruct (Js.truthy _); [|reflexivity].
  destruct (JsMap.get _ _); [|reflexivity].
  by rewrite isTerminalAliveInVSCode_eq.
Qed.

Lemma healthy_returns (held : Globals → option Js.Id) w : healthy held w ≠ Blocked.
Proof.
  rewrite healthy_eq. destruct (Js.truthy _); [|discriminate].
  destruct (JsMap.get _ _); [|discriminate]. apply probe_returns.
Qed.

Lemma checkOne_eq w :
  checkOne terminalType known store create after w =
  match healthy known w with
  | Ret true => (Ret tt, w)
  | Ret false =>
      if host_ok (vscode w)
      then (Ret tt,
            settled (set_globals (store (Some (Js.IdNum (terminalIdCounter (stateData w)))))
                                 (created w)))
      else (Throw hostFailure, counted w)
  | Throw e => (Throw e, w)
  | Blocked => (Blocked, w)
  end.
Proof.
  assert ((do created <~ create terminalType true;
           run modify (set_globals (store (Some (Js.IdNum created))));
           after) w
          = if host_ok (vscode w)
            then (Ret tt,
                  settled (set_globals
                             (store (Some (Js.IdNum (terminalIdCounter (stateData w)))))
                             (created w)))
            else (Throw hostFailure, counted w)) as Hre.
  { unfold bind at 1. rewrite create_eq.
    destruct (host_ok (vscode w)); [|reflexivity].
    unfold bind, modify. apply after_eq. }
  rewrite healthy_eq.
  unfold checkOne. unfold bind at 1, gets at 1. unfold bind at 1, gets at 1.
  destruct (Js.truthy (known (globals w))); [|exact Hre].
  destruct (JsMap.get (Js.StringOpt (known (globals w))) (managedTerminals w)) as [info|];
    [|exact Hre].
  unfold bind at 1. rewrite isTerminalAliveInVSCode_eq.
  destruct (probe (ti_terminal info) w) as [[]|e|]; [reflexivity|exact Hre|reflexivity..].
Qed.

End CheckOne.

Section Tick.

Lemma checkMouse_eq w :
  checkMouse w =
  match healthy mouseTerminalId w with
  | Ret true => (Ret tt, w)
  | Ret false =>
      if host_ok (vscode w)
      then (Ret tt,
            (setTerminalReferences
               (set_globals
                  (with_mouseTerminalId (Some (Js.IdNum (terminalIdCounter (stateData w)))))
                  (createdRemote "mouse" true w))).2)
      else (Throw hostFailure, counted w)
  | Throw e => (Throw e, w)
  | Blocked => (Blocked, w)
  end.
Proof.
  apply (checkOne_eq "mouse" mouseTerminalId with_mouseTerminalId createRemoteTerminal
                     (createdRemote "mouse" true) setTerminalReferences
                     (fun v => (setTerminalReferences v).2)).
  - intros v. apply createRemoteTerminal_eq.
  - intros v. reflexivity.
Qed.

Lemma checkCat_eq w :
  checkCat w =
  match healthy catTerminalId w with
  | Ret true => (Ret tt, w)
  | Ret false =>
      if host_ok (vscode w)
      then (Ret tt,
            set_globals (with_catTerminalId (Some (Js.IdNum (terminalIdCounter (stateData w)))))
                        (createdLocal "cat" true w))
      else (Throw hostFailure, counted w)
  | Throw e => (Throw e, w)
  | Blocked => (Blocked, w)
  end.
Proof.
  apply (checkOne_eq "cat" catTerminalId with_catTerminalId createLocalTerminal
                     (createdLocal "cat" true) (ret tt) (fun v => v)).
  - intros v. apply createLocalTerminal_eq.
  - intros v. reflexivity.
Qed.

Lemma healthCheckTick_eq w :
  healthCheckTick w =
  if shouldMaintainTerminals (globals w) && terminalsInitialized (globals w)
  then
    match checkMouse w with
    | (Ret _, w1) =>
        match checkCat w1 with
        | (Ret _, w2) => (Ret tt, w2)
        | (Throw _, w2) => (Ret tt, w2)
        | (Blocked, w2) => (Blocked, w2)
        end
    | (Throw _, w1) => (Ret tt, w1)
    | (Blocked, w1) => (Blocked, w1)
    end
  else (Ret tt, w).
Proof.
  unfold healthCheckTick, try_catch. unfold bind at 1, gets at 1.
  destruct (shouldMaintainTerminals (globals w)); [|reflexivity].
  destruct (terminalsInitialized (globals w)); [|reflexivity].
  cbn [negb andb]. unfold bind at 1.
  change (checkOne "mouse" mouseTerminalId with_mouseTerminalId createRemoteTerminal
                   setTerminalReferences) with checkMouse.
  change (checkOne "cat" catTerminalId with_catTerminalId createLocalTerminal (ret tt))
    with checkCat.
  destruct (checkMouse w) as [[[]|e|] w1]; [|reflexivity|reflexivity].
  destruct (checkCat w1) as [[[]|e|] w2]; reflexivity.
Qed.

Lemma checkMouse_outcome w :
  ∃ o w1, checkMouse w = (o, w1)
    ∧ (o = Ret tt ∨ ∃ e, o = Throw e)
    ∧ (terminalIdCounter (stateData w1) = terminalIdCounter (stateData w)
       ∨ terminalIdCounter (stateData w1) = Js.increment (terminalIdCounter (stateData w))).
Proof.
  rewrite checkMouse_eq. pose proof (healthy_returns mouseTerminalId w) as Hr.
  destruct (healthy mouseTerminalId w) as [[]|e|]; [| | |done].
  { do 2 eexists. split; [reflexivity|]. split; [left; reflexivity|by left]. }
  2:{ do 2 eexists. split; [reflexivity|]. split; [right; eexists; reflexivity|by left]. }
  destruct (host_ok (vscode w)).
  - destruct (replaced_mouse_fields w) as (wA & <- & _ & Hc & _).
    do 2 eexists. split; [reflexivity|]. split; [left; reflexivity|]. by right.
  - destruct (counted_fields w) as (_ & _ & _ & _ & Hc & _).
    do 2 eexists. split; [reflexivity|]. split; [right; eexists; reflexivity|]. by right.
Qed.

Lemma checkCat_outcome w :
  ∃ o w1, checkCat w = (o, w1)
    ∧ (o = Ret tt ∨ ∃ e, o = Throw e)
    ∧ (terminalIdCounter (stateData w1) = terminalIdCounter (stateData w)
       ∨ terminalIdCounter (stateData w1) = Js.increment (terminalIdCounter (stateData w))).
Proof.
  rewrite checkCat_eq. pose proof (healthy_returns catTerminalId w) as Hr.
  destruct (healthy catTerminalId w) as [[]|e|]; [| | |done].
  { do 2 eexists. split; [reflexivity|]. split; [left; reflexivity|by left]. }
  2:{ do 2 eexists. split; [reflexivity|]. split; [right; eexists; reflexivity|by left]. }
  destruct (host_ok (vscode w)).
  - destruct (cat_created_fields w) as (wA & <- & _ & Hc & _).
    do 2 eexists. split; [reflexivity|]. split; [left; reflexivity|]. by right.
  - destruct (counted_fields w) as (_ & _ & _ & _ & Hc & _).
    do 2 eexists. split; [reflexivity|]. split; [right; eexists; reflexivity|]. by right.
Qed.

End Tick.

(** X18.  A tick of the health check never throws and is never left
    waiting, and no test of a terminal is.  It changes nothing while the
    maintenance is off or the terminals are not initialised, nothing when
    both terminals are healthy, and nothing when the probe of the mouse
    terminal throws, or that of the cat terminal after a healthy mouse
    terminal: the exception ends the tick in its [catch].  It increments
    the counter at most twice; against a host that cannot create a
    terminal, a tick whose test of the mouse terminal answers [false]
    consumes one id, changes nothing else, and reports no error. *)
Theorem healthCheckTick_always_returns (w : World) :
  ∃ w', healthCheckTick w = (Ret tt, w')
    ∧ healthy mouseTerminalId w ≠ Blocked
    ∧ healthy catTerminalId w ≠ Blocked
    ∧ (terminalIdCounter (stateData w') = terminalIdCounter (stateData w)
       ∨ terminalIdCounter (stateData w') = Js.increment (terminalIdCounter (stateData w))
       ∨ terminalIdCounter (stateData w')
         = Js.increment (Js.increment (terminalIdCounter (stateData w))))
    ∧ (shouldMaintainTerminals (globals w) && terminalsInitialized (globals w) = false →
       w' = w)
    ∧ (healthy mouseTerminalId w = Ret true → healthy catTerminalId w = Ret true → w' = w)
    ∧ (∀ e, healthy mouseTerminalId w = Throw e → w' = w)
    ∧ (∀ e, healthy mouseTerminalId w = Ret true → healthy catTerminalId w = Throw e →
            w' = w)
    ∧ (shouldMaintainTerminals (globals w) && terminalsInitialized (globals w) = true →
       healthy mouseTerminalId w = Ret false → host_ok (vscode w) = false →
       w' = counted w).
Proof.
  pose proof (healthy_returns mouseTerminalId w) as Hrm.
  pose proof (healthy_returns catTerminalId w) as Hrc.
  rewrite healthCheckTick_eq.
  destruct (shouldMaintainTerminals (globals w) && terminalsInitialized (globals w)).
  2:{ exists w. split; [reflexivity|]. split; [exact Hrm|]. split; [exact Hrc|].
      split; [by left|]. repeat split; try reflexivity. discriminate. }
  pose proof (checkMouse_eq w) as Em.
  destruct (checkMouse_outcome w) as (o1 & w1 & E1 & Ho1 & Hc1).
  rewrite E1 in Em |- *.
  pose proof (checkCat_eq w1) as Ec.
  destruct (checkCat_outcome w1) as (o2 & w2 & E2 & Ho2 & Hc2).
  destruct Ho1 as [->|[e1 ->]].
  - rewrite E2 in Ec |- *.
    assert (∃ w', match o2 with
                  | Ret _ => (Ret tt, w2)
                  | Throw _ => (Ret tt, w2)
                  | Blocked => (Blocked, w2)
                  end = (Ret tt, w') ∧ w' = w2) as (w' & -> & ->).
    { destruct Ho2 as [->|[e2 ->]]; eexists; split; reflexivity. }
    exists w2. split; [reflexivity|]. split; [exact Hrm|]. split; [exact Hrc|].
    split.
    { destruct Hc1 as [Hc1|Hc1], Hc2 as [Hc2|Hc2]; rewrite Hc2, Hc1; auto. }
    split; [discriminate|].
    split.
    { intros Hm Hcat. rewrite Hm in Em. injection Em as <-.
      rewrite Hcat in Ec. injection Ec as _ <-. reflexivity. }
    split.
    { intros e Hm. rewrite Hm in Em. discriminate. }
    split.
    { intros e Hm Hcat. rewrite Hm in Em. injection Em as <-.
      rewrite Hcat in Ec. injection Ec as _ <-. reflexivity. }
    intros _ Hm Hh. rewrite Hm, Hh in Em. discriminate.
  - exists w1. split; [reflexivity|]. split; [exact Hrm|]. split; [exact Hrc|].
    split.
    { destruct Hc1 as [Hc1|Hc1]; rewrite Hc1; auto. }
    split; [discriminate|].
    split.
    { intros Hm _. rewrite Hm in Em. discriminate. }
    split.
    { intros e Hm. rewrite Hm in Em. injection Em as _ <-. reflexivity. }
    split.
    { intros e Hm _. rewrite Hm in Em. discriminate. }
    intros _ Hm Hh. rewrite Hm, Hh in Em. injection Em as _ <-. reflexivity.
Qed.
(** ** Restoring the ids from the table *)

Section Restore.
Context `{JsObject}.

Lemma restoreLoop (table : gmap string Descriptor) ks : ∀ w,
  (∀ k, k ∈ ks → is_Some (table !! k)) →
  ∃ mouse cat,
    forEach ks (fun terminalId =>
      do terminalInfo <~ property table terminalId;
      if String.eqb (d_type terminalInfo) "mouse"
      then modify (set_globals (with_mouseTerminalId (Some (Js.IdStr terminalId))))
      else if String.eqb (d_type terminalInfo) "cat"
      then modify (set_globals (with_catTerminalId (Some (Js.IdStr terminalId))))
      else ret tt) w
    = (Ret tt, withIds mouse cat w)
    ∧ restoredFrom ks table "mouse" (mouseTerminalId (globals w)) mouse
    ∧ restoredFrom ks table "cat" (catTerminalId (globals w)) cat.
Proof.
  induction ks as [|k ks IH]; intros w Hin.
  - exists (mouseTerminalId (globals w)), (catTerminalId (globals w)).
    split; [destruct w as [? ? ? ? ? ? ? ? []]; reflexivity|].
    split; right; (split; [reflexivity|]); intros k d Hk; apply elem_of_nil in Hk; destruct Hk.
  - destruct (Hin k (list_elem_of_here _ _)) as [d Hd].
    assert (∀ k', k' ∈ ks → is_Some (table !! k')) as Hin'.
    { intros k' Hk'. apply Hin, list_elem_of_further, Hk'. }
    cbn [forEach]. unfold bind at 1. unfold bind at 1, property. rewrite Hd. unfold ret at 1.
    destruct (String.eqb_spec (d_type d) "mouse") as [Hm|Hm].
    + unfold modify at 1.
      destruct (IH (set_globals (with_mouseTerminalId (Some (Js.IdStr k))) w) Hin')
        as (mouse & cat & E & Rm & Rc).
      exists mouse, cat. split; [exact E|].
      cbn [globals set_globals mouseTerminalId catTerminalId with_mouseTerminalId] in Rm, Rc.
      split.
      * destruct Rm as [(k' & d' & Hk' & -> & Hd' & Ht')|[-> Hno]].
        -- left. exists k', d'.
           split; [apply list_elem_of_further, Hk'|]. repeat split; assumption.
        -- left. exists k, d. split; [apply list_elem_of_here|]. repeat split; assumption.
      * destruct Rc as [(k' & d' & Hk' & -> & Hd' & Ht')|[-> Hno]].
        -- left. exists k', d'.
           split; [apply list_elem_of_further, Hk'|]. repeat split; assumption.
        -- right. split; [reflexivity|].
           intros k' d' Hk' Hd'. apply elem_of_cons in Hk' as [->|Hk'].
           ++ rewrite Hd in Hd'. injection Hd' as <-. rewrite Hm. discriminate.
           ++ apply (Hno k' d' Hk' Hd').
    + destruct (String.eqb_spec (d_type d) "cat") as [Hc|Hc].
      * unfold modify at 1.
        destruct (IH (set_globals (with_catTerminalId (Some (Js.IdStr k))) w) Hin')
          as (mouse & cat & E & Rm & Rc).
        exists mouse, cat. split; [exact E|].
        cbn [globals set_globals mouseTerminalId catTerminalId with_catTerminalId] in Rm, Rc.
        split.
        -- destruct Rm as [(k' & d' & Hk' & -> & Hd' & Ht')|[-> Hno]].
           ++ left. exists k', d'.
              split; [apply list_elem_of_further, Hk'|]. repeat split; assumption.
           ++ right. split; [reflexivity|].
              intros k' d' Hk' Hd'. apply elem_of_cons in Hk' as [->|Hk'].
              ** rewrite Hd in Hd'. injection Hd' as <-. exact Hm.
              ** apply (Hno k' d' Hk' Hd').
        -- destruct Rc as [(k' & d' & Hk' & -> & Hd' & Ht')|[-> Hno]].
           ++ left. exists k', d'.
              split; [apply list_elem_of_further, Hk'|]. repeat split; assumption.
           ++ left. exists k, d. split; [apply list_elem_of_here|]. repeat split; assumption.
      * unfold ret at 1.
        destruct (IH w Hin') as (mouse & cat & E & Rm & Rc).
        exists mouse, cat. split; [exact E|].
        split.
        -- destruct Rm as [(k' & d' & Hk' & -> & Hd' & Ht')|[-> Hno]].
           ++ left. exists k', d'.
              split; [apply list_elem_of_further, Hk'|]. repeat split; assumption.
           ++ right. split; [reflexivity|].
              intros k' d' Hk' Hd'. apply elem_of_cons in Hk' as [->|Hk'].
              ** rewrite Hd in Hd'. injection Hd' as <-. exact Hm.
              ** apply (Hno k' d' Hk' Hd').
        -- destruct Rc as [(k' & d' & Hk' & -> & Hd' & Ht')|[-> Hno]].
           ++ left. exists k', d'.
              split; [apply list_elem_of_further, Hk'|]. repeat split; assumption.
           ++ right. split; [reflexivity|].
              intros k' d' Hk' Hd'. apply elem_of_cons in Hk' as [->|Hk'].
              ** rewrite Hd in Hd'. injection Hd' as <-. exact Hc.
              ** apply (Hno k' d' Hk' Hd').
Qed.

End Restore.

(** X19.  [restoreTerminalIdsFromState] returns and changes only the two
    ids the extension holds.  The id of the mouse terminal becomes a key
    of the table whose descriptor has type ["mouse"], as a string, and
    stays what it was when the table has no such descriptor; likewise for
    the cat terminal.  The registry is not touched: a restored id is not
    registered by this call. *)
Theorem restoreTerminalIdsFromState_restores_keys `{JsObject} (w : World) :
  let table := terminals (stateData w) in
  ∃ mouse cat,
    restoreTerminalIdsFromState w = (Ret tt, withIds mouse cat w)
    ∧ ((∃ k d, mouse = Some (Js.IdStr k) ∧ table !! k = Some d ∧ d_type d = "mouse")
       ∨ (mouse = mouseTerminalId (globals w)
          ∧ ∀ k d, table !! k = Some d → d_type d ≠ "mouse"))
    ∧ ((∃ k d, cat = Some (Js.IdStr k) ∧ table !! k = Some d ∧ d_type d = "cat")
       ∨ (cat = catTerminalId (globals w)
          ∧ ∀ k d, table !! k = Some d → d_type d ≠ "cat"))
    ∧ managedTerminals (withIds mouse cat w) = managedTerminals w
    ∧ stateData (withIds mouse cat w) = stateData w
    ∧ terminalsInitialized (globals (withIds mouse cat w)) = terminalsInitialized (globals w).
Proof.
  cbv zeta.
  destruct (restoreLoop (terminals (stateData w)) (ObjectKeys (terminals (stateData w))) w)
    as (mouse & cat & E & Rm & Rc).
  { intros k Hk. apply ObjectKeys_lookup. exact Hk. }
  exists mouse, cat.
  split.
  { unfold restoreTerminalIdsFromState, try_catch, bind at 1, gets at 1, getAllTerminals.
    rewrite E. reflexivity. }
  split; [|split; [|repeat split]].
  - destruct Rm as [(k & d & _ & Hid & Hd & Ht)|[Hid Hno]].
    + left. exists k, d. repeat split; assumption.
    + right. split; [exact Hid|]. intros k d Hd. apply (Hno k d); [|exact Hd].
      apply ObjectKeys_lookup. rewrite Hd. eexists. reflexivity.
  - destruct Rc as [(k & d & _ & Hid & Hd & Ht)|[Hid Hno]].
    + left. exists k, d. repeat split; assumption.
    + right. split; [exact Hid|]. intros k d Hd. apply (Hno k d); [|exact Hd].
      apply ObjectKeys_lookup. rewrite Hd. eexists. reflexivity.
Qed.
(** ** What the calls of a session change *)

Section Changes.
Context `{JsObject}.

Lemma Change_same w w' :
  managedTerminals w' = managedTerminals w → stateData w' = stateData w → Change w w'.
Proof.
  intros Hm Hs. apply change_frame; [exact Hm|rewrite Hs; reflexivity|rewrite Hs; lia].
Qed.

Lemma Change_counted w : Change w (counted w).
Proof.
  destruct (counted_fields w) as (_ & _ & Hm & _ & Hc & Ht & _).
  apply change_frame; [exact Hm|exact Ht|rewrite Hc; apply increment_le].
Qed.

Lemma describes_created k type now name terminal :
  describes k (mkDescriptor k type now now now name) (registryInfo terminal type now name).
Proof. unfold describes. repeat split. Qed.

Lemma Change_createdRemote type sendWelcome w :
  Change w (createdRemote type sendWelcome w).
Proof.
  destruct (createdRemote_fields type sendWelcome w)
    as (_ & Hc & (now & name & Hm & Ht) & _).
  eapply change_bind;
    [exact Hm|exact Ht|apply describes_created|rewrite Hc; apply increment_le].
Qed.

Lemma Change_createdLocal type sendWelcome w :
  Change w (createdLocal type sendWelcome w).
Proof.
  destruct (createdLocal_fields type sendWelcome w)
    as (_ & Hc & (now & name & Hm & Ht) & _).
  eapply change_bind;
    [exact Hm|exact Ht|apply describes_created|rewrite Hc; apply increment_le].
Qed.

Lemma Change_recovered terminalType id t w :
  Change w (recovered terminalType id t w).
Proof.
  destruct (recovered_fields terminalType id t w)
    as (_ & Hc & (name & Hm & [Ht|(Hk & Hno & Ht)]) & _).
  - eapply change_bind; [exact Hm|exact Ht|apply describes_created|rewrite Hc; lia].
  - rewrite Hk in Hm, Hno.
    eapply change_proto; [exact Hm|exact Hno|exact Ht|rewrite Hc; lia].
Qed.

Lemma dispatched_terminals id info command clearAfterExecution redirectOutput w :
  let w' := dispatched id info command clearAfterExecution redirectOutput w in
  terminals (stateData w')
  = <[id := stored id (clock w)
              (descriptorOf (mkTerminalInfo (ti_terminal info) (ti_type info)
                                            (ti_createdTime info) (clock w) (ti_name info)))]>
      (terminals (stateData w))
  ∨ (id = "__proto__" ∧ terminals (stateData w) !! id = None
     ∧ terminals (stateData w') = terminals (stateData w)).
Proof.
  cbv zeta. unfold dispatched, logged, saved, terminalsSet.
  destruct (String.eqb_spec id "__proto__") as [->|Hk];
    destruct (terminals (stateData w) !! _) eqn:E;
    destruct (negb (String.eqb (ti_type info) "mouse")), clearAfterExecution;
    cbn; destruct (content (commandLog w)), (writable (commandLog w));
    cbn; rewrite ?E; cbn; destruct (writable (stateFile w)); cbn; auto.
Qed.

Lemma Change_dispatched id info command clearAfterExecution redirectOutput w :
  Change w (dispatched id info command clearAfterExecution redirectOutput w).
Proof.
  destruct (dispatched_fields id info command clearAfterExecution redirectOutput w)
    as (_ & _ & Hc & Hm & _).
  destruct (dispatched_terminals id info command clearAfterExecution redirectOutput w)
    as [Ht|(Hk & Hno & Ht)].
  - eapply change_bind; [exact Hm|exact Ht| |rewrite Hc; lia].
    unfold describes. repeat split.
  - subst id.
    eapply change_proto; [exact Hm|exact Hno|exact Ht|rewrite Hc; lia].
Qed.

Lemma Changes_sendCommandToTerminal terminalId command clearAfterExecution redirectOutput w :
  rtc Change w
      (sendCommandToTerminal terminalId command clearAfterExecution redirectOutput w).2.
Proof.
  rewrite sendCommandToTerminal_eq.
  destruct (resolveTarget terminalId w) as [id|]; [|apply rtc_refl].
  destruct (JsMap.get id (managedTerminals w)) as [info|]; [|apply rtc_refl].
  apply rtc_once, Change_dispatched.
Qed.

Lemma Change_mouse_created i w :
  Change w (set_globals (with_mouseTerminalId i) (createdRemote "mouse" true w)).
Proof.
  destruct (createdRemote_fields "mouse" true w)
    as (_ & Hc & (now & name & Hm & Ht) & _).
  destruct (set_globals_fields (with_mouseTerminalId i) (createdRemote "mouse" true w))
    as (_ & Ss & Sm & _).
  eapply change_bind; [rewrite Sm; exact Hm|rewrite Ss; exact Ht|apply describes_created|].
  rewrite Ss, Hc. apply increment_le.
Qed.

Lemma Change_cat_created i w :
  Change w (set_globals (with_catTerminalId i) (createdLocal "cat" true w)).
Proof.
  destruct (createdLocal_fields "cat" true w)
    as (_ & Hc & (now & name & Hm & Ht) & _).
  destruct (set_globals_fields (with_catTerminalId i) (createdLocal "cat" true w))
    as (_ & Ss & Sm & _).
  eapply change_bind; [rewrite Sm; exact Hm|rewrite Ss; exact Ht|apply describes_created|].
  rewrite Ss, Hc. apply increment_le.
Qed.

Lemma Changes_ensureMouse w : rtc Change w (ensureMouse w).2.
Proof.
  rewrite ensureMouse_eq.
  destruct (Js.truthy (mouseTerminalId (globals w))).
  - destruct (JsMap.get _ (managedTerminals w)); [apply rtc_refl|].
    destruct (mouseTerminalId (globals w)) as [id|]; [|apply rtc_refl].
    destruct (findExistingTerminalInVSCode "mouse" w);
      [apply rtc_once, Change_recovered|].
    destruct (host_ok (vscode w));
      [apply rtc_once, Change_mouse_created|apply rtc_once, Change_counted].
  - destruct (host_ok (vscode w));
      [apply rtc_once, Change_mouse_created|apply rtc_once, Change_counted].
Qed.

Lemma Changes_ensureCat w : rtc Change w (ensureCat w).2.
Proof.
  rewrite ensureCat_eq.
  destruct (Js.truthy (catTerminalId (globals w))).
  - destruct (JsMap.get _ (managedTerminals w)); [apply rtc_refl|].
    destruct (catTerminalId (globals w)) as [id|]; [|apply rtc_refl].
    destruct (findExistingTerminalInVSCode "cat" w);
      [apply rtc_once, Change_recovered|].
    destruct (host_ok (vscode w));
      [apply rtc_once, Change_cat_created|apply rtc_once, Change_counted].
  - destruct (host_ok (vscode w));
      [apply rtc_once, Change_cat_created|apply rtc_once, Change_counted].
Qed.

Lemma Change_finished w : Change w (finished w).
Proof.
  destruct (finished_fields w) as (Hs & Hm & _).
  apply Change_same; assumption.
Qed.

Lemma Change_globals f w : Change w (set_globals f w).
Proof. apply Change_same; reflexivity. Qed.

Lemma Changes_ensureTerminalsExist w : rtc Change w (ensureTerminalsExist w).2.
Proof.
  destruct (terminalCreationInProgress (globals w)) eqn:Hlock.
  { unfold ensureTerminalsExist, bind at 1, gets at 1. rewrite Hlock. apply rtc_refl. }
  destruct (deepCheck w) eqn:Hdeep.
  { rewrite (ensureTerminalsExist_fast w Hlock Hdeep). apply rtc_refl. }
  rewrite (ensureTerminalsExist_slow w Hlock Hdeep).
  apply (rtc_l _ _ (locked w)); [apply Change_globals|].
  pose proof (Changes_ensureMouse (locked w)) as H1.
  destruct (ensureMouse (locked w)) as [o1 wA]. cbn [snd] in H1.
  etrans; [exact H1|].
  destruct o1 as [[]|e|]; [|apply rtc_once, Change_globals|apply rtc_refl].
  pose proof (Changes_ensureCat wA) as H2.
  destruct (ensureCat wA) as [o2 wB]. cbn [snd] in H2.
  etrans; [exact H2|].
  destruct o2 as [[]|e|]; [|apply rtc_once, Change_globals|apply rtc_refl].
  cbn [snd]. apply (rtc_l _ _ (finished wB)); [apply Change_finished|].
  apply rtc_once, Change_globals.
Qed.

Lemma Changes_checkMouse w : rtc Change w (checkMouse w).2.
Proof.
  rewrite checkMouse_eq.
  destruct (healthy mouseTerminalId w) as [[]|e|]; [apply rtc_refl| |apply rtc_refl..].
  destruct (host_ok (vscode w)); [|apply rtc_once, Change_counted].
  cbn [snd]. eapply rtc_l; [apply Change_mouse_created|].
  apply rtc_once. unfold setTerminalReferences, modify. cbn [snd]. apply Change_globals.
Qed.

Lemma Changes_checkCat w : rtc Change w (checkCat w).2.
Proof.
  rewrite checkCat_eq.
  destruct (healthy catTerminalId w) as [[]|e|]; [apply rtc_refl| |apply rtc_refl..].
  destruct (host_ok (vscode w));
    [apply rtc_once, Change_cat_created|apply rtc_once, Change_counted].
Qed.

Lemma Changes_healthCheckTick w : rtc Change w (healthCheckTick w).2.
Proof.
  rewrite healthCheckTick_eq.
  destruct (shouldMaintainTerminals (globals w) && terminalsInitialized (globals w));
    [|apply rtc_refl].
  pose proof (Changes_checkMouse w) as H1.
  destruct (checkMouse w) as [o1 w1]. cbn [snd] in H1.
  destruct o1 as [[]|e|]; [|exact H1|exact H1].
  pose proof (Changes_checkCat w1) as H2.
  destruct (checkCat w1) as [o2 w2]. cbn [snd] in H2.
  etrans; [exact H1|].
  destruct o2 as [[]|e|]; exact H2.
Qed.

Lemma Changes_createRemoteTerminal type sendWelcome w :
  rtc Change w (createRemoteTerminal type sendWelcome w).2.
Proof.
  rewrite createRemoteTerminal_eq.
  destruct (host_ok (vscode w));
    [apply rtc_once, Change_createdRemote|apply rtc_once, Change_counted].
Qed.

Lemma Changes_createLocalTerminal type sendWelcome w :
  rtc Change w (createLocalTerminal type sendWelcome w).2.
Proof.
  rewrite createLocalTerminal_eq.
  destruct (host_ok (vscode w));
    [apply rtc_once, Change_createdLocal|apply rtc_once, Change_counted].
Qed.

Lemma handleRequest_world req w :
  (handleRequest req w).2 = w
  ∨ ∃ command,
      (handleRequest req w).2
      = (sendCommandToTerminal (mouseTerminalIdRef (globals w)) command true true w).2.
Proof.
  destruct (String.eqb (req_pathname req) "/cmd") eqn:Hp.
  2:{ destruct (handleRequest_other req w Hp) as [resp ->]. left. reflexivity. }
  apply String.eqb_eq in Hp.
  destruct (String.eqb (req_method req) "OPTIONS") eqn:Hm.
  { unfold handleRequest. rewrite Hm. left. reflexivity. }
  rewrite (handleRequest_cmd req w Hm Hp), handleCommandRoute_eq.
  destruct (Js.truthy (mouseTerminalIdRef (globals w))); [|left; reflexivity].
  destruct (commandOf req) as [[c|]| |]; [|left; reflexivity ..].
  destruct (String.eqb c EmptyString); [left; reflexivity|].
  destruct (executeRemoteCommand_returns c (mouseTerminalIdRef (globals w)) w)
    as (r & -> & _).
  right. exists c. reflexivity.
Qed.

Lemma validateTerminalExists_world terminalId terminalType w :
  (validateTerminalExists terminalId terminalType w).2 = w.
Proof.
  rewrite validateTerminalExists_eq.
  destruct (Js.truthy terminalId); [|reflexivity].
  destruct (getByValue terminalId (managedTerminals w)) as [info|]; [|reflexivity].
  destruct (probe (ti_terminal info) w) as [[]|e|]; reflexivity.
Qed.

Lemma Changes_own known terminalType command clearAfterExecution redirectOutput w :
  rtc Change w
    (match (if needsEnsure known w
            then (run ensureTerminalsExist; ret tt) w else (Ret tt, w)) with
     | (Ret _, w1) =>
         match validateTerminalExists (known (globals w1)) terminalType w1 with
         | (Ret _, _) =>
             sendCommandToTerminal (known (globals w1)) command clearAfterExecution
                                   redirectOutput w1
         | (Throw e, v) => (Throw e, v)
         | (Blocked, v) => (Blocked, v)
         end
     | (Throw e, w1) => (Throw e, w1)
     | (Blocked, w1) => (Blocked, w1)
     end).2.
Proof.
  assert (∀ w1, rtc Change w w1 →
    rtc Change w
      (match validateTerminalExists (known (globals w1)) terminalType w1 with
       | (Ret _, _) =>
           sendCommandToTerminal (known (globals w1)) command clearAfterExecution
                                 redirectOutput w1
       | (Throw e, v) => (Throw e, v)
       | (Blocked, v) => (Blocked, v)
       end).2) as Hrest.
  { intros w1 H1.
    pose proof (validateTerminalExists_world (known (globals w1)) terminalType w1) as Hv.
    destruct (validateTerminalExists (known (globals w1)) terminalType w1) as [[b|e|] v];
      cbn [snd] in Hv |- *; subst v; [|exact H1|exact H1].
    etrans; [exact H1|apply Changes_sendCommandToTerminal]. }
  destruct (needsEnsure known w); [|apply Hrest, rtc_refl].
  unfold bind at 1.
  pose proof (Changes_ensureTerminalsExist w) as He.
  destruct (ensureTerminalsExist w) as [[ids|e|] w1]; cbn [snd] in He; [|exact He|exact He].
  unfold ret at 1. apply Hrest, He.
Qed.

Lemma Changes_fire t w : rtc Change w (fire t w).2.
Proof.
  apply rtc_once.
  destruct t as [terminal terminalId command [f|] | terminalId command f]; unfold fire.
  - unfold bind, sendText, modify. cbn [snd]. apply Change_same; reflexivity.
  - unfold bind, sendText, modify, ret. cbn [snd]. apply Change_same; reflexivity.
  - unfold try_catch, bind, gets.
    destruct (tmpFiles w !! f) as [output|]; [|apply Change_same; reflexivity].
    rewrite updateCommandResult_eq. cbn [snd]. unfold updated.
    destruct (content (commandLog w)), (writable (commandLog w));
      apply Change_same; reflexivity.
Qed.

Lemma perform_changes c w : rtc Change w (perform c w).
Proof.
  destruct c; cbn [perform].
  - apply Changes_ensureTerminalsExist.
  - apply Changes_healthCheckTick.
  - apply Changes_sendCommandToTerminal.
  - apply Changes_createRemoteTerminal.
  - apply Changes_createLocalTerminal.
  - apply rtc_once. rewrite destroyTerminal_eq.
    pose proof (Reaped_destroyTerminal (Js.String terminalId) w) as Hr.
    rewrite destroyTerminal_eq in Hr. cbn [Js.String] in Hr.
    destruct (JsMap.get (Js.String terminalId) (managedTerminals w));
      apply (change_reap _ _ [Js.String terminalId]); exact Hr.
  - unfold destroyAllManagedTerminals. rewrite destroyAllTerminals_eq. cbn [snd].
    apply rtc_once, (change_reap _ _ (JsMap.keys (managedTerminals w))), Reaped_destroyEach.
  - rewrite cleanupIdleTerminals_eq. cbn [snd].
    apply rtc_once. eapply change_reap, Reaped_destroyEach.
  - destruct (handleRequest_world req w) as [->|[command ->]];
      [apply rtc_refl|apply Changes_sendCommandToTerminal].
  - rewrite sendCommandToMouseTerminal_eq. apply Changes_own.
  - rewrite sendCommandToCatTerminal_eq. apply Changes_own.
  - destruct (restoreLoop (terminals (stateData w)) (ObjectKeys (terminals (stateData w))) w)
      as (mouse & cat & E & _).
    { intros k Hk. apply ObjectKeys_lookup. exact Hk. }
    unfold restoreTerminalIdsFromState, try_catch, bind at 1, gets at 1, getAllTerminals.
    rewrite E. cbn [snd]. apply rtc_once, Change_globals.
  - apply Changes_fire.
  - apply rtc_once, Change_same; reflexivity.
Qed.

Lemma performAll_changes cs : ∀ w, rtc Change w (performAll cs w).
Proof.
  induction cs as [|c cs IH]; intros w; [apply rtc_refl|].
  cbn [performAll foldl]. etrans; [apply perform_changes|apply IH].
Qed.

Lemma Change_counter w w' :
  Change w w' → (terminalIdCounter (stateData w) ≤ terminalIdCounter (stateData w'))%nat.
Proof.
  intros [v v' _ _ Hc|v v' k info d _ _ _ Hc|v v' info _ _ _ Hc|v v' ks Hr];
    [exact Hc|exact Hc|exact Hc|].
  destruct Hr as (_ & _ & _ & _ & _ & _ & Hc & _). rewrite Hc. lia.
Qed.

Lemma Change_Synced w w' : Change w w' → Synced w → Synced w'.
Proof.
  intros [v v' Hm Ht _|v v' k info d Hm Ht Hd _|v v' info Hm _ Ht _|v v' ks Hr]
         Hs k' info' Hk' Hget.
  - rewrite Hm in Hget. rewrite Ht. apply (Hs k' info' Hk' Hget).
  - rewrite Hm, JsMap_get_set in Hget. rewrite Ht.
    destruct (String.eqb_spec k' k) as [->|Hne].
    + injection Hget as <-. exists d. split; [apply lookup_insert_eq|exact Hd].
    + rewrite lookup_insert_ne; [|congruence]. apply (Hs k' info' Hk' Hget).
  - rewrite Hm, JsMap_get_set in Hget. rewrite Ht.
    destruct (String.eqb_spec k' "__proto__") as [->|Hne]; [done|].
    apply (Hs k' info' Hk' Hget).
  - destruct Hr as (A1 & A2 & _ & A4 & _).
    destruct (decide (k' ∈ ks)) as [Hin|Hin].
    + rewrite (A1 k' Hin) in Hget. discriminate.
    + rewrite (A2 k' Hin) in Hget. rewrite A4; [apply (Hs k' info' Hk' Hget)|].
      intros [Hin' _]. destruct (Hin Hin').
Qed.

End Changes.

(** X20.  The id counter never goes down in a session: whatever calls of
    the extension, of the terminal manager and of the server are made, and
    whatever terminals are closed, the counter after them is at least the
    counter before. *)
Theorem terminalIdCounter_never_decreases `{JsObject} (cs : list Call) (w : World) :
  (terminalIdCounter (stateData w) ≤ terminalIdCounter (stateData (performAll cs w)))%nat.
Proof.
  induction (performAll_changes cs w) as [v|v v' v'' Hc _ IH]; [lia|].
  apply Change_counter in Hc. lia.
Qed.

(** X21.  The table follows the registry: if every terminal registered
    under an id other than ["__proto__"] has a descriptor under its id,
    with its type, name and times, then so it is after any session.  In
    particular this holds in every session that starts with an empty
    registry.  The id ["__proto__"] is left out because the table is a
    plain object: a terminal can be registered under it while the table
    holds no such key. *)
Theorem registry_stays_synced `{JsObject} (cs : list Call) (w : World) :
  Synced w → Synced (performAll cs w).
Proof.
  intros Hs.
  induction (performAll_changes cs w) as [v|v v' v'' Hc _ IH]; [exact Hs|].
  apply IH, (Change_Synced v v' Hc Hs).
Qed.
(** ** The constructor, the creation of terminals, and the way of an
       output into the log *)

Section Rest.

Lemma initializeCommandLog_eq w :
  initializeCommandLog w =
  (Ret tt,
   if existsSync (commandLog w) then w
   else if writable (commandLog w) then set_commandLog (write []) w else w).
Proof.
  unfold initializeCommandLog, try_catch, bind, gets, writeCommandLog.
  destruct (existsSync (commandLog w)); [reflexivity|].
  destruct (writable (commandLog w)); reflexivity.
Qed.

Lemma dispatched_timers id info command clearAfterExecution redirectOutput w :
  timers (dispatched id info command clearAfterExecution redirectOutput w)
  = if clearAfterExecution
    then timers w ++ [TClear (ti_terminal info) id command
                             (redirection redirectOutput (clock w))]
    else timers w.
Proof.
  unfold dispatched, logged, saved, terminalsSet.
  destruct (negb (String.eqb (ti_type info) "mouse")), clearAfterExecution;
    cbn; destruct (content (commandLog w)), (writable (commandLog w));
    cbn; destruct (String.eqb id "__proto__");
    try destruct (terminals (stateData w) !! id);
    cbn; destruct (writable (stateFile w)); reflexivity.
Qed.

Lemma fire_TClear terminal terminalId command f v :
  fire (TClear terminal terminalId command (Some f)) v
  = (Ret tt,
     set_timers (fun ts => ts ++ [TReadBack terminalId command f])
                (sendText terminal "clear" v).2).
Proof. reflexivity. Qed.

Lemma fire_TReadBack terminalId command f output v :
  tmpFiles v !! f = Some output →
  fire (TReadBack terminalId command f) v = (Ret tt, updated terminalId command output v).
Proof.
  intros Hf. unfold fire, try_catch, bind, gets. rewrite Hf.
  rewrite updateCommandResult_eq. reflexivity.
Qed.

Lemma updateLoop_last terminalId command result (logData : list LogEntry) e :
  awaitsResult terminalId command e = true →
  updateLoop (length (logData ++ [e])) terminalId command result (logData ++ [e])
  = logData ++ [with_result result e].
Proof.
  intros Ha. rewrite length_app, Nat.add_1_r. cbn [updateLoop].
  rewrite list_lookup_middle; [|reflexivity]. rewrite Ha.
  rewrite insert_app_r_alt by lia. rewrite Nat.sub_diag. reflexivity.
Qed.

Lemma updateLoop_skip terminalId command result (front mid back : list LogEntry) :
  forallb (fun e => negb (awaitsResult terminalId command e)) mid = true →
  updateLoop (length front + length mid) terminalId command result (front ++ mid ++ back)
  = updateLoop (length front) terminalId command result (front ++ mid ++ back).
Proof.
  revert back. induction mid as [|e mid IH] using rev_ind; intros back Hm.
  - cbn [length]. by rewrite Nat.add_0_r.
  - rewrite forallb_app in Hm. apply andb_true_iff in Hm as [Hm He].
    cbn [forallb] in He. rewrite andb_true_r in He. apply negb_true_iff in He.
    rewrite length_app. cbn [length]. rewrite Nat.add_1_r, Nat.add_succ_r.
    cbn [updateLoop].
    assert ((front ++ (mid ++ [e]) ++ back) !! (length front + length mid) = Some e) as ->.
    { rewrite <- !app_assoc. rewrite lookup_app_r by lia.
      replace (length front + length mid - length front) with (length mid) by lia.
      apply list_lookup_middle. reflexivity. }
    rewrite He. rewrite <- app_assoc. apply (IH ([e] ++ back) Hm).
Qed.

(** The loop writes the result into the last entry that awaits it. *)
Lemma updateLoop_hit terminalId command result (front back : list LogEntry) e :
  awaitsResult terminalId command e = true →
  forallb (fun e => negb (awaitsResult terminalId command e)) back = true →
  updateLoop (length (front ++ e :: back)) terminalId command result (front ++ e :: back)
  = front ++ with_result result e :: back.
Proof.
  intros He Hb.
  replace (length (front ++ e :: back)) with (length (front ++ [e]) + length back)
    by (rewrite !length_app; cbn [length]; lia).
  pose proof (updateLoop_skip terminalId command result (front ++ [e]) back [] Hb) as Hs.
  rewrite app_nil_r, <- app_assoc in Hs. cbn [app] in Hs. rewrite Hs.
  rewrite length_app, Nat.add_1_r. cbn [updateLoop].
  rewrite list_lookup_middle; [|reflexivity]. rewrite He.
  rewrite insert_app_r_alt by lia. rewrite Nat.sub_diag. reflexivity.
Qed.

Lemma readBack_log terminalId command f output (logData : list LogEntry) v :
  tmpFiles v !! f = Some output →
  content (commandLog v) = Holds logData →
  writable (commandLog v) = true →
  content (commandLog (fire (TReadBack terminalId command f) v).2)
  = Holds (updateLoop (length logData) terminalId command output logData).
Proof.
  intros Hf Hc Hw. rewrite (fire_TReadBack _ _ _ output v Hf). cbn [snd].
  unfold updated. rewrite Hc, Hw. reflexivity.
Qed.

End Rest.

(** X22.  [new TerminalManager()] never throws and never overwrites a file
    that exists: a state file and a command log that are present, readable
    or not, are left as they are, and one that is absent is created when
    it can be written.  The registry starts empty, whatever the state file
    holds. *)
Theorem newTerminalManager_keeps_existing_files (w : World) :
  ∃ w', newTerminalManager w = (Ret tt, w')
    ∧ managedTerminals w' = []
    ∧ (if existsSync (stateFile w) then stateFile w' = stateFile w
       else if writable (stateFile w)
       then content (stateFile w') = Holds (freshState (clock w))
       else stateFile w' = stateFile w)
    ∧ (if existsSync (commandLog w) then commandLog w' = commandLog w
       else if writable (commandLog w)
       then content (commandLog w') = Holds []
       else commandLog w' = commandLog w)
    ∧ vscode w' = vscode w ∧ globals w' = globals w ∧ timers w' = timers w
    ∧ clock w' = clock w.
Proof.
  unfold newTerminalManager, bind at 1. rewrite newTerminalStateManager_eq.
  assert (∀ v, commandLog v = commandLog w → clock v = clock w →
            vscode v = vscode w → globals v = globals w → timers v = timers w →
            ∃ w', (run initializeCommandLog;
                   modify (set_managedTerminals (fun _ => []))) v = (Ret tt, w')
              ∧ managedTerminals w' = []
              ∧ stateFile w' = stateFile v
              ∧ (if existsSync (commandLog w) then commandLog w' = commandLog w
                 else if writable (commandLog w)
                 then content (commandLog w') = Holds []
                 else commandLog w' = commandLog w)
              ∧ vscode w' = vscode w ∧ globals w' = globals w ∧ timers w' = timers w
              ∧ clock w' = clock w) as Hrest.
  { intros v Hl Hc Hv Hg Ht. unfold bind. rewrite initializeCommandLog_eq, Hl.
    unfold modify. eexists. split; [reflexivity|].
    destruct (existsSync (commandLog w)); [|destruct (writable (commandLog w))];
      cbn; repeat split; assumption. }
  unfold existsSync at 1.
  destruct (content (stateFile w)) eqn:Ec.
  - match goal with |- context [saved ?x] =>
      destruct (saved_frame x) as (Sc & Sl & _ & Sv & _ & St & Sg);
      pose proof (saved_stateFile x) as Sf;
      destruct (Hrest (saved x) Sl Sc Sv Sg St) as (w' & E & Hm & Hf & Hrest')
    end.
    exists w'. split; [exact E|]. split; [exact Hm|]. split; [|exact Hrest'].
    rewrite Hf, Sf. cbn. destruct (writable (stateFile w)); reflexivity.
  - match goal with |- context [newStateData ?s ?x] =>
      destruct (Hrest (newStateData s x)) as (w' & E & Hm & Hf & Hrest'); try reflexivity
    end.
    exists w'. split; [exact E|]. split; [exact Hm|]. split; [exact Hf|exact Hrest'].
  - match goal with |- context [newStateData ?s ?x] =>
      destruct (Hrest (newStateData s x)) as (w' & E & Hm & Hf & Hrest'); try reflexivity
    end.
    exists w'. split; [exact E|]. split; [exact Hm|]. split; [exact Hf|exact Hrest'].
Qed.

(** X23.  The way of an output into the log.  A dispatch with clearing and
    redirection on appends a pending entry and leaves one timer; that
    timer sends [clear] and leaves the timer of the read-back; when the
    command has written its output file, the read-back puts the output
    into the last entry of the log that awaits a result of this command
    on this terminal.  That is the entry this dispatch appended when the
    read-back follows at once, and whenever no entry appended since
    awaits such a result; when the same command has been dispatched to the
    same terminal again in between, the output is put into the later
    entry and the entry of this dispatch stays pending.  A dispatch with
    clearing off leaves no timer at all: its output file is never read
    back. *)
Theorem output_reaches_log_entry
    (id command output : string) (info : TerminalInfo) (logData : list LogEntry)
    (redirectOutput : bool) (w : World) :
  id ≠ EmptyString →
  JsMap.get id (managedTerminals w) = Some info →
  content (commandLog w) = Holds logData →
  writable (commandLog w) = true →
  let f := outputFileName (clock w) in
  let e := logEntryFor (length logData) (clock w) id (ti_type info) command (Some f) None in
  let w1 := (sendCommandToTerminal (Some (Js.IdStr id)) command true true w).2 in
  let w2 := (fire (TClear (ti_terminal info) id command (Some f)) w1).2 in
  let w3 := (fire (TReadBack id command f) (writeOutput f output w2)).2 in
  let pending := fun e' => awaitsResult id command e' in
  timers w1 = timers w ++ [TClear (ti_terminal info) id command (Some f)]
  ∧ content (commandLog w1) = Holds (logData ++ [e])
  ∧ timers w2 = timers w1 ++ [TReadBack id command f]
  ∧ content (commandLog w3) = Holds (logData ++ [with_result output e])
  ∧ (∀ (v : World) (since : list LogEntry),
       content (commandLog v) = Holds (logData ++ e :: since) →
       writable (commandLog v) = true →
       tmpFiles v !! f = Some output →
       let v' := (fire (TReadBack id command f) v).2 in
       (forallb (fun e' => negb (pending e')) since = true →
        content (commandLog v') = Holds (logData ++ with_result output e :: since))
       ∧ (∀ since1 e' since2,
            since = since1 ++ e' :: since2 →
            pending e' = true →
            forallb (fun e' => negb (pending e')) since2 = true →
            content (commandLog v')
            = Holds (logData ++ e :: since1 ++ with_result output e' :: since2)))
  ∧ timers (sendCommandToTerminal (Some (Js.IdStr id)) command false redirectOutput w).2
    = timers w.
Proof.
  intros Hid Hget Hc Hw. cbv zeta.
  assert (Js.truthy (Some (Js.IdStr id)) = true) as Ht.
  { cbn. apply String.eqb_neq in Hid. rewrite Hid. reflexivity. }
  rewrite !(sendCommandToTerminal_known (Some (Js.IdStr id)) _ _ _ w info Ht Hget).
  cbn [snd Js.StringOpt Js.String].
  rewrite (dispatched_timers id info command false redirectOutput w).
  destruct (dispatched_fields id info command true true w)
    as (_ & _ & _ & _ & _ & _ & Hl & _).
  pose proof (dispatched_timers id info command true true w) as Hti.
  cbn [redirection] in Hl, Hti.
  assert (commandLog (logged id (ti_type info) command (Some (outputFileName (clock w)))
                             None w)
          = mkFile (Holds (logData ++ [logEntryFor (length logData) (clock w) id
                                         (ti_type info) command
                                         (Some (outputFileName (clock w))) None])) true)
    as Hlog.
  { unfold logged. rewrite Hc, Hw. cbn. unfold write. rewrite Hw. reflexivity. }
  rewrite Hlog in Hl. clear Hlog.
  assert (awaitsResult id command
            (logEntryFor (length logData) (clock w) id (ti_type info) command
                         (Some (outputFileName (clock w))) None) = true) as Hpending.
  { unfold awaitsResult, logEntryFor. cbn [le_terminalId le_command le_result Js.truthy_str].
    rewrite !String.eqb_refl. reflexivity. }
  revert Hl Hti. generalize (dispatched id info command true true w). intros w1 Hl Hti.
  split; [exact Hti|]. split; [rewrite Hl; reflexivity|].
  rewrite fire_TClear. cbn [snd].
  split; [reflexivity|].
  split.
  { rewrite (readBack_log id command _ output
               (logData ++ [logEntryFor (length logData) (clock w) id (ti_type info) command
                                        (Some (outputFileName (clock w))) None])).
    - by rewrite updateLoop_last.
    - cbn. apply lookup_insert_eq.
    - change (commandLog (writeOutput (outputFileName (clock w)) output
                (set_timers (fun ts => ts ++ [TReadBack id command (outputFileName (clock w))])
                   (sendText (ti_terminal info) "clear" w1).2)))
        with (commandLog w1).
      rewrite Hl. reflexivity.
    - change (commandLog (writeOutput (outputFileName (clock w)) output
                (set_timers (fun ts => ts ++ [TReadBack id command (outputFileName (clock w))])
                   (sendText (ti_terminal info) "clear" w1).2)))
        with (commandLog w1).
      rewrite Hl. reflexivity. }
  split; [|reflexivity].
  intros v since Hv Hvw Hf.
  rewrite (readBack_log id command _ output _ v Hf Hv Hvw).
  split.
  - intros Hs. by rewrite updateLoop_hit.
  - intros since1 e' since2 -> He' Hs.
    replace (logData ++
             logEntryFor (length logData) (clock w) id (ti_type info) command
               (Some (outputFileName (clock w))) None :: since1 ++ e' :: since2)
      with ((logData ++
             logEntryFor (length logData) (clock w) id (ti_type info) command
               (Some (outputFileName (clock w))) None :: since1) ++ e' :: since2)
      by (by rewrite <- app_assoc).
    rewrite updateLoop_hit by assumption. by rewrite <- app_assoc.
Qed.

(** X24.  [createRemoteTerminal] and [createLocalTerminal] take the id
    from the counter before they ask the host for a terminal.  When the
    host creates it, the call returns that id, registers the terminal of
    the host under it with the type asked for, stores its descriptor, and
    calls [show()] on it unless it is a remote terminal of type ["mouse"].
    When the host fails, the call throws, the id is spent, and the
    registry, the table and the window are as before.  Either way the
    counter is incremented, which adds one to it while it is below
    2^53. *)
Theorem create_terminal_takes_id_first (type : string) (sendWelcome : bool) (w : World) :
  let c := terminalIdCounter (stateData w) in
  let n := next_ref (vscode w) in
  let created (w' : World) (revealed : bool) :=
    (∃ info, JsMap.get (pretty c) (managedTerminals w') = Some info
             ∧ ti_type info = type ∧ ti_terminal info = n)
    ∧ (∃ d, terminals (stateData w') !! pretty c = Some d
            ∧ d_id d = pretty c ∧ d_type d = type)
    ∧ shown (vscode w') = (if revealed then n :: shown (vscode w) else shown (vscode w)) in
  let spent (w' : World) :=
    managedTerminals w' = managedTerminals w
    ∧ terminals (stateData w') = terminals (stateData w)
    ∧ vscode w' = vscode w in
  (∃ o w', createRemoteTerminal type sendWelcome w = (o, w')
     ∧ terminalIdCounter (stateData w') = Js.increment c
     ∧ globals w' = globals w
     ∧ if host_ok (vscode w)
       then o = Ret c ∧ created w' (negb (String.eqb type "mouse"))
       else o = Throw hostFailure ∧ spent w')
  ∧ (∃ o w', createLocalTerminal type sendWelcome w = (o, w')
     ∧ terminalIdCounter (stateData w') = Js.increment c
     ∧ globals w' = globals w
     ∧ if host_ok (vscode w)
       then o = Ret c ∧ created w' true
       else o = Throw hostFailure ∧ spent w')
  ∧ ((N.of_nat c <= Js.MAX_SAFE_INTEGER)%N → Js.increment c = S c).
Proof.
  cbv zeta. rewrite createRemoteTerminal_eq, createLocalTerminal_eq.
  destruct (counted_fields w) as (_ & Cv & Cm & Cg & Cc & Ct & _).
  pose proof (increment_exact (terminalIdCounter (stateData w))) as Hx.
  destruct (host_ok (vscode w)).
  - split; [|split; [|exact Hx]].
    + destruct (createdRemote_fields type sendWelcome w)
        as (Hg & Hc & (now & name & Hm & Ht) & _ & _ & _ & _ & Hs & _).
      do 2 eexists. split; [reflexivity|]. split; [exact Hc|]. split; [exact Hg|].
      split; [reflexivity|]. rewrite Hm, Ht, Hs, JsMap_set_has, lookup_insert_eq.
      split; [eexists; repeat split|]. split; [eexists; repeat split|].
      destruct (String.eqb type "mouse"); reflexivity.
    + destruct (createdLocal_fields type sendWelcome w)
        as (Hg & Hc & (now & name & Hm & Ht) & _ & _ & _ & _ & Hs & _).
      do 2 eexists. split; [reflexivity|]. split; [exact Hc|]. split; [exact Hg|].
      split; [reflexivity|]. rewrite Hm, Ht, Hs, JsMap_set_has, lookup_insert_eq.
      split; [eexists; repeat split|]. split; [eexists; repeat split|reflexivity].
  - split; [|split; [|exact Hx]];
      do 2 eexists; (split; [reflexivity|]); repeat split; assumption.
Qed.

(** * The further properties at concrete inputs *)

(** X9 for [GET /cmd?command=ls] in [adoptedWorld]. *)
Lemma handleRequest_status_200_despite_failure_witness :
  ∃ r w',
    executeRemoteCommand "ls" (mouseTerminalIdRef (globals adoptedWorld)) adoptedWorld
    = (Ret r, w')
    ∧ handleRequest lsRequest adoptedWorld
      = (Ret (mkResponse 200 (CommandBody "ls" (stdout r) (stderr r) (exitCode r)
                                          (clock w'))), w')
    ∧ (JsMap.get (Js.StringOpt (mouseTerminalIdRef (globals adoptedWorld)))
                 (managedTerminals adoptedWorld) = None →
       w' = adoptedWorld
       ∧ r = failure (terminalNotFound
                        (Js.StringOpt (mouseTerminalIdRef (globals adoptedWorld))))).
Proof.
  apply (handleRequest_status_200_despite_failure lsRequest "ls" adoptedWorld).
  - cbn. discriminate.
  - reflexivity.
  - reflexivity.
  - reflexivity.
  - discriminate.
Defined.

(** X10 for a [POST] whose body cannot be read, in [adoptedWorld]. *)
Lemma handleRequest_body_error_is_masked_witness :
  handleRequest brokenPost adoptedWorld
  = (Ret (mkResponse 500 (ErrorBody "command is not defined" (clock adoptedWorld))),
     adoptedWorld).
Proof.
  apply (handleRequest_body_error_is_masked brokenPost "aborted" adoptedWorld);
    reflexivity.
Defined.

(** X12 in [adoptedWorld], where the id of the mouse terminal is the
    string ["1"]. *)
Lemma sendCommandToMouseTerminal_needs_string_id_witness :
  ∃ s info w1,
    mouseTerminalId
      (globals (sendCommandToMouseTerminal "whoami" true true adoptedWorld).2)
    = Some (Js.IdStr s)
    ∧ (w1 = adoptedWorld
       ∨ needsEnsure mouseTerminalId adoptedWorld = true
         ∧ w1 = (ensureTerminalsExist adoptedWorld).2)
    ∧ JsMap.get s (managedTerminals w1) = Some info
    ∧ isTerminalAliveInVSCode (ti_terminal info) w1 = (Ret true, w1)
    ∧ (sendCommandToMouseTerminal "whoami" true true adoptedWorld).2
      = dispatched s info "whoami" true true w1
    ∧ resultFor "1" "whoami" true 4000 = resultFor s "whoami" true (clock w1).
Proof.
  apply (sendCommandToMouseTerminal_needs_string_id "whoami" true true adoptedWorld
           (sendCommandToMouseTerminal "whoami" true true adoptedWorld).2
           (resultFor "1" "whoami" true 4000)).
  vm_compute. reflexivity.
Defined.

(** X13 in [liveWorld], where the ids are the numbers 1 and 2. *)
Lemma own_commands_reject_numeric_ids_witness :
  sendCommandToMouseTerminal "whoami" true true liveWorld
  = (Throw (instanceMissing "Mouse"), liveWorld)
  ∧ sendCommandToCatTerminal "whoami" true true liveWorld
    = (Throw (instanceMissing "Cat"), liveWorld).
Proof.
  apply (own_commands_reject_numeric_ids "whoami" true true liveWorld 1 2).
  - vm_compute. reflexivity.
  - vm_compute. reflexivity.
  - vm_compute. reflexivity.
  - discriminate.
  - discriminate.
  - vm_compute. eexists. reflexivity.
  - vm_compute. eexists. reflexivity.
Defined.

(** X15 in [hostDown]. *)
Lemma ensureTerminalsExist_failure_consumes_id_witness :
  ∃ w', ensureTerminalsExist hostDown
        = (Throw ("Mouse终端创建失败: " +:+ hostFailure), w')
    ∧ terminalIdCounter (stateData w') = Js.increment (terminalIdCounter (stateData hostDown))
    ∧ globals w' = globals hostDown
    ∧ managedTerminals w' = managedTerminals hostDown
    ∧ terminals (stateData w') = terminals (stateData hostDown)
    ∧ vscode w' = vscode hostDown.
Proof.
  apply (ensureTerminalsExist_failure_consumes_id hostDown); reflexivity.
Defined.


(** X17 in [blankWorld]. *)
Lemma sendCommandToMouseTerminal_fails_after_start_witness :
  ∃ ids w', ensureTerminalsExist blankWorld = (Ret ids, w')
    ∧ sendCommandToMouseTerminal "whoami" false true blankWorld
      = (Throw (instanceMissing "Mouse"), w').
Proof.
  apply (sendCommandToMouseTerminal_fails_after_start "whoami" false true blankWorld).
  - reflexivity.
  - reflexivity.
  - reflexivity.
  - exact (st_names _ Settled_blank).
  - vm_compute. discriminate.
Defined.

(** X21 for a session that starts in [blankWorld]. *)
Lemma registry_stays_synced_witness :
  Synced (performAll [CEnsure; CSendCat "date" true true; CDestroy (Js.IdNum 2);
                      CHealthCheck; CRequest lsRequest; CCleanup 0; CDestroyAll]
                     blankWorld).
Proof.
  apply (registry_stays_synced _ blankWorld).
  intros k info _ Hget. cbn in Hget. discriminate.
Defined.

(** X23 for a dispatch to the mouse terminal of [adoptedWorld]. *)
Lemma output_reaches_log_entry_witness :
  let info := mkTerminalInfo 0 "mouse" 10 10 "REMOTE TERMINAL (MOUSE)" in
  let f := outputFileName (clock adoptedWorld) in
  let e := logEntryFor (length (@nil LogEntry)) (clock adoptedWorld) "1" (ti_type info)
                       "whoami" (Some f) None in
  let w1 := (sendCommandToTerminal (Some (Js.IdStr "1")) "whoami" true true adoptedWorld).2 in
  let w2 := (fire (TClear (ti_terminal info) "1" "whoami" (Some f)) w1).2 in
  let w3 := (fire (TReadBack "1" "whoami" f) (writeOutput f "root" w2)).2 in
  let pending := fun e' => awaitsResult "1" "whoami" e' in
  timers w1 = timers adoptedWorld ++ [TClear (ti_terminal info) "1" "whoami" (Some f)]
  ∧ content (commandLog w1) = Holds ([] ++ [e])
  ∧ timers w2 = timers w1 ++ [TReadBack "1" "whoami" f]
  ∧ content (commandLog w3) = Holds ([] ++ [with_result "root" e])
  ∧ (∀ (v : World) (since : list LogEntry),
       content (commandLog v) = Holds ([] ++ e :: since) →
       writable (commandLog v) = true →
       tmpFiles v !! f = Some "root" →
       let v' := (fire (TReadBack "1" "whoami" f) v).2 in
       (forallb (fun e' => negb (pending e')) since = true →
        content (commandLog v') = Holds ([] ++ with_result "root" e :: since))
       ∧ (∀ since1 e' since2,
            since = since1 ++ e' :: since2 →
            pending e' = true →
            forallb (fun e' => negb (pending e')) since2 = true →
            content (commandLog v')
            = Holds ([] ++ e :: since1 ++ with_result "root" e' :: since2)))
  ∧ timers (sendCommandToTerminal (Some (Js.IdStr "1")) "whoami" false true adoptedWorld).2
    = timers adoptedWorld.
Proof.
  apply (output_reaches_log_entry "1" "whoami" "root"
           (mkTerminalInfo 0 "mouse" 10 10 "REMOTE TERMINAL (MOUSE)") [] true adoptedWorld).
  - discriminate.
  - reflexivity.
  - reflexivity.
  - reflexivity.
Defined.



(** A terminal registered under ["__proto__"] without a descriptor.  In
    [protoReloadedWorld] the first reconciliation adopts a terminal under
    the restored id ["__proto__"] and rewrites the descriptor the table
    holds under that key; [destroyTerminal] then deletes the key, and the
    id stays held; the next reconciliation adopts the other terminal under
    it, and the assignment to [terminals["__proto__"]] stores no key. *)
Lemma proto_registered_without_descriptor :
  let w1 := (ensureTerminalsExist protoReloadedWorld).2 in
  let w2 := (destroyTerminal (Js.IdStr "__proto__") w1).2 in
  let w3 := (ensureTerminalsExist w2).2 in
  SyncedAll protoReloadedWorld
  ∧ is_Some (terminals (stateData w1) !! "__proto__")
  ∧ is_Some (JsMap.get "__proto__" (managedTerminals w1))
  ∧ terminals (stateData w2) !! "__proto__" = None
  ∧ is_Some (JsMap.get "__proto__" (managedTerminals w3))
  ∧ terminals (stateData w3) !! "__proto__" = None
  ∧ ¬ SyncedAll w3.
Proof.
  cbv zeta.
  split; [intros k info Hget; discriminate Hget|].
  split; [vm_compute; eexists; reflexivity|].
  split; [vm_compute; eexists; reflexivity|].
  split; [vm_compute; reflexivity|].
  split; [vm_compute; eexists; reflexivity|].
  split; [vm_compute; reflexivity|].
  intros Hs.
  assert (is_Some (JsMap.get "__proto__"
            (managedTerminals
               (ensureTerminalsExist
                  (destroyTerminal (Js.IdStr "__proto__")
                     (ensureTerminalsExist protoReloadedWorld).2).2).2))) as [info Hget].
  { vm_compute. eexists. reflexivity. }
  destruct (Hs "__proto__" info Hget) as (d & Hd & _).
  revert Hd. vm_compute. discriminate.
Qed.
